(** * The adaptive batch inference-and-scoring engine of lighteval

    A shallow embedding of the scoring paths of
    [src/lighteval/models/transformers/transformers_model.py]:
    batch preparation, per-row score extraction, the generation budget,
    the batch-size probe, the multi-token stop criterion, single-token
    scoring, the preference-pair tokenizer and the paired scoring that
    follows it, the dialogue preparation and the size of a model; and of
    the document splitter of
    [src/lighteval/models/transformers/embed_model.py].

    Token ids, lengths and counts are Python integers and are modelled
    in [Z]; Python lists are [list]; a raised exception is a value of
    [result]. *)

From Stdlib Require Import ZArith Lia QArith Ascii String.
From stdpp Require Import list strings gmap.

Local Open Scope Z_scope.

(** ** Exceptions *)

Inductive exn : Type :=
  | ValueError (msg : string)
  | RuntimeError (msg : string)
  | IndexError
  | TypeError.

Inductive result (A : Type) : Type :=
  | Ok (a : A)
  | Raise (e : exn).

Arguments Ok {A} a.
Arguments Raise {A} e.

Global Instance result_ret : MRet result := fun A a => Ok a.

Global Instance result_bind : MBind result := fun A B k m =>
  match m with
  | Ok a => k a
  | Raise e => Raise e
  end.

(** [len l] is Python's [len(l)]. *)
Definition len {A : Type} (l : list A) : Z := Z.of_nat (length l).

(** ** Python list slicing and indexing *)

Module PySlice.

(** A slice bound: a negative bound counts from the end, and every
    bound is clamped into [0 .. len l]. *)
Definition bound {A : Type} (l : list A) (i : Z) : nat :=
  if i <? 0 then Z.to_nat (len l + i)
  else Nat.min (Z.to_nat i) (length l).

(** [l[a:]] *)
Definition from {A : Type} (l : list A) (a : Z) : list A :=
  drop (bound l a) l.

(** [l[:b]] *)
Definition upto {A : Type} (l : list A) (b : Z) : list A :=
  take (bound l b) l.

(** [l[a:b]] *)
Definition slice {A : Type} (l : list A) (a b : Z) : list A :=
  drop (bound l a) (take (bound l b) l).

(** [l[i]]: a negative index counts from the end; out of range raises. *)
Definition index {A : Type} (l : list A) (i : Z) : result A :=
  let j := if i <? 0 then len l + i else i in
  if j <? 0 then Raise IndexError
  else match l !! Z.to_nat j with
       | Some x => Ok x
       | None => Raise IndexError
       end.

End PySlice.

(** ** Python strings *)

(** A Python string is modelled by the [string] of its UTF-8 bytes. A
    substring of characters is a substring of bytes and conversely, so
    that [in], [replace] with a non-empty pattern and [split] work on
    the bytes; where characters are counted or classified, the bytes are
    read as UTF-8. *)

(** A byte that continues a character, [10xxxxxx]. *)
Definition is_continuation_byte (c : ascii) : bool :=
  let n := nat_of_ascii c in
  ((128 <=? n) && (n <=? 191))%nat.

(** [len(s)], the number of characters. *)
Fixpoint py_len (s : string) : Z :=
  match s with
  | EmptyString => 0
  | String c rest => (if is_continuation_byte c then 0 else 1) + py_len rest
  end.

(** [needle in haystack] *)
Fixpoint str_in (needle haystack : string) : bool :=
  if String.prefix needle haystack then true
  else match haystack with
       | EmptyString => false
       | String _ rest => str_in needle rest
       end.

(** [s.replace(old, new)] for a non-empty [old]: occurrences are
    replaced left to right, without overlap; [skip] counts the
    characters of a matched occurrence still to be dropped. *)
Fixpoint replace_from (old new : string) (skip : nat) (s : string) : string :=
  match s with
  | EmptyString => EmptyString
  | String c rest =>
      match skip with
      | S k => replace_from old new k rest
      | O =>
          if String.prefix old s
          then new +:+ replace_from old new (String.length old - 1) rest
          else String c (replace_from old new 0 rest)
      end
  end.

(** [s.replace("", new)] puts [new] before every character and at the end. *)
Fixpoint intersperse (new s : string) : string :=
  match s with
  | EmptyString => new
  | String c rest =>
      if is_continuation_byte c then String c (intersperse new rest)
      else new +:+ String c (intersperse new rest)
  end.

Definition str_replace (s old new : string) : string :=
  match old with
  | EmptyString => intersperse new s
  | _ => replace_from old new 0 s
  end.

(** The characters that [str.lstrip()] strips are those of
    [str.isspace]: U+0009 to U+000D and U+001C to U+0020, of one byte;
    U+0085 and U+00A0, of two bytes; U+1680, U+2000 to U+200A, U+2028,
    U+2029, U+202F, U+205F and U+3000, of three bytes. *)
Definition is_space (c : ascii) : bool :=
  let n := nat_of_ascii c in
  ((9 <=? n) && (n <=? 13) || (28 <=? n) && (n <=? 32))%nat.

Definition is_space2 (c1 c2 : ascii) : bool :=
  let n1 := nat_of_ascii c1 in
  let n2 := nat_of_ascii c2 in
  ((n1 =? 194) && ((n2 =? 133) || (n2 =? 160)))%nat.

Definition is_space3 (c1 c2 c3 : ascii) : bool :=
  let n1 := nat_of_ascii c1 in
  let n2 := nat_of_ascii c2 in
  let n3 := nat_of_ascii c3 in
  ((n1 =? 225) && (n2 =? 154) && (n3 =? 128)
   || (n1 =? 226) && (n2 =? 128)
      && ((128 <=? n3) && (n3 <=? 138) || (n3 =? 168) || (n3 =? 169) || (n3 =? 175))
   || (n1 =? 226) && (n2 =? 129) && (n3 =? 159)
   || (n1 =? 227) && (n2 =? 128) && (n3 =? 128))%nat.

(** [s.lstrip()]: leading whitespace is dropped. *)
Fixpoint lstrip (s : string) : string :=
  match s with
  | EmptyString => EmptyString
  | String c1 rest1 =>
      if is_space c1 then lstrip rest1
      else
        match rest1 with
        | EmptyString => s
        | String c2 rest2 =>
            if is_space2 c1 c2 then lstrip rest2
            else
              match rest2 with
              | EmptyString => s
              | String c3 rest3 =>
                  if is_space3 c1 c2 c3 then lstrip rest3 else s
              end
        end
  end.

(** ** The external collaborators: tokenizer and sequence model *)

Module Encoding.
Record t : Type := mk { input_ids : list Z; attention_mask : list Z }.
End Encoding.

(** The tokenizer is an external collaborator: [tokenize text special]
    is [tokenizer(text, add_special_tokens=special)], [decode] one row
    of [batch_decode]. *)
Record Tokenizer : Type := {
  tokenize : string -> bool -> Encoding.t;
  decode : list Z -> string;
  eos_token : string;
  pad_token_id : Z;
  eos_token_id : Z;
  bos_token_id : Z
}.

(** [tokenizer.encode(text, add_special_tokens=special)], which is also
    what [tok_encode] of the abstract model class calls. *)
Definition encode (tok : Tokenizer) (text : string) (special : bool) : list Z :=
  Encoding.input_ids (tokenize tok text special).

(** The attributes of [TransformersModel] that the scoring paths read.
    [find_executable_batch_size start length] is the decorated
    [forward_batch] probe of [_get_batch_size] (it runs the model and
    halves on an out-of-memory failure); [log_softmax_call] is
    [F.log_softmax(self._model_call(input_ids), dim=-1)], one vector of
    log-probabilities over the vocabulary per row and position;
    [add_special_tokens] is what [tok_encode] uses when the caller does
    not say. *)
Record TransformersModel : Type := {
  tokenizer : Tokenizer;
  _max_length : Z;
  DATASET_SPLITS : nat;
  add_special_tokens : bool;
  truncation_mode : string;
  max_prompt_length : Z;
  multichoice_continuations_start_space : option bool;
  find_executable_batch_size : Z -> Z -> result Z;
  log_softmax_call : list (list Z) -> list (list (list Q))
}.

Definition STARTING_BATCH_SIZE : Z := 512.

(** [self.label_pad_token_id], set to [-100] by the constructor. *)
Definition label_pad_token_id : Z := -100.

(** ** Batches *)

Record Batch : Type := mkBatch {
  input_ids : list (list Z);
  input_mask : list bool;
  input_lengths : list Z;
  truncated : list Z;
  padded : list Z
}.

Module LoglikelihoodRequest.
Record t : Type := mk {
  tokenized_context : list Z;
  tokenized_continuation : list Z
}.
End LoglikelihoodRequest.

(** ** [prepare_batch_logprob] *)

(** What one iteration of the row loop appends to the five lists. *)
Record Row : Type := mkRow {
  row_tokens : list Z;
  row_mask : list bool;
  row_length : Z;
  row_truncated : Z;
  row_padded : Z
}.

(** The loop over [inputs]. [padding_length] is rebound by the first
    iteration when the caller passed [None], and stays that way. *)
Fixpoint prepare_rows (pad_id max_context : Z) (padding_length : option Z)
    (inputs : list (list Z)) : result (list Row) :=
  match inputs with
  | [] => Ok []
  | orig_tokens :: rest =>
      let truncated := Z.max (len orig_tokens - max_context) 0 in
      let tokens := PySlice.from orig_tokens (- max_context) in
      let sequence_len := len tokens in
      let padding_length := default sequence_len padding_length in
      if padding_length - sequence_len <? 0
      then Raise (ValueError "Negative padding")
      else
        let tokens :=
          tokens ++ replicate (Z.to_nat (padding_length - sequence_len)) pad_id in
        let mask := map (fun t => t =? pad_id) tokens in
        rows ← prepare_rows pad_id max_context (Some padding_length) rest;
        Ok (mkRow tokens mask sequence_len truncated (padding_length - sequence_len)
              :: rows)
  end.

(** [inputs] of [prepare_batch_logprob]: the context alone in
    single-token mode, else the context followed by the continuation
    without its last token. *)
Definition batch_inputs (single_token : bool)
    (batch : list LoglikelihoodRequest.t) : list (list Z) :=
  if single_token
  then map LoglikelihoodRequest.tokenized_context batch
  else map (fun request =>
              LoglikelihoodRequest.tokenized_context request
              ++ PySlice.upto (LoglikelihoodRequest.tokenized_continuation request) (-1))
           batch.

(** [torch.cat] refuses an empty list of tensors; the row tensors are
    stacked, the one-dimensional masks are concatenated end to end. *)
Definition prepare_batch_logprob (self : TransformersModel)
    (batch : list LoglikelihoodRequest.t) (padding_length : option Z)
    (max_context : option Z) (single_token : bool) : result Batch :=
  let inputs := batch_inputs single_token batch in
  let max_context := default (_max_length self) max_context in
  rows ← prepare_rows (pad_token_id (tokenizer self)) max_context padding_length inputs;
  match rows with
  | [] => Raise (RuntimeError "torch.cat(): expected a non-empty list of Tensors")
  | _ =>
      Ok (mkBatch (map row_tokens rows)
                  (concat (map row_mask rows))
                  (map row_length rows)
                  (map row_truncated rows)
                  (map row_padded rows))
  end.

(** ** Tensor operations used by the score extractor *)

Definition Qlt_bool (a b : Q) : bool := negb (Qle_bool b a).

(** [torch.argmax] over one vocabulary vector: the index of the first
    maximal value. [best_i], [best] is the running maximum and [i] the
    index of the head of [row]. *)
Fixpoint argmax_from (best_i : nat) (best : Q) (i : nat) (row : list Q) : nat :=
  match row with
  | [] => best_i
  | x :: rest =>
      if Qlt_bool best x then argmax_from i x (S i) rest
      else argmax_from best_i best (S i) rest
  end.

Definition argmax (row : list Q) : result Z :=
  match row with
  | [] => Raise (RuntimeError "argmax(): expected a non-empty dimension")
  | x :: rest => Ok (Z.of_nat (argmax_from 0 x 1 rest))
  end.

(** [(greedy_tokens == cont_toks).all()] on tensors of shape [1, a] and
    [1, b]: equal sizes compare position by position, a size of one is
    broadcast against the other operand, anything else is refused. *)
Definition eq_all (greedy_tokens cont_toks : list Z) : result bool :=
  if len greedy_tokens =? len cont_toks
  then Ok (forallb (fun p => fst p =? snd p) (zip greedy_tokens cont_toks))
  else
    match greedy_tokens, cont_toks with
    | [g], _ => Ok (forallb (fun c => g =? c) cont_toks)
    | _, [c] => Ok (forallb (fun g => g =? c) greedy_tokens)
    | _, _ =>
        Raise (RuntimeError "The size of tensor a must match the size of tensor b")
    end.

(** One vocabulary lookup of [torch.gather]. *)
Definition gather1 (row : list Q) (token : Z) : result Q :=
  if token <? 0 then Raise (RuntimeError "index out of bounds")
  else match row !! Z.to_nat token with
       | Some x => Ok x
       | None => Raise (RuntimeError "index out of bounds")
       end.

(** [torch.gather(cur_logits, 2, cont_toks.unsqueeze(-1)).squeeze(-1)] for
    [cur_logits] of shape [1, L, V] and [cont_toks] of shape [1, C]: the
    index may not be longer than the input along the sequence dimension,
    and the output has the shape of the index. *)
Definition gather (cur_logits : list (list Q)) (cont_toks : list Z) : result (list Q) :=
  if len cur_logits <? len cont_toks
  then Raise (RuntimeError "Size does not match at dimension 1")
  else mapM (fun p => gather1 (fst p) (snd p)) (zip cur_logits cont_toks).

(** [tensor.sum()] *)
Definition Qsum (l : list Q) : Q := foldr Qplus 0%Q l.

(** ** The per-row body of [_loglikelihood_tokens] *)

(** The body of the loop over [zip(batch, logits, input_lengths)]:
    returns [(cur_logits.sum(), max_equal)]. *)
Definition score_row (tokenized_continuation : list Z)
    (cur_logits : list (list Q)) (inplen : Z) : result (Q * bool) :=
  let cont_toks := tokenized_continuation in
  let contlen := len cont_toks in
  let '(cur_logits, cont_toks) :=
    if contlen >? inplen
    then (cur_logits, PySlice.upto cont_toks inplen)
    else (PySlice.slice cur_logits (inplen - contlen) inplen, cont_toks) in
  greedy_tokens ← mapM argmax cur_logits;
  max_equal ← eq_all greedy_tokens cont_toks;
  cur_logits ← gather cur_logits cont_toks;
  Ok (Qsum cur_logits, max_equal).

(** [zip] of three lists stops at the shortest. *)
Fixpoint score_rows (batch : list LoglikelihoodRequest.t)
    (logits : list (list (list Q))) (input_lengths : list Z)
    : result (list (Q * bool)) :=
  match batch, logits, input_lengths with
  | cur_request :: batch', cur_logits :: logits', inplen :: lengths' =>
      r ← score_row (LoglikelihoodRequest.tokenized_continuation cur_request)
            cur_logits inplen;
      rs ← score_rows batch' logits' lengths';
      Ok (r :: rs)
  | _, _, _ => Ok []
  end.

(** One batch of [_loglikelihood_tokens]: prepare, call the model, score
    every row. *)
Definition score_batch (self : TransformersModel)
    (batch : list LoglikelihoodRequest.t) (max_context_continuation_size_allowed : Z)
    : result (list (Q * bool)) :=
  prepared_batch ← prepare_batch_logprob self batch
                     (Some max_context_continuation_size_allowed)
                     (Some max_context_continuation_size_allowed) false;
  let logits := log_softmax_call self (input_ids prepared_batch) in
  score_rows batch logits (input_lengths prepared_batch).

(** ** Single-token scoring *)

Module LoglikelihoodSingleTokenRequest.
Record t : Type := mk {
  context : string;
  choices : list string;
  tokenized_context : list Z;
  tokenized_continuation : list (list Z)
}.
End LoglikelihoodSingleTokenRequest.

(** [continuation[0]], of which the code only asks whether it is the
    space: the first byte. *)
Definition first_char (s : string) : result ascii :=
  match s with
  | EmptyString => Raise IndexError
  | String c _ => Ok c
  end.

Definition space : ascii := ascii_of_nat 32.

(** Both tests short-circuit: [continuation[0]] is read only when the
    flag on its left lets the test go on. *)
Definition _check_continuations_start_space (self : TransformersModel)
    (continuation : string) : result string :=
  match multichoice_continuations_start_space self with
  | None => Ok continuation
  | Some start_space =>
      continuation ←
        (if start_space
         then c ← first_char continuation;
              Ok (if negb (Ascii.eqb c space)
                  then String space continuation else continuation)
         else Ok continuation);
      if negb start_space
      then c ← first_char continuation;
           Ok (if Ascii.eqb c space then lstrip continuation else continuation)
      else Ok continuation
  end.

Definition single_token_error : exn :=
  ValueError "Trying to do single token multiple choice but one choice has several tokens".

(** The loop body of [loglikelihood_single_token] for one request. *)
Definition tokenize_single_token_request (self : TransformersModel)
    (request : LoglikelihoodSingleTokenRequest.t)
    : result LoglikelihoodSingleTokenRequest.t :=
  let tokenized_context :=
    if String.eqb (LoglikelihoodSingleTokenRequest.context request) ""
    then [eos_token_id (tokenizer self)]
    else encode (tokenizer self) (LoglikelihoodSingleTokenRequest.context request)
           (add_special_tokens self) in
  continuations ← mapM (_check_continuations_start_space self)
                    (LoglikelihoodSingleTokenRequest.choices request);
  let continuations_enc :=
    map (fun c => encode (tokenizer self) c false) continuations in
  if existsb (fun c => len c >? 1) continuations_enc
  then Raise single_token_error
  else Ok (LoglikelihoodSingleTokenRequest.mk
             (LoglikelihoodSingleTokenRequest.context request)
             (LoglikelihoodSingleTokenRequest.choices request)
             tokenized_context continuations_enc).

(** [loglikelihood_single_token] up to the call of
    [_loglikelihood_single_token]: every request is tokenized in turn,
    the first failure aborts the whole call. *)
Definition loglikelihood_single_token_requests (self : TransformersModel)
    (requests : list LoglikelihoodSingleTokenRequest.t)
    : result (list LoglikelihoodSingleTokenRequest.t) :=
  mapM (tokenize_single_token_request self) requests.

(** The tensor of one row's log-probabilities: a vector with one value
    per choice, or a matrix of [rows] rows without columns, which is
    what [torch.gather] returns for the index that choices without any
    token make. *)
Inductive Probs : Type :=
  | Vector (values : list Q)
  | NoColumns (rows : nat).

(** [logits[inplen - 1]] followed by [torch.gather(logits, 0, cont_toks)]
    in [_loglikelihood_single_token]; [cont_toks] is
    [torch.tensor(tokenized_continuation).squeeze(-1)]. The tensor can
    be built when the choices have one length; [squeeze(-1)] drops the
    last dimension when that length is one; [torch.gather] returns at
    once on an index without entries and refuses any other index of two
    dimensions on the one dimension of [logits]. *)
Definition single_token_probs (tokenized_continuation : list (list Z))
    (logits : list (list Q)) (inplen : Z) : result Probs :=
  logits ← PySlice.index logits (inplen - 1);
  match tokenized_continuation with
  | [] => Ok (Vector [])
  | first :: rest =>
      if negb (forallb (fun c => len c =? len first) rest)
      then Raise (ValueError "expected sequence of one length")
      else if len first =? 1
      then values ← mapM (gather1 logits) (concat tokenized_continuation);
           Ok (Vector values)
      else if len first =? 0
      then Ok (NoColumns (length tokenized_continuation))
      else Raise (RuntimeError
                    "Index tensor must have the same number of dimensions as input tensor")
  end.

(** The floating-point types of the model's output. *)
Inductive dtype : Type := float64 | float32 | float16 | bfloat16.

Definition significand_bits (d : dtype) : Z :=
  match d with
  | float64 => 53
  | float32 => 24
  | float16 => 11
  | bfloat16 => 8
  end.

(** A positive integer rounded to [p] significant bits, to the nearest
    and to even on a tie. *)
Definition round_significand (p n : Z) : Z :=
  let excess := Z.log2 n + 1 - p in
  if excess <=? 0 then n
  else
    let q := Z.shiftr n excess in
    let r := Z.land n (Z.ones excess) in
    let half := Z.shiftl 1 (excess - 1) in
    Z.shiftl (if (r >? half) || ((r =? half) && Z.odd q) then q + 1 else q) excess.

(** The value that an integer within the range of [d] takes when it is
    stored in a tensor of type [d]. *)
Definition cast_integer (d : dtype) (n : Z) : Z :=
  Z.sgn n * round_significand (significand_bits d) (Z.abs n).

(** The padding sentinel of the single-token path, [-65504.0], as
    [pad_sequence] stores it: the output tensor has the type of the
    log-probabilities, of which nothing changes the type between the
    model call and the padding. *)
Definition padding_value (d : dtype) : Q := inject_Z (cast_integer d (-65504)).

Definition max_length_of {A : Type} (sequences : list (list A)) : nat :=
  foldr Nat.max 0%nat (map length sequences).

(** [pad_sequence(sequences, batch_first=True, padding_value=v)] on
    vectors: every row is extended on the right to the length of the
    longest one. *)
Definition pad_sequence {A : Type} (sequences : list (list A)) (v : A)
    : result (list (list A)) :=
  match sequences with
  | [] => Raise (RuntimeError "received an empty list of sequences")
  | _ =>
      let n := max_length_of sequences in
      Ok (map (fun row => row ++ replicate (n - length row) v) sequences)
  end.

(** The padded tensor of a batch: a matrix with a row per request, or a
    tensor of [batch] times [rows] rows without columns, which has no
    entry. *)
Inductive PaddedProbs : Type :=
  | Matrix (rows : list (list Q))
  | NoColumnsBatch (batch rows : nat).

Definition size0 (probs : Probs) : nat :=
  match probs with
  | Vector values => length values
  | NoColumns rows => rows
  end.

(** [pad_sequence] on the tensors of a batch. The output takes its
    trailing dimensions from the first tensor and every tensor is copied
    into the front of its row. Into the rows of a matrix only vectors
    can be copied; into rows without columns a vector is broadcast when
    it has at most one entry. *)
Definition pad_probs (sequences : list Probs) (v : Q) : result PaddedProbs :=
  match sequences with
  | [] => Raise (RuntimeError "received an empty list of sequences")
  | Vector _ :: _ =>
      rows ← mapM (fun probs =>
                     match probs with
                     | Vector values => Ok values
                     | NoColumns _ =>
                         Raise (RuntimeError
                                  "output shape does not match the broadcast shape")
                     end) sequences;
      padded ← pad_sequence rows v;
      Ok (Matrix padded)
  | NoColumns _ :: _ =>
      if forallb (fun probs =>
                    match probs with
                    | Vector values => (length values <=? 1)%nat
                    | NoColumns _ => true
                    end) sequences
      then Ok (NoColumnsBatch (length sequences)
                 (foldr Nat.max 0%nat (map size0 sequences)))
      else Raise (RuntimeError
                    "The size of tensor a must match the size of tensor b")
  end.

(** [batch_probs] of one batch of [_loglikelihood_single_token]. *)
Fixpoint single_token_rows (batch : list LoglikelihoodSingleTokenRequest.t)
    (out : list (list (list Q))) (input_lengths : list Z)
    : result (list Probs) :=
  match batch, out, input_lengths with
  | cur_request :: batch', logits :: out', inplen :: lengths' =>
      probs ← single_token_probs
                (LoglikelihoodSingleTokenRequest.tokenized_continuation cur_request)
                logits inplen;
      rest ← single_token_rows batch' out' lengths';
      Ok (probs :: rest)
  | _, _, _ => Ok []
  end.

(** [batch_probs] after [pad_sequence]; [out_dtype] is the type of the
    model's output. *)
Definition single_token_batch_probs (out_dtype : dtype)
    (batch : list LoglikelihoodSingleTokenRequest.t)
    (out : list (list (list Q))) (input_lengths : list Z)
    : result PaddedProbs :=
  batch_probs ← single_token_rows batch out input_lengths;
  pad_probs batch_probs (padding_value out_dtype).

(** ** The generation budget of [greedy_until] *)

(** The branch of [greedy_until] that fixes [max_new_tokens] for a
    batch. [context_size] is the column count of the tokenized batch,
    [generation_size] the budget of the first request of the batch
    ([None] when unset). *)
Definition max_new_tokens (self : TransformersModel) (context_size : Z)
    (generation_size : option Z) : Z :=
  if context_size >? _max_length self then 1
  else
    match generation_size with
    | None => _max_length self - context_size
    | Some max_new_tokens =>
        let max_new_tokens := Z.min (_max_length self - context_size) max_new_tokens in
        if max_new_tokens <? 1 then 1 else max_new_tokens
    end.

(** ** The batch-size probe *)

(** [override_bs > 0] raises on [None]. *)
Definition _get_batch_size (self : TransformersModel) (max_input_length : Z)
    (override_bs : option Z) (starting_batch_size : Z) : result Z :=
  match override_bs with
  | None => Raise TypeError
  | Some override_bs =>
      if override_bs >? 0 then Ok override_bs
      else find_executable_batch_size self starting_batch_size max_input_length
  end.

(** ** The request dataset *)

(** [DataLoader(dataset, batch_size=n, collate_fn=lambda batch: batch)]:
    consecutive chunks of [n] items, the last one possibly shorter.
    [fuel] bounds the number of chunks. *)
Fixpoint chunks {A : Type} (fuel n : nat) (l : list A) : list (list A) :=
  match fuel with
  | O => []
  | S fuel' =>
      match l with
      | [] => []
      | _ => take n l :: chunks fuel' n (drop n l)
      end
  end.

Definition DataLoader {A : Type} (dataset : list A) (batch_size : Z)
    : result (list (list A)) :=
  if batch_size <=? 0
  then Raise (ValueError "batch_size should be a positive integer value")
  else Ok (chunks (length dataset) (Z.to_nat batch_size) dataset).

(** Modelled from the spec: the sort of the request dataset of
    [lighteval.data], whose source is not part of the engine file.
    Requests are paired with their position in the caller's list and
    ordered by descending [sorting_criteria] (combined context and
    generation length), longest first. *)
Fixpoint insert_sorted {A : Type} (sorting_criteria : A -> Z)
    (x : nat * A) (l : list (nat * A)) : list (nat * A) :=
  match l with
  | [] => [x]
  | y :: l' =>
      if sorting_criteria (snd y) <=? sorting_criteria (snd x)
      then x :: l
      else y :: insert_sorted sorting_criteria x l'
  end.

(** Modelled from the spec: [sorted(enumerate(requests))] of the
    request dataset of [lighteval.data]. *)
Definition sorted_enumerated_requests {A : Type} (sorting_criteria : A -> Z)
    (requests : list A) : list (nat * A) :=
  foldr (insert_sorted sorting_criteria) [] (zip (seq 0 (length requests)) requests).

(** Modelled from the spec: the request dataset of [lighteval.data];
    [sorted_data] are the requests longest first and [original_order]
    the positions they had in the caller's list. *)
Record Dataset (A : Type) : Type := mkDataset {
  sorted_data : list A;
  original_order : list nat;
  num_dataset_splits : nat
}.

Arguments mkDataset {A} _ _ _.
Arguments sorted_data {A} _.
Arguments original_order {A} _.
Arguments num_dataset_splits {A} _.

(** Modelled from the spec: the constructor of the request dataset of
    [lighteval.data]. *)
Definition make_dataset {A : Type} (sorting_criteria : A -> Z)
    (requests : list A) (num_dataset_splits : nat) : Dataset A :=
  let sorted := sorted_enumerated_requests sorting_criteria requests in
  mkDataset (map snd sorted) (map fst sorted) num_dataset_splits.

(** Modelled from the spec: [splits_start_end_iterator] of the request
    dataset of [lighteval.data], as the contiguous groups of whole
    requests that it yields one after the other. *)
Definition dataset_splits {A : Type} (dataset : Dataset A) : list (list A) :=
  let total := length (sorted_data dataset) in
  chunks total (total / num_dataset_splits dataset + 1)%nat (sorted_data dataset).

(** Modelled from the spec: [get_original_order] of the request dataset
    of [lighteval.data]. Every result goes to the slot its request had
    in the caller's list; a slot left empty is an error. *)
Definition get_original_order {A R : Type} (dataset : Dataset A)
    (new_arr : list R) : result (list R) :=
  let slots :=
    foldl (fun slots p => <[fst p := Some (snd p)]> slots)
          (replicate (length (sorted_data dataset)) None)
          (zip (original_order dataset) new_arr) in
  match mapM (M := option) id slots with
  | Some l => Ok l
  | None => Raise (RuntimeError "Some elements of the original order are missing")
  end.

(** [dataset[0]] inside a split. *)
Definition first_of_split {A : Type} (split : list A) : result A :=
  match split with
  | [] => Raise IndexError
  | x :: _ => Ok x
  end.

(** One call of the probe: the starting size handed to
    [_get_batch_size] and the batch size it returned. *)
Record Probe : Type := mkProbe { probe_start : Z; probe_result : Z }.

(** ** [greedy_until] *)

Module GreedyUntilRequest.
Record t : Type := mk {
  context : string;
  stop_sequence : list string;
  generation_size : option Z;
  tokenized_context : list Z
}.
End GreedyUntilRequest.

(** The first loop of [greedy_until], for one request. *)
Definition prepare_generation_request (self : TransformersModel)
    (request : GreedyUntilRequest.t) : GreedyUntilRequest.t :=
  GreedyUntilRequest.mk
    (GreedyUntilRequest.context request)
    (GreedyUntilRequest.stop_sequence request ++ [eos_token (tokenizer self)])
    (GreedyUntilRequest.generation_size request)
    (encode (tokenizer self) (GreedyUntilRequest.context request)
       (add_special_tokens self)).

(** The loop over the splits in [greedy_until]. The body of the inner
    loop over the batches (tokenizer call, budget, [_generate]) is
    [generate_batch]; the log of the probe calls is kept next to the
    results. *)
Fixpoint greedy_until_splits {R : Type} (self : TransformersModel)
    (override_bs : option Z)
    (generate_batch : Z -> list GreedyUntilRequest.t -> result (list R))
    (starting_batch_size : Z) (splits : list (list GreedyUntilRequest.t))
    : result (list Probe * list R) :=
  match splits with
  | [] => Ok ([], [])
  | split :: rest =>
      first ← first_of_split split;
      let max_context_continuation_size_allowed :=
        match GreedyUntilRequest.generation_size first with
        | None => _max_length self
        | Some generation_size =>
            Z.min (len (GreedyUntilRequest.tokenized_context first) + generation_size)
                  (_max_length self)
        end in
      batch_size ← _get_batch_size self max_context_continuation_size_allowed
                     override_bs starting_batch_size;
      let probe := mkProbe starting_batch_size batch_size in
      let starting_batch_size := batch_size * 2 in
      dataloader ← DataLoader split batch_size;
      cur_responses ← mapM (generate_batch max_context_continuation_size_allowed)
                        dataloader;
      '(probes, results) ← greedy_until_splits self override_bs generate_batch
                             starting_batch_size rest;
      Ok (probe :: probes, concat cur_responses ++ results)
  end.

(** Modelled from the spec: the sorting criterion of the generation
    dataset of [lighteval.data], the combined context and generation
    length. *)
Definition generation_length (request : GreedyUntilRequest.t) : Z :=
  len (GreedyUntilRequest.tokenized_context request)
  + default 0 (GreedyUntilRequest.generation_size request).

Definition greedy_until_run {R : Type} (self : TransformersModel)
    (generate_batch : Z -> list GreedyUntilRequest.t -> result (list R))
    (requests : list GreedyUntilRequest.t) (override_bs : option Z)
    : result (list Probe * list R) :=
  let requests := map (prepare_generation_request self) requests in
  let dataset := make_dataset generation_length requests (DATASET_SPLITS self) in
  '(probes, results) ← greedy_until_splits self override_bs generate_batch
                         STARTING_BATCH_SIZE (dataset_splits dataset);
  out ← get_original_order dataset results;
  Ok (probes, out).

Definition greedy_until {R : Type} (self : TransformersModel)
    (generate_batch : Z -> list GreedyUntilRequest.t -> result (list R))
    (requests : list GreedyUntilRequest.t) (override_bs : option Z)
    : result (list R) :=
  r ← greedy_until_run self generate_batch requests override_bs;
  Ok (snd r).

(** ** [_loglikelihood_tokens] *)

(** The loop over the splits in [_loglikelihood_tokens]; [score] is the
    body of the inner loop over the batches, [score_batch] in the
    engine. *)
Fixpoint loglikelihood_tokens_splits {R : Type} (self : TransformersModel)
    (override_bs : option Z) (rolling : bool)
    (score : Z -> list LoglikelihoodRequest.t -> result (list R))
    (starting_batch_size : Z) (splits : list (list LoglikelihoodRequest.t))
    : result (list Probe * list R) :=
  match splits with
  | [] => Ok ([], [])
  | split :: rest =>
      first ← first_of_split split;
      let context_enc := LoglikelihoodRequest.tokenized_context first in
      let continuation_enc := LoglikelihoodRequest.tokenized_continuation first in
      let max_context_continuation_size_allowed :=
        if rolling then len (context_enc ++ continuation_enc)
        else len (PySlice.upto
                    (PySlice.from (context_enc ++ continuation_enc)
                       (- (_max_length self + 1)))
                    (-1)) in
      batch_size ← _get_batch_size self max_context_continuation_size_allowed
                     override_bs starting_batch_size;
      let probe := mkProbe starting_batch_size batch_size in
      let starting_batch_size := batch_size * 2 in
      dataloader ← DataLoader split batch_size;
      answers ← mapM (score max_context_continuation_size_allowed) dataloader;
      '(probes, res) ← loglikelihood_tokens_splits self override_bs rolling score
                         starting_batch_size rest;
      Ok (probe :: probes, concat answers ++ res)
  end.

(** Modelled from the spec: the sorting criterion of the log-likelihood
    dataset of [lighteval.data], the combined length of context and
    continuation. *)
Definition loglikelihood_length (request : LoglikelihoodRequest.t) : Z :=
  len (LoglikelihoodRequest.tokenized_context request
       ++ LoglikelihoodRequest.tokenized_continuation request).

Definition loglikelihood_tokens_run {R : Type} (self : TransformersModel)
    (score : Z -> list LoglikelihoodRequest.t -> result (list R))
    (requests : list LoglikelihoodRequest.t) (override_bs : option Z)
    (rolling : bool) : result (list Probe * list R) :=
  let dataset := make_dataset loglikelihood_length requests (DATASET_SPLITS self) in
  '(probes, res) ← loglikelihood_tokens_splits self override_bs rolling score
                     STARTING_BATCH_SIZE (dataset_splits dataset);
  out ← get_original_order dataset res;
  Ok (probes, out).

Definition _loglikelihood_tokens {R : Type} (self : TransformersModel)
    (score : Z -> list LoglikelihoodRequest.t -> result (list R))
    (requests : list LoglikelihoodRequest.t) (override_bs : option Z)
    (rolling : bool) : result (list R) :=
  r ← loglikelihood_tokens_run self score requests override_bs rolling;
  Ok (snd r).

(** ** [_loglikelihood_single_token] *)

(** The loop over the splits in [_loglikelihood_single_token]. The call
    of [_get_batch_size] names no starting size, so the default of the
    signature, 512, is what the probe gets; the local
    [starting_batch_size] is not read. *)
Fixpoint loglikelihood_single_token_splits {R : Type} (self : TransformersModel)
    (override_bs : option Z)
    (score : Z -> list LoglikelihoodSingleTokenRequest.t -> result (list R))
    (starting_batch_size : Z)
    (splits : list (list LoglikelihoodSingleTokenRequest.t))
    : result (list Probe * list R) :=
  match splits with
  | [] => Ok ([], [])
  | split :: rest =>
      first ← first_of_split split;
      let context_enc := LoglikelihoodSingleTokenRequest.tokenized_context first in
      let max_context := len (PySlice.from context_enc (- _max_length self)) in
      batch_size ← _get_batch_size self max_context override_bs 512;
      let probe := mkProbe 512 batch_size in
      dataloader ← DataLoader split batch_size;
      answers ← mapM (score max_context) dataloader;
      '(probes, res) ← loglikelihood_single_token_splits self override_bs score
                         starting_batch_size rest;
      Ok (probe :: probes, concat answers ++ res)
  end.

(** Modelled from the spec: the sorting criterion of the single-token
    dataset of [lighteval.data], the length of the context. *)
Definition single_token_length (request : LoglikelihoodSingleTokenRequest.t) : Z :=
  len (LoglikelihoodSingleTokenRequest.tokenized_context request).

Definition loglikelihood_single_token_run {R : Type} (self : TransformersModel)
    (score : Z -> list LoglikelihoodSingleTokenRequest.t -> result (list R))
    (requests : list LoglikelihoodSingleTokenRequest.t) (override_bs : option Z)
    : result (list Probe * list R) :=
  let dataset := make_dataset single_token_length requests (DATASET_SPLITS self) in
  '(probes, res) ← loglikelihood_single_token_splits self override_bs score
                     STARTING_BATCH_SIZE (dataset_splits dataset);
  out ← get_original_order dataset res;
  Ok (probes, out).

(** ** The multi-token stop criterion *)

Module MultiTokenEOSCriteria.

Record t : Type := mk {
  initial_decoder_input_length : Z;
  done_tracker : list bool;
  sequence : string;
  sequence_ids : list Z;
  sequence_id_len : Z;
  tokenizer : Tokenizer
}.

(** [__init__]; the shape is that of [batch.input_ids] when a batch is
    given, else [input_ids_shape]. *)
Definition init (sequence : string) (tokenizer : Tokenizer)
    (batch : option Batch) (input_ids_shape : option (Z * Z)) : result t :=
  shape ←
    match batch, input_ids_shape with
    | Some batch, _ =>
        Ok (len (input_ids batch),
            match input_ids batch with
            | [] => 0
            | row :: _ => len row
            end)
    | None, Some shape => Ok shape
    | None, None => Raise TypeError
    end;
  let sequence_ids := encode tokenizer sequence false in
  Ok (mk (snd shape)
         (replicate (Z.to_nat (fst shape)) false)
         sequence sequence_ids (len sequence_ids) tokenizer).

(** [input_ids[:, initial_decoder_input_length:][:, -sequence_id_len:]],
    one row. *)
Definition lookback_ids (self : t) (row : list Z) : list Z :=
  PySlice.from (PySlice.from row (initial_decoder_input_length self))
               (- sequence_id_len self).

(** The loop over [enumerate(self.done_tracker)]; [i] is the index of
    the head of [tracker]. *)
Fixpoint update_done (sequence : string) (lookback_tokens_batch : list string)
    (i : nat) (tracker : list bool) : result (list bool) :=
  match tracker with
  | [] => Ok []
  | done :: rest =>
      done ← (if negb done
              then match lookback_tokens_batch !! i with
                   | Some window => Ok (str_in sequence window)
                   | None => Raise IndexError
                   end
              else Ok done);
      rest ← update_done sequence lookback_tokens_batch (S i) rest;
      Ok (done :: rest)
  end.

(** [__call__]: the returned flag and the criterion with its updated
    tracker. *)
Definition call (self : t) (input_ids : list (list Z)) : result (bool * t) :=
  let lookback_ids_batch := map (lookback_ids self) input_ids in
  let lookback_tokens_batch := map (decode (tokenizer self)) lookback_ids_batch in
  tracker ← update_done (sequence self) lookback_tokens_batch 0 (done_tracker self);
  Ok (forallb id tracker,
      mk (initial_decoder_input_length self) tracker (sequence self)
         (sequence_ids self) (sequence_id_len self) (tokenizer self)).


End MultiTokenEOSCriteria.

(** ** The preference-pair tokenizer *)

Module Preference.

Record Request : Type := mkRequest {
  context : string;
  chosen_continuation : string;
  rejected_continuation : string
}.

(** The dictionary returned by [build_tokenized_answer]. *)
Record Answer : Type := mkAnswer {
  prompt_input_ids : list Z;
  prompt_attention_mask : list Z;
  input_ids : list Z;
  attention_mask : list Z
}.

Definition build_tokenized_answer (self : TransformersModel)
    (prompt answer : string) : result Answer :=
  let full_tokenized := tokenize (tokenizer self) (prompt +:+ answer) false in
  let prompt_input_ids := Encoding.input_ids (tokenize (tokenizer self) prompt false) in
  let answer_input_ids :=
    PySlice.from (Encoding.input_ids full_tokenized) (len prompt_input_ids) in
  let full_concat_input_ids := prompt_input_ids ++ answer_input_ids in
  let full_input_ids := Encoding.input_ids full_tokenized in
  if negb (len full_input_ids =? len full_concat_input_ids)
  then Raise (ValueError "Prompt input ids and answer input ids should have the same length.")
  else
    let response_token_ids_start_idx := len prompt_input_ids in
    let response_token_ids_start_idx :=
      if bool_decide (prompt_input_ids
                      <> PySlice.upto (Encoding.input_ids full_tokenized)
                           response_token_ids_start_idx)
      then response_token_ids_start_idx - 1
      else response_token_ids_start_idx in
    let prompt_input_ids :=
      PySlice.upto (Encoding.input_ids full_tokenized) response_token_ids_start_idx in
    let prompt_attention_mask :=
      PySlice.upto (Encoding.attention_mask full_tokenized) response_token_ids_start_idx in
    if negb (len prompt_input_ids =? len prompt_attention_mask)
    then Raise (ValueError "Prompt input ids and attention mask should have the same length.")
    else
      Ok (mkAnswer prompt_input_ids prompt_attention_mask
            (PySlice.from (Encoding.input_ids full_tokenized) response_token_ids_start_idx)
            (PySlice.from (Encoding.attention_mask full_tokenized)
               response_token_ids_start_idx)).

(** The first truncation loop of [tokenize_row], for one of the three
    dictionaries: only the two prompt entries change. *)
Definition truncate_prompt (self : TransformersModel) (longer_response_length : Z)
    (prompt_ids prompt_mask : list Z) : result (list Z * list Z) :=
  if len prompt_ids + longer_response_length >? _max_length self
  then
    if String.eqb (truncation_mode self) "keep_start"
    then Ok (PySlice.upto prompt_ids (max_prompt_length self),
             PySlice.upto prompt_mask (max_prompt_length self))
    else if String.eqb (truncation_mode self) "keep_end"
    then Ok (PySlice.from prompt_ids (- max_prompt_length self),
             PySlice.from prompt_mask (- max_prompt_length self))
    else Raise (ValueError "Unknown truncation mode")
  else Ok (prompt_ids, prompt_mask).

(** The second truncation loop, for one of the two answers. *)
Definition truncate_response (self : TransformersModel) (longer_response_length : Z)
    (answer_tokens : Answer) : Answer :=
  if len (prompt_input_ids answer_tokens) + longer_response_length >? _max_length self
  then
    mkAnswer (prompt_input_ids answer_tokens) (prompt_attention_mask answer_tokens)
      (PySlice.upto (input_ids answer_tokens)
         (_max_length self - max_prompt_length self))
      (PySlice.upto (attention_mask answer_tokens)
         (_max_length self - max_prompt_length self))
  else answer_tokens.

(** [labels = input_ids[:]; labels[:n] = [label_pad_token_id] * n] *)
Definition mask_labels (sequence_input_ids : list Z) (n : Z) : list Z :=
  replicate (Z.to_nat n) label_pad_token_id
  ++ drop (PySlice.bound sequence_input_ids n) sequence_input_ids.

(** The dictionary returned by [tokenize_row]. *)
Record Row : Type := mkRow {
  chosen_input_ids : list Z;
  chosen_attention_mask : list Z;
  chosen_labels : list Z;
  rejected_input_ids : list Z;
  rejected_attention_mask : list Z;
  rejected_labels : list Z;
  row_prompt_input_ids : list Z;
  row_prompt_attention_mask : list Z
}.

(** [tokenize_row] together with its intermediate dictionaries
    [chosen_tokens] and [rejected_tokens] as they stand when the labels
    are created. *)
Definition tokenize_row_full (self : TransformersModel) (request : Request)
    : result (Answer * Answer * Row) :=
  let prompt := context request in
  let chosen := str_replace (chosen_continuation request) prompt "" in
  let rejected := str_replace (rejected_continuation request) prompt "" in
  let prompt_tokens := tokenize (tokenizer self) prompt false in
  chosen_tokens ← build_tokenized_answer self prompt chosen;
  rejected_tokens ← build_tokenized_answer self prompt rejected;
  let bos := bos_token_id (tokenizer self) in
  let eos := eos_token_id (tokenizer self) in
  let prompt_ids := bos :: Encoding.input_ids prompt_tokens in
  let prompt_mask := 1 :: Encoding.attention_mask prompt_tokens in
  let chosen_tokens :=
    mkAnswer (bos :: prompt_input_ids chosen_tokens)
             (1 :: prompt_attention_mask chosen_tokens)
             (input_ids chosen_tokens ++ [eos])
             (attention_mask chosen_tokens ++ [1]) in
  let rejected_tokens :=
    mkAnswer (bos :: prompt_input_ids rejected_tokens)
             (1 :: prompt_attention_mask rejected_tokens)
             (input_ids rejected_tokens ++ [eos])
             (attention_mask rejected_tokens ++ [1]) in
  let longer_response_length :=
    Z.max (len (input_ids chosen_tokens)) (len (input_ids rejected_tokens)) in
  c ← truncate_prompt self longer_response_length
        (prompt_input_ids chosen_tokens) (prompt_attention_mask chosen_tokens);
  let chosen_tokens :=
    mkAnswer (fst c) (snd c) (input_ids chosen_tokens) (attention_mask chosen_tokens) in
  r ← truncate_prompt self longer_response_length
        (prompt_input_ids rejected_tokens) (prompt_attention_mask rejected_tokens);
  let rejected_tokens :=
    mkAnswer (fst r) (snd r) (input_ids rejected_tokens)
             (attention_mask rejected_tokens) in
  p ← truncate_prompt self longer_response_length prompt_ids prompt_mask;
  let chosen_tokens := truncate_response self longer_response_length chosen_tokens in
  let rejected_tokens := truncate_response self longer_response_length rejected_tokens in
  let chosen_sequence_input_ids :=
    prompt_input_ids chosen_tokens ++ input_ids chosen_tokens in
  let rejected_sequence_input_ids :=
    prompt_input_ids rejected_tokens ++ input_ids rejected_tokens in
  Ok (chosen_tokens, rejected_tokens,
      mkRow chosen_sequence_input_ids
            (prompt_attention_mask chosen_tokens ++ attention_mask chosen_tokens)
            (mask_labels chosen_sequence_input_ids
               (len (prompt_input_ids chosen_tokens)))
            rejected_sequence_input_ids
            (prompt_attention_mask rejected_tokens ++ attention_mask rejected_tokens)
            (mask_labels rejected_sequence_input_ids
               (len (prompt_input_ids rejected_tokens)))
            (fst p) (snd p)).

Definition tokenize_row (self : TransformersModel) (request : Request) : result Row :=
  r ← tokenize_row_full self request;
  Ok (snd r).

End Preference.

(** ** Concrete collaborators for the examples *)

(** A tokenizer with one token per byte, the value of the byte. *)
Definition char_tokenizer : Tokenizer := {|
  tokenize := fun text _ =>
    let ids := map (fun c => Z.of_nat (nat_of_ascii c)) (list_ascii_of_string text) in
    Encoding.mk ids (map (fun _ => 1) ids);
  decode := fun ids =>
    string_of_list_ascii (map (fun t => ascii_of_nat (Z.to_nat t)) ids);
  eos_token := "</s>";
  pad_token_id := 0;
  eos_token_id := 2;
  bos_token_id := 1
|}.

(** A model over [char_tokenizer] with a window of [max_length] tokens,
    whose probe finds an eighth of the size it starts from and whose
    forward pass is [forward]. *)
Definition example_model (max_length : Z)
    (forward : list (list Z) -> list (list (list Q))) : TransformersModel := {|
  tokenizer := char_tokenizer;
  _max_length := max_length;
  DATASET_SPLITS := 2;
  add_special_tokens := false;
  truncation_mode := "keep_end";
  max_prompt_length := 128;
  multichoice_continuations_start_space := None;
  find_executable_batch_size := fun start _ => Ok (Z.max 1 (start / 8));
  log_softmax_call := forward
|}.

Definition no_forward : list (list Z) -> list (list (list Q)) := fun _ => [].


(** Three single-token requests with contexts of three, two and one
    token, and three log-likelihood requests of the same contexts. *)
Definition single_token_requests : list LoglikelihoodSingleTokenRequest.t :=
  [ LoglikelihoodSingleTokenRequest.mk "abc" ["x"; "y"] [97; 98; 99] [[120]; [121]];
    LoglikelihoodSingleTokenRequest.mk "ab" ["x"; "y"] [97; 98] [[120]; [121]];
    LoglikelihoodSingleTokenRequest.mk "a" ["x"; "y"] [97] [[120]; [121]] ].

Definition loglikelihood_requests : list LoglikelihoodRequest.t :=
  [ LoglikelihoodRequest.mk [97; 98; 99] [120];
    LoglikelihoodRequest.mk [97; 98] [120];
    LoglikelihoodRequest.mk [97] [120] ].

(** A batch body that answers every request with the width of its group. *)
Definition answer_width {A : Type} (width : Z) (batch : list A) : result (list Z) :=
  Ok (map (fun _ => width) batch).




(** The row of a log-likelihood request before truncation, in the
    words of the spec: the context followed by the continuation without
    its final token. *)
Definition logprob_input (request : LoglikelihoodRequest.t) : list Z :=
  LoglikelihoodRequest.tokenized_context request
  ++ removelast (LoglikelihoodRequest.tokenized_continuation request).

(** Truncation from the left to at most [n] tokens. *)
Definition keep_last {A : Type} (n : nat) (l : list A) : list A :=
  drop (length l - n) l.

(** A request with a context of two tokens and a continuation of two. *)
Definition short_request : LoglikelihoodRequest.t :=
  LoglikelihoodRequest.mk [5; 6] [7; 8].

(** Two single-token requests with one and with two choices, and the
    log-probabilities of a vocabulary of two tokens at their one input
    position (the log-softmax of logits 70000 apart). *)
Definition uneven_choice_requests : list LoglikelihoodSingleTokenRequest.t :=
  [ LoglikelihoodSingleTokenRequest.mk "a" ["x"] [97] [[0]];
    LoglikelihoodSingleTokenRequest.mk "b" ["x"; "y"] [98] [[0]; [1]] ].

Definition uneven_choice_out : list (list (list Q)) :=
  [ [[(-70000)%Q; 0%Q]]; [[(-70000)%Q; 0%Q]] ].

(** The token that greedy decoding picks at a position, and the
    log-probability of a token at a position. *)
Definition greedy_at (cur_logits : list (list Q)) (pos : nat) : option Z :=
  match cur_logits !! pos with
  | Some row => match argmax row with Ok t => Some t | Raise _ => None end
  | None => None
  end.

Definition logit_at (cur_logits : list (list Q)) (pos : nat) (token : Z) : option Q :=
  match cur_logits !! pos with
  | Some row => match gather1 row token with Ok x => Some x | Raise _ => None end
  | None => None
  end.

(** A forward pass over a vocabulary of three tokens that answers every
    row with the same three positions: token 1 takes all the probability
    at the first position, token 0 at the other two (the log-softmax of
    logits 100 apart, as single precision rounds it). *)
Definition three_positions : list (list Z) -> list (list (list Q)) :=
  map (fun _ => [ [(-100)%Q; 0%Q; (-100)%Q];
                  [0%Q; (-100)%Q; (-100)%Q];
                  [0%Q; (-100)%Q; (-100)%Q] ]).

(** A request of full width and a request without context tokens whose
    continuation has two tokens. *)
Definition wide_request : LoglikelihoodRequest.t :=
  LoglikelihoodRequest.mk [1; 2] [2; 1].

Definition contextless_request : LoglikelihoodRequest.t :=
  LoglikelihoodRequest.mk [] [1; 2].





Definition step_one : list (list Z) :=
  [ [120; 120; 120; 99; 97]; [120; 120; 120; 97; 98] ].


(** Where the answer starts in the encoding of prompt and answer: after
    as many tokens as the prompt has on its own, one token earlier when
    those tokens are not the prompt's, the last of them having merged
    with the answer. *)
Definition answer_start (self : TransformersModel) (prompt answer : string) : nat :=
  let prompt_ids := encode (tokenizer self) prompt false in
  let full := encode (tokenizer self) (prompt +:+ answer) false in
  if bool_decide (prompt_ids = take (length prompt_ids) full)
  then length prompt_ids
  else (length prompt_ids - 1)%nat.

(** The scenario of the spec: prompt "2+2=", chosen "4", rejected "5". *)
Definition sum_request : Preference.Request :=
  Preference.mkRequest "2+2=" "4" "5".

(** One token per character, except that "=" directly followed by "4" is
    the single token 1000. *)
Fixpoint merge_equals_four (ids : list Z) : list Z :=
  match ids with
  | [] => []
  | a :: rest =>
      match rest with
      | [] => [a]
      | b :: rest' =>
          if (a =? 61) && (b =? 52) then 1000 :: merge_equals_four rest'
          else a :: merge_equals_four rest
      end
  end.

Definition merging_tokenizer : Tokenizer := {|
  tokenize := fun text special =>
    let ids := merge_equals_four (Encoding.input_ids (tokenize char_tokenizer text special)) in
    Encoding.mk ids (map (fun _ => 1) ids);
  decode := decode char_tokenizer;
  eos_token := "</s>";
  pad_token_id := 0;
  eos_token_id := 2;
  bos_token_id := 1
|}.

Definition merging_model : TransformersModel := {|
  tokenizer := merging_tokenizer;
  _max_length := 64;
  DATASET_SPLITS := 2;
  add_special_tokens := false;
  truncation_mode := "keep_end";
  max_prompt_length := 128;
  multichoice_continuations_start_space := None;
  find_executable_batch_size := fun start _ => Ok (Z.max 1 (start / 8));
  log_softmax_call := no_forward
|}.

(** What [tokenize_row] returns for [sum_request] over [char_tokenizer]. *)
Definition sum_row : Preference.Row := {|
  Preference.chosen_input_ids := [1; 50; 43; 50; 61; 52; 2];
  Preference.chosen_attention_mask := [1; 1; 1; 1; 1; 1; 1];
  Preference.chosen_labels := [-100; -100; -100; -100; -100; 52; 2];
  Preference.rejected_input_ids := [1; 50; 43; 50; 61; 53; 2];
  Preference.rejected_attention_mask := [1; 1; 1; 1; 1; 1; 1];
  Preference.rejected_labels := [-100; -100; -100; -100; -100; 53; 2];
  Preference.row_prompt_input_ids := [1; 50; 43; 50; 61];
  Preference.row_prompt_attention_mask := [1; 1; 1; 1; 1]
|}.

(** The two parts of a sequence before any truncation: BOS followed by
    the tokens before the start of the answer in the encoding of prompt
    and answer, and the rest of that encoding followed by EOS. *)
Definition prompt_part (self : TransformersModel) (prompt answer : string) : list Z :=
  bos_token_id (tokenizer self)
  :: take (answer_start self prompt answer)
       (encode (tokenizer self) (prompt +:+ answer) false).

Definition answer_part (self : TransformersModel) (prompt answer : string) : list Z :=
  drop (answer_start self prompt answer)
    (encode (tokenizer self) (prompt +:+ answer) false)
  ++ [eos_token_id (tokenizer self)].

(** A prompt part that, with the longer of the two answers, exceeds the
    maximum length is cut to the slice [[:max_prompt_length]] in the mode
    "keep_start" and to the slice [[-max_prompt_length:]] otherwise. *)
Definition cut_prompt_part (self : TransformersModel) (longer_response_length : Z)
    (part : list Z) : list Z :=
  if len part + longer_response_length >? _max_length self
  then if String.eqb (truncation_mode self) "keep_start"
       then PySlice.upto part (max_prompt_length self)
       else PySlice.from part (- max_prompt_length self)
  else part.

(** An answer part whose prompt part, as it was cut, still exceeds the
    maximum length with the longer of the two answers is cut to the
    slice [[:max_length - max_prompt_length]]. *)
Definition cut_answer_part (self : TransformersModel) (longer_response_length : Z)
    (cut_prompt part : list Z) : list Z :=
  if len cut_prompt + longer_response_length >? _max_length self
  then PySlice.upto part (_max_length self - max_prompt_length self)
  else part.

(** The probe finds a batch size of at least one row, whatever it is
    started from. *)
Definition probe_succeeds (self : TransformersModel) : Prop :=
  forall start max_input_length,
    exists batch_size,
      find_executable_batch_size self start max_input_length = Ok batch_size
      /\ 0 < batch_size.

(** Three generation requests, the second one the longest. *)
Definition generation_requests : list GreedyUntilRequest.t :=
  [ GreedyUntilRequest.mk "ab" [] (Some 4) [];
    GreedyUntilRequest.mk "abcd" [] (Some 4) [];
    GreedyUntilRequest.mk "abc" [] (Some 4) [] ].

(** ** Cutting a generation at its stop sequences *)

(** The text of [s] before the first occurrence of [term]. *)
Fixpoint before_first (term s : string) : string :=
  if String.prefix term s then EmptyString
  else match s with
       | EmptyString => EmptyString
       | String c rest => String c (before_first term rest)
       end.

(** [s.split(term)[0]]; [str.split] refuses an empty separator. *)
Definition split_first (s term : string) : result string :=
  match term with
  | EmptyString => Raise (ValueError "empty separator")
  | _ => Ok (before_first term s)
  end.

(** The loop [for term in stop_tokens: decoded_generation =
    decoded_generation.split(term)[0]] of [_generate] and of
    [greedy_until_multi_turn]. *)
Fixpoint cut_stop_terms (stop_tokens : list string) (decoded_generation : string)
    : result string :=
  match stop_tokens with
  | [] => Ok decoded_generation
  | term :: rest =>
      decoded_generation ← split_first decoded_generation term;
      cut_stop_terms rest decoded_generation
  end.

(** A model over [char_tokenizer] whose start-space flag is [flag]. *)
Definition start_space_model (flag : option bool) : TransformersModel := {|
  tokenizer := char_tokenizer;
  _max_length := 16;
  DATASET_SPLITS := 2;
  add_special_tokens := false;
  truncation_mode := "keep_end";
  max_prompt_length := 128;
  multichoice_continuations_start_space := flag;
  find_executable_batch_size := fun start _ => Ok (Z.max 1 (start / 8));
  log_softmax_call := no_forward
|}.

(** The request that [loglikelihood_rolling] builds for a document: a
    one-token context holding EOS, and the document as continuation. *)
Definition rolling_request (self : TransformersModel) (document : string)
    : LoglikelihoodRequest.t :=
  LoglikelihoodRequest.mk
    [eos_token_id (tokenizer self)]
    (encode (tokenizer self) document (add_special_tokens self)).

(** Whether the row of a request, cut to the window, fits the width. *)
Definition row_fits (max_context padding_length : Z) (orig_tokens : list Z) : bool :=
  len (keep_last (Z.to_nat max_context) orig_tokens) <=? padding_length.

(** A request whose row, [1; 2], is one token shorter than that of
    [short_request]. *)
Definition contextless_request_padded_peer : LoglikelihoodRequest.t :=
  LoglikelihoodRequest.mk [1] [2; 3].

(** Log-probabilities of a vocabulary of three tokens at two positions,
    and two more positions as a padded batch would add them. *)
Definition two_positions : list (list Q) :=
  [ [(-100)%Q; 0%Q; (-100)%Q]; [0%Q; (-100)%Q; (-100)%Q] ].

Definition padding_positions : list (list Q) :=
  [ [(-100)%Q; (-100)%Q; 0%Q]; [(-100)%Q; (-100)%Q; 0%Q] ].

(** The position whose distribution [_loglikelihood_single_token] reads
    for a row of [inplen] tokens among [positions] columns:
    [logits[inplen - 1]], which is the last column when [inplen] is 0. *)
Definition single_token_position (positions : nat) (inplen : Z) : nat :=
  if inplen =? 0 then (positions - 1)%nat else Z.to_nat (inplen - 1).


(** A model over [char_tokenizer] with a window of sixteen tokens of
    which eight may be prompt. *)
Definition small_window_model : TransformersModel := {|
  tokenizer := char_tokenizer;
  _max_length := 16;
  DATASET_SPLITS := 2;
  add_special_tokens := false;
  truncation_mode := "keep_end";
  max_prompt_length := 8;
  multichoice_continuations_start_space := None;
  find_executable_batch_size := fun start _ => Ok (Z.max 1 (start / 8));
  log_softmax_call := no_forward
|}.

(** A preference pair whose prompt alone fills the window. *)
Definition long_prompt_request : Preference.Request :=
  Preference.mkRequest "What is two plus two?" " four" " five hundred".

(** What [tokenize_row] returns for [long_prompt_request] over
    [small_window_model]: the prompt part is cut to its last eight
    tokens, the rejected answer to its first eight. *)
Definition long_prompt_row : Preference.Row := {|
  Preference.chosen_input_ids :=
    [108; 117; 115; 32; 116; 119; 111; 63; 32; 102; 111; 117; 114; 2];
  Preference.chosen_attention_mask := [1; 1; 1; 1; 1; 1; 1; 1; 1; 1; 1; 1; 1; 1];
  Preference.chosen_labels :=
    [-100; -100; -100; -100; -100; -100; -100; -100; 32; 102; 111; 117; 114; 2];
  Preference.rejected_input_ids :=
    [108; 117; 115; 32; 116; 119; 111; 63; 32; 102; 105; 118; 101; 32; 104; 117];
  Preference.rejected_attention_mask :=
    [1; 1; 1; 1; 1; 1; 1; 1; 1; 1; 1; 1; 1; 1; 1; 1];
  Preference.rejected_labels :=
    [-100; -100; -100; -100; -100; -100; -100; -100; 32; 102; 105; 118; 101; 32; 104; 117];
  Preference.row_prompt_input_ids := [108; 117; 115; 32; 116; 119; 111; 63];
  Preference.row_prompt_attention_mask := [1; 1; 1; 1; 1; 1; 1; 1]
|}.

(** ** Paired scoring: padding, concatenation and log-probabilities *)

Module DPO.

(** A two-dimensional tensor is the list of its rows, all of one
    length; [size1] is [tensor.size(-1)] and [size0] is
    [tensor.shape[0]]. *)
Definition size1 {A : Type} (tensor : list (list A)) : Z :=
  match tensor with
  | [] => 0
  | row :: _ => len row
  end.

Definition size0 {A : Type} (tensor : list (list A)) : Z := len tensor.

(** [pad_to_length(tensor, length, pad_value, dim=-1)] *)
Definition pad_to_length (tensor : list (list Z)) (length pad_value : Z)
    : list (list Z) :=
  if size1 tensor >=? length then tensor
  else map (fun row => row ++ replicate (Z.to_nat (length - size1 tensor)) pad_value)
           tensor.

(** [torch.cat((a, b), dim=0)]: the rows of [b] under those of [a];
    tensors of different widths are refused. *)
Definition cat0 (a b : list (list Z)) : result (list (list Z)) :=
  match a, b with
  | _ :: _, _ :: _ =>
      if size1 a =? size1 b then Ok (a ++ b)
      else Raise (RuntimeError "Sizes of tensors must match except in dimension 0")
  | _, _ => Ok (a ++ b)
  end.

(** The six tensors that the collator puts into a batch under the keys
    [chosen_...] and [rejected_...]. *)
Record Batch : Type := mkBatch {
  chosen_input_ids : list (list Z);
  chosen_attention_mask : list (list Z);
  chosen_labels : list (list Z);
  rejected_input_ids : list (list Z);
  rejected_attention_mask : list (list Z);
  rejected_labels : list (list Z)
}.

Record Concatenated : Type := mkConcatenated {
  concatenated_input_ids : list (list Z);
  concatenated_attention_mask : list (list Z);
  concatenated_labels : list (list Z)
}.

(** [concatenated_inputs] on these six entries: the pad value follows
    the key (labels, input ids, attention mask), the first loop pads the
    chosen tensors and the second puts the padded rejected ones under
    them. *)
Definition concatenated_inputs (batch : Batch) (label_pad_token_id padding_value : Z)
    : result Concatenated :=
  let max_length :=
    Z.max (size1 (chosen_input_ids batch)) (size1 (rejected_input_ids batch)) in
  let chosen_ids := pad_to_length (chosen_input_ids batch) max_length padding_value in
  let chosen_mask := pad_to_length (chosen_attention_mask batch) max_length 0 in
  let chosen_lab := pad_to_length (chosen_labels batch) max_length label_pad_token_id in
  ids ← cat0 chosen_ids
           (pad_to_length (rejected_input_ids batch) max_length padding_value);
  mask ← cat0 chosen_mask
            (pad_to_length (rejected_attention_mask batch) max_length 0);
  lab ← cat0 chosen_lab
           (pad_to_length (rejected_labels batch) max_length label_pad_token_id);
  Ok (mkConcatenated ids mask lab).

(** [per_token_logps * loss_mask], then [.sum(-1)]. *)
Definition masked_sum (per_token_logps : list Q) (loss_mask : list bool) : Q :=
  Qsum (zip_with (fun x (m : bool) => (x * (if m then 1 else 0))%Q)
          per_token_logps loss_mask).

(** [loss_mask.sum(-1)] *)
Definition mask_count (loss_mask : list bool) : Z :=
  foldr (fun (m : bool) n => (if m then 1 else 0) + n) 0 loss_mask.

(** One row of [get_batch_logps] up to the reduction: the labels are
    shifted by one against the logits, the ignored labels are replaced
    by the dummy token 0, and the log-probability of every label is
    gathered. [log_softmax] is the float operation of that name on one
    vocabulary vector. *)
Definition per_token_logps (log_softmax : list Q -> list Q)
    (label_pad_token_id : Z) (logits : list (list Q)) (labels : list Z)
    : result (list Q * list bool) :=
  let labels := PySlice.from labels 1 in
  let logits := PySlice.upto logits (-1) in
  let loss_mask := map (fun l => negb (l =? label_pad_token_id)) labels in
  let labels := map (fun l => if l =? label_pad_token_id then 0 else l) labels in
  logps ← gather (map log_softmax logits) labels;
  Ok (logps, loss_mask).

(** The reduction of one row. [None] stands for the NaN of a division
    of zero by zero; [norm] is [torch.norm(..., p=2)]. *)
Definition reduce_logps (norm : list Q -> Q) (average_log_prob norm_log_prob : bool)
    (row : list Q * list bool) : option Q :=
  let '(logps, loss_mask) := row in
  if average_log_prob
  then if mask_count loss_mask =? 0 then None
       else Some (masked_sum logps loss_mask / inject_Z (mask_count loss_mask))%Q
  else if norm_log_prob
  then Some (- norm (zip_with (fun x (m : bool) => (x * (if m then 1 else 0))%Q)
                       logps loss_mask))%Q
  else Some (masked_sum logps loss_mask).

Definition get_batch_logps (log_softmax : list Q -> list Q) (norm : list Q -> Q)
    (logits : list (list (list Q))) (labels : list (list Z))
    (average_log_prob norm_log_prob : bool) (label_pad_token_id : Z)
    : result (list (option Q)) :=
  if negb ((size0 logits =? size0 labels) && (size1 logits =? size1 labels))
  then Raise (ValueError
                "Logits (batch and sequence length dim) and labels must have the same shape.")
  else
    rows ← mapM (fun p => per_token_logps log_softmax label_pad_token_id (fst p) (snd p))
              (zip logits labels);
    Ok (map (reduce_logps norm average_log_prob norm_log_prob) rows).

(** The dispatch on [self.ref_free_norm] in [concatenated_forward]:
    the flags [(average_log_prob, norm_log_prob)]. *)
Definition norm_flags (ref_free_norm : string) : result (bool * bool) :=
  if String.eqb ref_free_norm "norm" then Ok (false, true)
  else if String.eqb ref_free_norm "avg" then Ok (true, false)
  else if String.eqb ref_free_norm "sum" then Ok (false, false)
  else if String.eqb ref_free_norm "none" then Ok (false, false)
  else Raise (ValueError "Unknown ref_free_norm")
.

(** [concatenated_forward] after the forward pass: [all_logits] is what
    the model returned for the concatenated input ids. The
    log-probabilities are split back at the number of chosen rows. *)
Definition concatenated_forward (log_softmax : list Q -> list Q) (norm : list Q -> Q)
    (ref_free_norm : string) (batch : Batch) (label_pad_token_id padding_value : Z)
    (all_logits : list (list (list Q)))
    : result (list (option Q) * list (option Q)) :=
  let len_chosen := size0 (chosen_labels batch) in
  concatenated_batch ← concatenated_inputs batch label_pad_token_id padding_value;
  flags ← norm_flags ref_free_norm;
  all_logps ← get_batch_logps log_softmax norm all_logits
                (concatenated_labels concatenated_batch)
                (fst flags) (snd flags) label_pad_token_id;
  Ok (PySlice.upto all_logps len_chosen, PySlice.from all_logps len_chosen).

(** The rewards of [dpo_inference] for one batch: the log ratio against
    the reference in mode "none" (a missing reference counts as zeros),
    the policy log-probabilities otherwise. *)
Definition rewards (ref_free_norm : string) (policy_logps : list Q)
    (ref_logps : option (list Q)) : list Q :=
  if String.eqb ref_free_norm "none"
  then zip_with Qminus policy_logps
         (default (map (fun _ => 0%Q) policy_logps) ref_logps)
  else policy_logps.

End DPO.

(** A row extended on the right to [length] entries with [pad_value],
    and the test that every row of a tensor has [width] entries. *)
Definition pad_row (length pad_value : Z) (row : list Z) : list Z :=
  row ++ replicate (Z.to_nat (length - len row)) pad_value.

Definition all_width {A : Type} (width : Z) (tensor : list (list A)) : bool :=
  forallb (fun row => len row =? width) tensor.

(** The width to which [concatenated_inputs] pads. *)
Definition concatenated_width (batch : DPO.Batch) : Z :=
  Z.max (DPO.size1 (DPO.chosen_input_ids batch))
        (DPO.size1 (DPO.rejected_input_ids batch)).

(** The chosen tensors of a batch share the width of the chosen input
    ids, and the rejected ones that of the rejected input ids. *)
Definition rectangular (batch : DPO.Batch) : bool :=
  all_width (DPO.size1 (DPO.chosen_input_ids batch)) (DPO.chosen_input_ids batch)
  && all_width (DPO.size1 (DPO.chosen_input_ids batch)) (DPO.chosen_attention_mask batch)
  && all_width (DPO.size1 (DPO.chosen_input_ids batch)) (DPO.chosen_labels batch)
  && all_width (DPO.size1 (DPO.rejected_input_ids batch)) (DPO.rejected_input_ids batch)
  && all_width (DPO.size1 (DPO.rejected_input_ids batch)) (DPO.rejected_attention_mask batch)
  && all_width (DPO.size1 (DPO.rejected_input_ids batch)) (DPO.rejected_labels batch).

(** A batch of one pair whose chosen answer is one token shorter than
    the rejected one, over a vocabulary of three tokens, and the
    log-probabilities of a forward pass over its two padded rows. *)
Definition uneven_pair : DPO.Batch := {|
  DPO.chosen_input_ids := [[1; 2; 1]];
  DPO.chosen_attention_mask := [[1; 1; 1]];
  DPO.chosen_labels := [[-100; -100; 1]];
  DPO.rejected_input_ids := [[1; 2; 0; 2]];
  DPO.rejected_attention_mask := [[1; 1; 1; 1]];
  DPO.rejected_labels := [[-100; -100; 0; 2]]
|}.

Definition uneven_pair_logits : list (list (list Q)) :=
  [ two_positions ++ padding_positions; two_positions ++ padding_positions ].

(** ** The batch handed to [_generate] *)

Module Generation.

(** The [Batch] that [greedy_until] builds, whose [input_mask] is the
    attention mask of the tokenizer, one row of 0 and 1 per context. *)
Record Batch : Type := mkBatch {
  input_ids : list (list Z);
  input_lengths : list Z;
  input_mask : list (list Z);
  truncated : list Z;
  padded : list Z
}.

(** [sum(mask == 0)] *)
Definition count_eq (v : Z) (row : list Z) : Z :=
  foldr Z.add 0 (map (fun x => if x =? v then 1 else 0) row).

(** [prepared_batch = Batch(...)] in [greedy_until], from the contexts
    of the batch and the two tensors that the tokenizer returned. *)
Definition prepared_batch (context : list string)
    (tokenized_input_ids tokenized_attention_mask : list (list Z)) : Batch :=
  mkBatch
    tokenized_input_ids
    (map (fun item => len (map (fun x => x =? 1) item)) tokenized_attention_mask)
    tokenized_attention_mask
    (map (fun c => Z.max (py_len c - DPO.size1 tokenized_input_ids) 0)
         context)
    (map (count_eq 0) tokenized_attention_mask).

End Generation.

(** Every entry of every row is 0 or 1. *)
Definition is_mask (tensor : list (list Z)) : bool :=
  forallb (forallb (fun x => (x =? 0) || (x =? 1))) tensor.

(** A criterion for the empty stop sequence over two rows of three
    prompt tokens. *)
Definition stop_empty : MultiTokenEOSCriteria.t :=
  MultiTokenEOSCriteria.mk 3 [false; false] "" [] 0 char_tokenizer.

(** ** The size of a model in bytes *)

Module ModelSize.

(** What [_get_model_actual_size_in_bytes] reads of a tensor. A quanto
    [QTensor] reports its packed size in [nbytes]; on any other tensor
    the attribute may be missing. *)
Inductive layout : Type :=
  | QTensor (nbytes : Z)
  | Vanilla (nbytes : option Z).

Record Tensor : Type := mkTensor {
  is_meta : bool;
  data_ptr : Z;
  kind : layout;
  nelement : Z;
  element_size : Z
}.

(** [get_memory_footprint] is [None] on a model without the method;
    the call returns a number or raises. *)
Record Model : Type := mkModel {
  parameters : list Tensor;
  buffers : list Tensor;
  get_memory_footprint : option (result Z)
}.

Definition _bytes_of_tensor (t : Tensor) : Z :=
  match kind t with
  | QTensor nbytes => nbytes
  | Vanilla (Some nbytes) => nbytes
  | Vanilla None => nelement t * element_size t
  end.

(** [t.nbytes if isinstance(t, QTensor) else t.nelement() * t.element_size()] *)
Definition quantized_bytes (t : Tensor) : Z :=
  match kind t with
  | QTensor nbytes => nbytes
  | Vanilla _ => nelement t * element_size t
  end.

(** The loop over [itertools.chain(model.parameters(), model.buffers())],
    which both branches share up to the size of one tensor. *)
Fixpoint count_storages (size : Tensor -> Z) (tensors : list Tensor)
    (seen_ptrs : gset Z) (total : Z) : Z :=
  match tensors with
  | [] => total
  | t :: rest =>
      if is_meta t || bool_decide (data_ptr t ∈ seen_ptrs)
      then count_storages size rest seen_ptrs total
      else count_storages size rest ({[data_ptr t]} ∪ seen_ptrs) (total + size t)
  end.

Definition _get_model_actual_size_in_bytes (HAS_QUANTO : bool) (model : Model)
    (is_optimum_quantized : bool) : Z :=
  let fallback :=
    count_storages _bytes_of_tensor (parameters model ++ buffers model) ∅ 0 in
  if is_optimum_quantized && HAS_QUANTO
  then count_storages quantized_bytes (parameters model ++ buffers model) ∅ 0
  else
    match get_memory_footprint model with
    | Some (Ok fp) => if fp >? 0 then fp else fallback
    | Some (Raise _) => fallback
    | None => fallback
    end.

End ModelSize.

(** The storages of the tensors that are not on the meta device. *)
Definition storages (tensors : list ModelSize.Tensor) : list Z :=
  map ModelSize.data_ptr (List.filter (fun t => negb (ModelSize.is_meta t)) tensors).

(** Every tensor of [extra] is on the meta device or shares its storage
    with a tensor of [tensors]. *)
Definition all_shared (tensors extra : list ModelSize.Tensor) : bool :=
  forallb (fun t => ModelSize.is_meta t
                    || bool_decide (ModelSize.data_ptr t ∈ storages tensors)) extra.

(** The call counts the storages itself: the model goes down the
    quanto path, or what [get_memory_footprint] gives is of no use (the
    method is missing, raises, or returns nothing positive). *)
Definition counts_storages (HAS_QUANTO is_optimum_quantized : bool)
    (footprint : option (result Z)) : bool :=
  is_optimum_quantized && HAS_QUANTO
  || match footprint with
     | Some (Ok fp) => fp <=? 0
     | _ => true
     end.

(** A model of two weights of six bytes each, and the tied copy of the
    first weight next to a tensor on the meta device. *)
Definition two_weights : ModelSize.Model := {|
  ModelSize.parameters :=
    [ ModelSize.mkTensor false 4096 (ModelSize.Vanilla (Some 6)) 3 2;
      ModelSize.mkTensor false 8192 (ModelSize.Vanilla None) 3 2 ];
  ModelSize.buffers := [];
  ModelSize.get_memory_footprint := None
|}.

Definition tied_tensors : list ModelSize.Tensor :=
  [ ModelSize.mkTensor false 4096 (ModelSize.Vanilla (Some 6)) 3 2;
    ModelSize.mkTensor true 0 (ModelSize.Vanilla None) 1000 4 ].

(** ** The documents of the knowledge base *)

Module Embed.

Record Metadata : Type := mkMetadata {
  source : string;
  start_index : option Z
}.

Record LangchainDocument : Type := mkDocument {
  page_content : string;
  metadata : Metadata
}.

(** One round of the loop that removes duplicates: [unique_texts] is
    the dictionary of the texts seen, [docs_processed_unique] the
    documents kept. *)
Definition remove_duplicate (state : gmap string bool * list LangchainDocument)
    (doc : LangchainDocument) : gmap string bool * list LangchainDocument :=
  let '(unique_texts, docs_processed_unique) := state in
  match unique_texts !! page_content doc with
  | None => (<[page_content doc := true]> unique_texts, docs_processed_unique ++ [doc])
  | Some _ => state
  end.

(** The chunks of all documents, in order; [split_documents] is the
    method of the text splitter. *)
Definition docs_processed
    (split_documents : list LangchainDocument -> list LangchainDocument)
    (knowledge_base : list LangchainDocument) : list LangchainDocument :=
  foldl (fun docs_processed doc => docs_processed ++ split_documents [doc])
        [] knowledge_base.

Definition _split_documents
    (split_documents : list LangchainDocument -> list LangchainDocument)
    (knowledge_base : list LangchainDocument) : list LangchainDocument :=
  snd (foldl remove_duplicate (∅, []) (docs_processed split_documents knowledge_base)).

End Embed.

(** ** Dialogues *)

Module Dialogue.

Record Line : Type := mkLine { line_role : string; line_content : string }.

(** [example["prompt"]] is a list of turns or a string. *)
Inductive Prompt : Type :=
  | Turns (lines : list Line)
  | Text (s : string).

Record Message : Type := mkMessage { role : string; content : Prompt }.

Record Example : Type := mkExample {
  prompt : Prompt;
  chosen : string;
  rejected : string;
  text_chosen : option string;
  text_rejected : option string
}.

Inductive outcome : Type :=
  | Returns (example : Example)
  | AssertionError
  | Raises (e : exn).

(** The loop over [enumerate(example["prompt"])]; [i] is the index of
    the head of [lines]. *)
Fixpoint alternate (i : Z) (lines : list Line) : list Message :=
  match lines with
  | [] => []
  | line :: rest =>
      (if (i + 1) mod 2 =? 1
       then mkMessage "user" (Text (line_content line))
       else mkMessage "assistant" (Text (line_content line)))
      :: alternate (i + 1) rest
  end.

(** [chat_template] is the attribute of the tokenizer and
    [apply_chat_template] its method, called with [tokenize=False]. *)
Definition _prepare_dialogue_from_tokenizer (chat_template : option string)
    (apply_chat_template : list Message -> string) (example : Example) : outcome :=
  match chat_template with
  | None => Returns example
  | Some _ =>
      match prompt example with
      | Turns ((_ :: _) as lines) =>
          let messages := alternate 0 lines in
          match PySlice.index messages (-1) with
          | Raise e => Raises e
          | Ok m =>
              if negb (String.eqb (role m) "user") then AssertionError
              else
                let temp_prompt := apply_chat_template messages in
                let messages := messages ++ [mkMessage "assistant" (Text (chosen example))] in
                let text_chosen := apply_chat_template messages in
                let messages :=
                  <[(length messages - 1)%nat :=
                      mkMessage "assistant" (Text (rejected example))]> messages in
                let text_rejected := apply_chat_template messages in
                Returns (mkExample (Text temp_prompt) (chosen example) (rejected example)
                           (Some text_chosen) (Some text_rejected))
          end
      | single =>
          let temp_prompt := apply_chat_template [mkMessage "user" single] in
          let text_chosen :=
            apply_chat_template [mkMessage "user" single;
                                 mkMessage "assistant" (Text (chosen example))] in
          let text_rejected :=
            apply_chat_template [mkMessage "user" single;
                                 mkMessage "assistant" (Text (rejected example))] in
          Returns (mkExample (Text temp_prompt) (chosen example) (rejected example)
                     (Some text_chosen) (Some text_rejected))
      end
  end.

End Dialogue.

(** * Properties *)

(** ** Slices *)

Section SliceFacts.
Context {A : Type}.
Implicit Types l : list A.

Lemma from_zero l : PySlice.from l 0 = l.
Proof. reflexivity. Qed.

(** [l[-n:]] with a positive [n] keeps the last [n] elements. *)
Lemma from_neg l (n : Z) :
  0 < n -> PySlice.from l (- n) = drop (length l - Z.to_nat n)%nat l.
Proof.
  intros Hn. unfold PySlice.from, PySlice.bound, len.
  destruct (Z.ltb_spec (- n) 0) as [_|H]; [|lia].
  f_equal. lia.
Qed.

Lemma len_from_neg l (n : Z) :
  0 < n -> len (PySlice.from l (- n)) = Z.min (len l) n.
Proof.
  intros Hn. rewrite from_neg by done. unfold len.
  rewrite length_drop. lia.
Qed.

Lemma bound_nonneg l (n : Z) :
  0 <= n -> PySlice.bound l n = Nat.min (Z.to_nat n) (length l).
Proof.
  intros Hn. unfold PySlice.bound.
  destruct (Z.ltb_spec n 0); [lia|done].
Qed.

Lemma upto_nonneg l (n : Z) :
  0 <= n -> PySlice.upto l n = take (Z.to_nat n) l.
Proof.
  intros Hn. unfold PySlice.upto. rewrite bound_nonneg by done.
  destruct (Nat.min_spec (Z.to_nat n) (length l)) as [[_ ->]|[Hle ->]]; [done|].
  rewrite firstn_all. symmetry. apply take_ge. lia.
Qed.

Lemma from_nonneg l (n : Z) :
  0 <= n -> PySlice.from l n = drop (Z.to_nat n) l.
Proof.
  intros Hn. unfold PySlice.from. rewrite bound_nonneg by done.
  destruct (Nat.min_spec (Z.to_nat n) (length l)) as [[_ ->]|[Hle ->]]; [done|].
  rewrite drop_all. symmetry. apply drop_ge. lia.
Qed.

(** [l[:-1]] drops the last element. *)
Lemma upto_minus_one l : PySlice.upto l (-1) = take (length l - 1) l.
Proof.
  unfold PySlice.upto, PySlice.bound, len. simpl. f_equal. lia.
Qed.

Lemma slice_nonneg l (a b : Z) :
  0 <= a -> 0 <= b ->
  PySlice.slice l a b = drop (Z.to_nat a) (take (Z.to_nat b) l).
Proof.
  intros Ha Hb. unfold PySlice.slice. rewrite !bound_nonneg by done.
  destruct (Nat.min_spec (Z.to_nat b) (length l)) as [[_ ->]|[Hb' ->]].
  - destruct (Nat.min_spec (Z.to_nat a) (length l)) as [[_ ->]|[Ha' ->]]; [done|].
    rewrite !drop_ge; [done| |]; rewrite length_take; lia.
  - rewrite firstn_all, (take_ge l (Z.to_nat b)) by lia.
    destruct (Nat.min_spec (Z.to_nat a) (length l)) as [[_ ->]|[Ha' ->]]; [done|].
    rewrite drop_all. symmetry. apply drop_ge. lia.
Qed.

End SliceFacts.

(** ** The generation budget *)

(** C10, as stated, fails where the context fills the window: with a
    maximum length of 8, a context of 8 columns and a requested
    [generation_size] of 5 the budget is 1, more than the 0 tokens of
    space that remain. *)
Lemma max_new_tokens_exceeds_remaining_space :
  ~ (max_new_tokens (example_model 8 no_forward) 8 (Some 5)
       <= _max_length (example_model 8 no_forward) - 8
     /\ 1 <= max_new_tokens (example_model 8 no_forward) 8 (Some 5)).
Proof. vm_compute. intros [H _]. apply H. reflexivity. Qed.

(** Without a requested size the budget is the remaining space, which
    is no token at all when the context fills the window. *)
Lemma max_new_tokens_unset_full_window :
  max_new_tokens (example_model 8 no_forward) 8 None = 0.
Proof. reflexivity. Qed.

(** C10, amended: a context wider than the maximum length gets a budget
    of exactly 1; a context strictly narrower gets a budget between 1
    and the space that remains; and a requested [generation_size] always
    gives [max 1 (min remaining requested)], so at least 1. *)
Theorem max_new_tokens_budget (self : TransformersModel) (context_size : Z)
    (generation_size : option Z) :
  (_max_length self < context_size ->
     max_new_tokens self context_size generation_size = 1)
  /\ (context_size < _max_length self ->
       1 <= max_new_tokens self context_size generation_size
         <= _max_length self - context_size)
  /\ (forall g, context_size <= _max_length self ->
       max_new_tokens self context_size (Some g)
       = Z.max 1 (Z.min (_max_length self - context_size) g)).
Proof.
  unfold max_new_tokens. repeat split.
  - intros H. destruct (Z.gtb_spec context_size (_max_length self)); [done|lia].
  - destruct (Z.gtb_spec context_size (_max_length self)); [lia|].
    destruct generation_size as [g|]; [|lia].
    simpl. destruct (Z.ltb_spec (Z.min (_max_length self - context_size) g) 1); lia.
  - destruct (Z.gtb_spec context_size (_max_length self)); [lia|].
    destruct generation_size as [g|]; [|lia].
    simpl. destruct (Z.ltb_spec (Z.min (_max_length self - context_size) g) 1); lia.
  - intros g H. destruct (Z.gtb_spec context_size (_max_length self)); [lia|].
    simpl. destruct (Z.ltb_spec (Z.min (_max_length self - context_size) g) 1); lia.
Qed.

Lemma max_new_tokens_budget_witness :
  max_new_tokens (example_model 8 no_forward) 9 (Some 5) = 1
  /\ 1 <= max_new_tokens (example_model 8 no_forward) 3 (Some 7) <= 8 - 3
  /\ max_new_tokens (example_model 8 no_forward) 8 (Some 5) = 1.
Proof.
  pose proof (max_new_tokens_budget (example_model 8 no_forward) 9 (Some 5)) as (H1 & _ & _).
  pose proof (max_new_tokens_budget (example_model 8 no_forward) 3 (Some 7)) as (_ & H2 & _).
  pose proof (max_new_tokens_budget (example_model 8 no_forward) 8 (Some 5)) as (_ & _ & H3).
  split; [apply H1; simpl; lia|].
  split; [apply H2; simpl; lia|].
  rewrite H3 by (simpl; lia). reflexivity.
Defined.

(** ** Reasoning about [result] *)

Lemma bind_Ok {A B : Type} (m : result A) (k : A -> result B) (b : B) :
  m ≫= k = Ok b -> exists a, m = Ok a /\ k a = Ok b.
Proof. destruct m as [a|e]; [eauto|discriminate]. Qed.

Ltac invert_bind :=
  repeat match goal with
    | H : mret _ = Ok _ |- _ => change (mret ?x) with (Ok x) in H
    | H : Ok _ = Ok _ |- _ => injection H as H; subst
    | H : Raise _ = Ok _ |- _ => discriminate H
    | H : _ ≫= _ = Ok _ |- _ =>
        let a := fresh "a" in
        let Ha := fresh "Ha" in
        apply bind_Ok in H as (a & Ha & H); try destruct a as [? ?]; simpl in H
    end.

Lemma mapM_Ok_map {A B : Type} (f : A -> B) (l : list A) :
  mapM (M := result) (fun x => Ok (f x)) l = Ok (map f l).
Proof. induction l as [|x l IH]; [done|]. simpl. rewrite IH. reflexivity. Qed.


Lemma mapM_Ok_length {A B : Type} (f : A -> result B) (l : list A) (r : list B) :
  mapM f l = Ok r -> length r = length l.
Proof.
  revert r. induction l as [|x l IH]; intros r H; simpl in H.
  - injection H as <-. reflexivity.
  - invert_bind. simpl. f_equal. eauto.
Qed.

Lemma mapM_Ok_lookup {A B : Type} (f : A -> result B) (l : list A) (r : list B)
    (i : nat) (x : A) :
  mapM f l = Ok r -> l !! i = Some x -> exists y, r !! i = Some y /\ f x = Ok y.
Proof.
  revert r i. induction l as [|x' l IH]; intros r i H Hi; [done|].
  simpl in H. invert_bind. destruct i as [|i]; simpl in *.
  - injection Hi as ->. eauto.
  - eauto.
Qed.

(** ** The starting size of the batch-size probe *)

(** Every probe after the first starts from twice the batch size the
    probe before it returned. *)
Definition doubles (probes : list Probe) : Prop :=
  forall k p q,
    probes !! k = Some p -> probes !! S k = Some q ->
    probe_start q = 2 * probe_result p.

Lemma doubles_cons (p : Probe) (probes : list Probe) :
  (forall q, head probes = Some q -> probe_start q = 2 * probe_result p) ->
  doubles probes -> doubles (p :: probes).
Proof.
  intros Hhd Htl [|k] p' q Hp Hq; simpl in *.
  - injection Hp as <-. apply Hhd. by destruct probes.
  - eauto.
Qed.

Section ProbeStart.
Context {R : Type} (self : TransformersModel) (override_bs : option Z).

Lemma greedy_until_splits_start
    (generate_batch : Z -> list GreedyUntilRequest.t -> result (list R))
    (splits : list (list GreedyUntilRequest.t)) (start : Z)
    (probes : list Probe) (results : list R) :
  greedy_until_splits self override_bs generate_batch start splits
    = Ok (probes, results) ->
  (forall q, head probes = Some q -> probe_start q = start) /\ doubles probes.
Proof.
  revert start probes results.
  induction splits as [|split rest IH]; intros start probes results H; simpl in H.
  - invert_bind. split; [done|]. by intros k p q Hk.
  - invert_bind. apply IH in Ha3 as [Hhd Hdb]. split.
    + simpl. intros q [= <-]. reflexivity.
    + apply doubles_cons; [|done]. intros q Hq. rewrite (Hhd q Hq). simpl. lia.
Qed.

Lemma loglikelihood_tokens_splits_start (rolling : bool)
    (score : Z -> list LoglikelihoodRequest.t -> result (list R))
    (splits : list (list LoglikelihoodRequest.t)) (start : Z)
    (probes : list Probe) (res : list R) :
  loglikelihood_tokens_splits self override_bs rolling score start splits
    = Ok (probes, res) ->
  (forall q, head probes = Some q -> probe_start q = start) /\ doubles probes.
Proof.
  revert start probes res.
  induction splits as [|split rest IH]; intros start probes res H; simpl in H.
  - invert_bind. split; [done|]. by intros k p q Hk.
  - invert_bind. apply IH in Ha3 as [Hhd Hdb]. split.
    + simpl. intros q [= <-]. reflexivity.
    + apply doubles_cons; [|done]. intros q Hq. rewrite (Hhd q Hq). simpl. lia.
Qed.

(** In the single-token path every probe starts from the default. *)
Lemma loglikelihood_single_token_splits_start
    (score : Z -> list LoglikelihoodSingleTokenRequest.t -> result (list R))
    (splits : list (list LoglikelihoodSingleTokenRequest.t)) (start : Z)
    (probes : list Probe) (res : list R) :
  loglikelihood_single_token_splits self override_bs score start splits
    = Ok (probes, res) ->
  Forall (fun q => probe_start q = 512) probes.
Proof.
  revert probes res.
  induction splits as [|split rest IH]; intros probes res H; simpl in H.
  - invert_bind. constructor.
  - invert_bind. constructor; [done|]. eauto.
Qed.

End ProbeStart.

(** The two sibling paths do what C6 says: in [greedy_until] and in
    [_loglikelihood_tokens] the first probe starts from
    [STARTING_BATCH_SIZE] and every later one from twice the batch size
    found for the group before. *)
Lemma probe_start_doubles_in_sibling_paths {R : Type} (self : TransformersModel)
    (override_bs : option Z) (rolling : bool)
    (generate_batch : Z -> list GreedyUntilRequest.t -> result (list R))
    (score : Z -> list LoglikelihoodRequest.t -> result (list R))
    (generation_requests : list GreedyUntilRequest.t)
    (loglikelihood_requests : list LoglikelihoodRequest.t)
    (probes : list Probe) (out : list R) :
  (greedy_until_run self generate_batch generation_requests override_bs
     = Ok (probes, out) -> doubles probes)
  /\ (loglikelihood_tokens_run self score loglikelihood_requests override_bs rolling
       = Ok (probes, out) -> doubles probes).
Proof.
  split; intros H.
  - unfold greedy_until_run in H. invert_bind.
    by apply greedy_until_splits_start in Ha as [_ ?].
  - unfold loglikelihood_tokens_run in H. invert_bind.
    by apply loglikelihood_tokens_splits_start in Ha as [_ ?].
Qed.

(** C6 at its failing input: three single-token requests in two groups,
    no override, a probe that finds 64 rows when started from 512. The
    probe of the second group starts from 512 again, not from 128. *)
Theorem single_token_probe_restarts_from_default :
  loglikelihood_single_token_run (example_model 16 no_forward) answer_width
    single_token_requests (Some (-1))
  = Ok ([mkProbe 512 64; mkProbe 512 64], [3; 3; 1]).
Proof. vm_compute. reflexivity. Qed.

(** The same groups in [_loglikelihood_tokens]: the second probe starts
    from 128, twice the 64 rows found for the first group. *)
Lemma loglikelihood_probe_doubles_example :
  loglikelihood_tokens_run (example_model 16 no_forward) answer_width
    loglikelihood_requests (Some (-1)) false
  = Ok ([mkProbe 512 64; mkProbe 128 16], [3; 3; 1]).
Proof. vm_compute. reflexivity. Qed.

(** ** The single-token precondition *)

Section SingleTokenCheck.
Context (self : TransformersModel).









End SingleTokenCheck.

(** ** Padding of the single-token log-probabilities *)

Lemma max_length_of_ge {A : Type} (sequences : list (list A)) (row : list A) :
  row ∈ sequences -> (length row <= max_length_of sequences)%nat.
Proof.
  unfold max_length_of. induction 1 as [row l|row row' l _ IH]; simpl; lia.
Qed.

Section PadSequence.
Context {A : Type} (v : A).

Lemma pad_sequence_rows (sequences padded : list (list A)) :
  pad_sequence sequences v = Ok padded ->
  length padded = length sequences
  /\ forall i row, sequences !! i = Some row ->
       exists padded_row,
         padded !! i = Some padded_row
         /\ length padded_row = max_length_of sequences
         /\ take (length row) padded_row = row
         /\ forall j, (length row <= j < max_length_of sequences)%nat ->
              padded_row !! j = Some v.
Proof.
  unfold pad_sequence. intros H.
  assert (padded = map (fun row => row ++ replicate (max_length_of sequences - length row) v)
                     sequences) as ->.
  { destruct sequences; [discriminate|]. by injection H as <-. }
  clear H. split; [by rewrite length_map|].
  intros i row Hrow.
  assert (length row <= max_length_of sequences)%nat as Hle.
  { apply max_length_of_ge. by apply list_elem_of_lookup_2 in Hrow. }
  eexists. split; [by rewrite list_lookup_fmap, Hrow|].
  split; [rewrite length_app, length_replicate; lia|].
  split; [by rewrite take_app_length|].
  intros j Hj. rewrite lookup_app_r by lia.
  apply lookup_replicate_2. lia.
Qed.

End PadSequence.

Lemma padding_value_cases (d : dtype) :
  padding_value d = match d with
                    | bfloat16 => (-65536)%Q
                    | _ => (-65504)%Q
                    end.
Proof. destruct d; vm_compute; reflexivity. Qed.

Lemma mapM_vectors_Ok (sequences : list Probs) (rows : list (list Q)) :
  mapM (fun probs =>
          match probs with
          | Vector values => Ok values
          | NoColumns _ =>
              Raise (RuntimeError "output shape does not match the broadcast shape")
          end) sequences = Ok rows ->
  sequences = map Vector rows.
Proof.
  revert rows. induction sequences as [|probs sequences IH]; intros rows H.
  - injection H as <-. reflexivity.
  - simpl in H. apply bind_Ok in H as (values & Hv & H).
    apply bind_Ok in H as (rest & Hrest & H).
    change (mret ?x) with (Ok x) in H. injection H as <-.
    destruct probs as [v|n]; [|discriminate]. injection Hv as ->.
    simpl. f_equal. by apply IH.
Qed.

(** C9, as stated, fails on both halves. In single precision a
    candidate whose log-probability is -70000 keeps that value, which is
    below the sentinel that fills the padded position next to it; and in
    bfloat16, which has eight significant bits, the padded positions do
    not hold -65504 but the value it is rounded to, -65536. *)
Lemma real_log_prob_below_padding_value :
  single_token_batch_probs float32 uneven_choice_requests uneven_choice_out [1; 1]
  = Ok (Matrix [ [(-70000)%Q; padding_value float32]; [(-70000)%Q; 0%Q] ])
  /\ ~ (padding_value float32 < -70000)%Q
  /\ single_token_batch_probs bfloat16 uneven_choice_requests uneven_choice_out [1; 1]
     = Ok (Matrix [ [(-70000)%Q; (-65536)%Q]; [(-70000)%Q; 0%Q] ]).
Proof.
  split; [vm_compute; reflexivity|]. split; [|vm_compute; reflexivity].
  intros H. vm_compute in H. discriminate.
Qed.

(** C9, amended: when the rows of a batch are vectors of candidate
    log-probabilities, they are padded to the width of the longest one;
    every row keeps its own values at the front, unchanged, and every
    position behind them holds the sentinel as the type of the
    log-probabilities stores it, -65504 in double, single and half
    precision and -65536 in bfloat16. The only other batches that are
    padded are those whose first row has choices without any token; they
    give a tensor without entries. *)
Theorem single_token_probs_padding (out_dtype : dtype)
    (batch : list LoglikelihoodSingleTokenRequest.t)
    (out : list (list (list Q))) (input_lengths : list Z)
    (padded : PaddedProbs) :
  single_token_batch_probs out_dtype batch out input_lengths = Ok padded ->
  match padded with
  | Matrix padded_probs =>
      exists batch_probs,
        single_token_rows batch out input_lengths = Ok (map Vector batch_probs)
        /\ length padded_probs = length batch_probs
        /\ (forall i probs, batch_probs !! i = Some probs ->
             exists padded_row,
               padded_probs !! i = Some padded_row
               /\ length padded_row = max_length_of batch_probs
               /\ take (length probs) padded_row = probs
               /\ forall j, (length probs <= j < max_length_of batch_probs)%nat ->
                    padded_row !! j = Some (padding_value out_dtype))
        /\ padding_value out_dtype = match out_dtype with
                                     | bfloat16 => (-65536)%Q
                                     | _ => (-65504)%Q
                                     end
  | NoColumnsBatch rows width =>
      exists batch_probs first,
        single_token_rows batch out input_lengths = Ok batch_probs
        /\ head batch_probs = Some (NoColumns first)
        /\ rows = length batch_probs
        /\ Forall (fun probs =>
                     match probs with
                     | Vector values => (length values <= 1)%nat
                     | NoColumns _ => True
                     end) batch_probs
  end.
Proof.
  unfold single_token_batch_probs. intros H.
  apply bind_Ok in H as (batch_probs & Hrows & H).
  unfold pad_probs in H.
  destruct batch_probs as [|[values|first] rest] eqn:Hb; [discriminate| |].
  - apply bind_Ok in H as (rows & Hvec & H).
    apply bind_Ok in H as (padded_probs & Hpad & H). injection H as <-.
    apply mapM_vectors_Ok in Hvec.
    exists rows. split; [by rewrite Hrows, Hvec|].
    destruct (pad_sequence_rows _ _ _ Hpad) as [Hlen Hrow].
    split; [done|]. split; [done|]. apply padding_value_cases.
  - destruct (forallb _ _) eqn:Hall; [|discriminate]. injection H as <-.
    exists (NoColumns first :: rest), first.
    split; [done|]. split; [done|]. split; [done|].
    apply Forall_forall. intros probs Hin.
    rewrite forallb_forall in Hall.
    apply list_elem_of_In in Hin. specialize (Hall _ Hin).
    destruct probs; [|done]. by apply Nat.leb_le.
Qed.

Lemma single_token_probs_padding_witness :
  exists batch_probs,
    single_token_rows uneven_choice_requests uneven_choice_out [1; 1]
    = Ok (map Vector batch_probs)
    /\ length [ [(-70000)%Q; (-65536)%Q]; [(-70000)%Q; 0%Q] ] = length batch_probs
    /\ (forall i probs, batch_probs !! i = Some probs ->
         exists padded_row,
           [ [(-70000)%Q; (-65536)%Q]; [(-70000)%Q; 0%Q] ] !! i = Some padded_row
           /\ length padded_row = max_length_of batch_probs
           /\ take (length probs) padded_row = probs
           /\ forall j, (length probs <= j < max_length_of batch_probs)%nat ->
                padded_row !! j = Some (padding_value bfloat16))
    /\ padding_value bfloat16 = (-65536)%Q.
Proof.
  apply (single_token_probs_padding bfloat16 uneven_choice_requests uneven_choice_out
           [1; 1] (Matrix [ [(-70000)%Q; (-65536)%Q]; [(-70000)%Q; 0%Q] ])).
  vm_compute. reflexivity.
Defined.

(** ** [prepare_batch_logprob] *)

(** What the loop leaves in each row, whatever the arguments. *)
Lemma prepare_rows_Ok (pad_id max_context padding_length : Z)
    (inputs : list (list Z)) (rows : list Row) :
  prepare_rows pad_id max_context (Some padding_length) inputs = Ok rows ->
  Forall2 (fun orig_tokens row =>
             let tokens := PySlice.from orig_tokens (- max_context) in
             len tokens <= padding_length
             /\ row_tokens row
                = tokens ++ replicate (Z.to_nat (padding_length - len tokens)) pad_id
             /\ row_mask row = map (fun t => t =? pad_id) (row_tokens row)
             /\ row_length row = len tokens
             /\ row_truncated row = Z.max (len orig_tokens - max_context) 0
             /\ row_padded row = padding_length - len tokens)
          inputs rows.
Proof.
  revert rows. induction inputs as [|orig_tokens rest IH]; intros rows H; simpl in H.
  - invert_bind. constructor.
  - destruct (Z.ltb_spec
                (padding_length - len (PySlice.from orig_tokens (- max_context))) 0)
      as [|Hfits]; [discriminate|].
    invert_bind. constructor; [|by apply IH].
    simpl. repeat split; try done. lia.
Qed.

(** When the caller passes no padding length, the first row fixes it. *)
Lemma prepare_rows_None (pad_id max_context : Z) (orig_tokens : list Z)
    (rest : list (list Z)) :
  prepare_rows pad_id max_context None (orig_tokens :: rest)
  = prepare_rows pad_id max_context
      (Some (len (PySlice.from orig_tokens (- max_context)))) (orig_tokens :: rest).
Proof. reflexivity. Qed.

(** The loop goes through exactly when every kept row fits. *)
Lemma prepare_rows_total (pad_id max_context padding_length : Z)
    (inputs : list (list Z)) :
  Forall (fun orig_tokens =>
            len (PySlice.from orig_tokens (- max_context)) <= padding_length) inputs ->
  exists rows,
    prepare_rows pad_id max_context (Some padding_length) inputs = Ok rows
    /\ length rows = length inputs.
Proof.
  induction 1 as [|orig_tokens rest Hfit _ (rows & Hrows & Hlen)]; [by exists []|].
  simpl.
  destruct (Z.ltb_spec
              (padding_length - len (PySlice.from orig_tokens (- max_context))) 0);
    [lia|].
  rewrite Hrows. simpl. eexists. split; [done|]. simpl. by f_equal.
Qed.

(** The mask of a prepared batch is true exactly on the tokens equal to
    the pad token, row after row. *)
Lemma prepare_batch_logprob_mask (self : TransformersModel)
    (batch : list LoglikelihoodRequest.t) (padding_length : Z)
    (max_context : option Z) (single_token : bool) (prepared : Batch) :
  prepare_batch_logprob self batch (Some padding_length) max_context single_token
    = Ok prepared ->
  input_mask prepared
  = concat (map (map (fun t => t =? pad_token_id (tokenizer self)))
              (input_ids prepared)).
Proof.
  unfold prepare_batch_logprob. intros H. invert_bind.
  apply prepare_rows_Ok in Ha.
  assert (input_mask prepared = concat (map row_mask a)
          /\ input_ids prepared = map row_tokens a) as [-> ->].
  { destruct a; [discriminate|]. by injection H as <-. }
  clear H. generalize dependent (batch_inputs single_token batch).
  induction a as [|row rows IH]; intros inputs Ha; [done|].
  inversion Ha as [|???? (_ & _ & Hm & _) Hrest]; subst.
  simpl. rewrite Hm. f_equal. by eapply IH.
Qed.

(** C2 at its failing input: one request whose row [5; 6; 7] is padded
    to four columns with the pad token 0. The mask is false on the three
    real tokens and true on the padding, the opposite of what the batch
    of the generation path holds. *)
Theorem prepare_batch_logprob_mask_marks_padding :
  prepare_batch_logprob (example_model 16 no_forward) [short_request]
    (Some 4) (Some 4) false
  = Ok {| input_ids := [[5; 6; 7; 0]];
          input_mask := [false; false; false; true];
          input_lengths := [3];
          truncated := [0];
          padded := [1] |}.
Proof. vm_compute. reflexivity. Qed.

Lemma keep_last_from (mc : Z) (orig_tokens : list Z) :
  0 < mc \/ len (PySlice.from orig_tokens (- mc)) <= mc ->
  PySlice.from orig_tokens (- mc) = keep_last (Z.to_nat mc) orig_tokens.
Proof.
  unfold keep_last. intros [Hpos|Hfit]; [by apply from_neg|].
  destruct (Z.lt_ge_cases 0 mc) as [|Hle]; [by apply from_neg|].
  rewrite from_nonneg in * by lia.
  assert (Z.to_nat mc = 0%nat) as -> by lia.
  unfold len in Hfit. rewrite length_drop in Hfit.
  rewrite Nat.sub_0_r, drop_all. apply nil_length_inv.
  rewrite length_drop. lia.
Qed.

(** C3: in a batch prepared in the non-single-token mode, every row is
    the context followed by the continuation without its last token, cut
    from the left to at most [max_context] tokens and padded on the
    right with the pad token to [padding_length] columns; the counts
    recorded for the row are the tokens cut, the pad tokens added and
    the tokens kept, and kept plus padded is the column count. The
    window is positive, or it is the padding length as in every call of
    the engine. *)
Theorem prepare_batch_logprob_rows (self : TransformersModel)
    (batch : list LoglikelihoodRequest.t) (padding_length : Z)
    (max_context : option Z) (prepared : Batch) :
  let mc := default (_max_length self) max_context in
  0 < mc \/ padding_length = mc ->
  prepare_batch_logprob self batch (Some padding_length) max_context false
    = Ok prepared ->
  forall i request, batch !! i = Some request ->
    let kept := keep_last (Z.to_nat mc) (logprob_input request) in
    len kept <= mc
    /\ input_ids prepared !! i
       = Some (kept ++ replicate (Z.to_nat padding_length - length kept)
                         (pad_token_id (tokenizer self)))
    /\ input_lengths prepared !! i = Some (len kept)
    /\ truncated prepared !! i = Some (Z.max (len (logprob_input request) - mc) 0)
    /\ padded prepared !! i = Some (padding_length - len kept)
    /\ forall row n p,
         input_ids prepared !! i = Some row ->
         input_lengths prepared !! i = Some n ->
         padded prepared !! i = Some p ->
         n + p = len row /\ len row = padding_length.
Proof.
  intros mc Hmc H i request Hi. unfold prepare_batch_logprob in H.
  fold mc in H. invert_bind. apply prepare_rows_Ok in Ha.
  assert (input_ids prepared = map row_tokens a
          /\ input_lengths prepared = map row_length a
          /\ truncated prepared = map row_truncated a
          /\ padded prepared = map row_padded a) as (-> & -> & -> & ->).
  { destruct a; [discriminate|]. by injection H as <-. }
  clear H.
  assert (batch_inputs false batch !! i = Some (logprob_input request)) as Hin.
  { unfold batch_inputs. rewrite list_lookup_fmap, Hi. simpl.
    unfold logprob_input. do 2 f_equal.
    rewrite upto_minus_one. symmetry.
    destruct (LoglikelihoodRequest.tokenized_continuation request) as [|t l]
      using rev_ind; [done|].
    rewrite removelast_last, length_app. simpl.
    replace (length l + 1 - 1)%nat with (length l) by lia.
    by rewrite take_app_length. }
  destruct (Forall2_lookup_l _ _ _ _ _ Ha Hin)
    as (row & Hrow & Hfit & Htok & _ & Hlen & Htr & Hpad).
  rewrite keep_last_from in * by (destruct Hmc; [by left|right; lia]).
  set (kept := keep_last (Z.to_nat mc) (logprob_input request)) in *.
  assert (len kept <= mc) as Hkept.
  { destruct Hmc as [Hpos|<-]; [|done].
    unfold kept, keep_last, len. rewrite length_drop. lia. }
  assert (Z.to_nat (padding_length - len kept)
          = (Z.to_nat padding_length - length kept)%nat) as Hn.
  { unfold len. lia. }
  rewrite !list_lookup_fmap, Hrow. simpl.
  rewrite Htok, Hlen, Htr, Hpad, Hn.
  do 5 (split; [done|]).
  intros row' n p [= <-] [= <-] [= <-].
  unfold len in *. rewrite length_app, length_replicate. lia.
Qed.

(** The window is not cut when it is zero: [orig_tokens[-0:]] is the
    whole row, while all of its tokens are counted as truncated. The
    engine never gets a batch back from such a call, since it passes the
    same value as padding length. *)
Lemma prepare_batch_logprob_zero_window :
  prepare_batch_logprob (example_model 16 no_forward) [short_request]
    (Some 4) (Some 0) false
  = Ok {| input_ids := [[5; 6; 7; 0]];
          input_mask := [false; false; false; true];
          input_lengths := [3];
          truncated := [3];
          padded := [1] |}
  /\ prepare_batch_logprob (example_model 16 no_forward) [short_request]
       (Some 0) (Some 0) false
     = Raise (ValueError "Negative padding").
Proof. split; vm_compute; reflexivity. Qed.

Lemma prepare_batch_logprob_rows_witness :
  let mc := default (_max_length (example_model 16 no_forward)) (Some 4) in
  let prepared :=
    {| input_ids := [[5; 6; 7; 0]];
       input_mask := [false; false; false; true];
       input_lengths := [3];
       truncated := [0];
       padded := [1] |} in
  let kept := keep_last (Z.to_nat mc) (logprob_input short_request) in
  len kept <= mc
  /\ input_ids prepared !! 0%nat
     = Some (kept ++ replicate (Z.to_nat 4 - length kept)
                       (pad_token_id (tokenizer (example_model 16 no_forward))))
  /\ input_lengths prepared !! 0%nat = Some (len kept)
  /\ truncated prepared !! 0%nat
     = Some (Z.max (len (logprob_input short_request) - mc) 0)
  /\ padded prepared !! 0%nat = Some (4 - len kept)
  /\ forall row n p,
       input_ids prepared !! 0%nat = Some row ->
       input_lengths prepared !! 0%nat = Some n ->
       padded prepared !! 0%nat = Some p ->
       n + p = len row /\ len row = 4.
Proof.
  apply (prepare_batch_logprob_rows (example_model 16 no_forward)
           [short_request] 4 (Some 4)).
  - left. simpl. lia.
  - vm_compute. reflexivity.
  - reflexivity.
Defined.

(** ** The score extractor *)

Lemma mapM_argmax_Ok (cur_logits : list (list Q)) (greedy_tokens : list Z) :
  mapM argmax cur_logits = Ok greedy_tokens ->
  length greedy_tokens = length cur_logits
  /\ forall k, greedy_tokens !! k = greedy_at cur_logits k.
Proof.
  revert greedy_tokens.
  induction cur_logits as [|row rest IH]; intros greedy_tokens H; simpl in H.
  - invert_bind. split; [done|]. by intros [|k].
  - invert_bind. destruct (IH _ Ha0) as [Hlen Hk]. split; [simpl; by f_equal|].
    intros [|k]; simpl.
    + unfold greedy_at. simpl. by rewrite Ha.
    + rewrite Hk. reflexivity.
Qed.

Lemma gather_Ok (cur_logits : list (list Q)) (cont_toks : list Z) (lps : list Q) :
  gather cur_logits cont_toks = Ok lps ->
  (length cont_toks <= length cur_logits)%nat
  /\ length lps = length cont_toks
  /\ forall k token, cont_toks !! k = Some token ->
       lps !! k = logit_at cur_logits k token /\ is_Some (lps !! k).
Proof.
  unfold gather. destruct (Z.ltb_spec (len cur_logits) (len cont_toks)) as [|Hle];
    [discriminate|].
  unfold len in Hle. intros H. split; [lia|].
  pose proof (mapM_Ok_length _ _ _ H) as Hlen.
  rewrite length_zip_with in Hlen. split; [lia|].
  intros k token Hk.
  destruct (lookup_lt_is_Some_2 cur_logits k) as [row Hrow].
  { apply lookup_lt_Some in Hk. lia. }
  assert (zip cur_logits cont_toks !! k = Some (row, token)) as Hz.
  { rewrite lookup_zip_with, Hrow. simpl. by rewrite Hk. }
  destruct (mapM_Ok_lookup _ _ _ _ _ H Hz) as (x & Hx & Hg). simpl in Hg.
  unfold logit_at. rewrite Hrow, Hg, Hx. eauto.
Qed.

Lemma eq_all_same_length (greedy_tokens cont_toks : list Z) (flag : bool) :
  length greedy_tokens = length cont_toks ->
  eq_all greedy_tokens cont_toks = Ok flag ->
  flag = true <->
  forall k token, cont_toks !! k = Some token -> greedy_tokens !! k = Some token.
Proof.
  unfold eq_all, len. intros Hlen. rewrite Hlen, Z.eqb_refl. intros [= <-].
  revert cont_toks Hlen.
  induction greedy_tokens as [|g gs IH]; intros [|c cs] Hlen; try discriminate;
    simpl.
  - split; [by intros _ k token|done].
  - injection Hlen as Hlen. rewrite andb_true_iff, (IH _ Hlen). split.
    + intros [Hg Hall] [|k] token; simpl.
      * intros [= <-]. f_equal. lia.
      * apply Hall.
    + intros H. split.
      * specialize (H 0%nat c eq_refl). injection H as ->. apply Z.eqb_refl.
      * intros k token. apply (H (S k)).
Qed.

Lemma slice_lookup_Some {A : Type} (l : list A) (a b : Z) (k : nat) (x : A) :
  0 <= a -> 0 <= b ->
  PySlice.slice l a b !! k = Some x -> l !! (Z.to_nat a + k)%nat = Some x.
Proof.
  intros Ha Hb. rewrite slice_nonneg by done. rewrite lookup_drop.
  intros H. by apply lookup_take_Some in H as [? _].
Qed.

Lemma slice_length_le {A : Type} (l : list A) (a b : Z) :
  0 <= a -> 0 <= b -> len (PySlice.slice l a b) <= Z.max 0 (b - a).
Proof.
  intros Ha Hb. rewrite slice_nonneg by done. unfold len.
  rewrite length_drop, length_take. lia.
Qed.

Lemma greedy_at_slice (cur_logits : list (list Q)) (a b : Z) (k : nat) :
  0 <= a -> 0 <= b ->
  is_Some (PySlice.slice cur_logits a b !! k) ->
  greedy_at (PySlice.slice cur_logits a b) k
  = greedy_at cur_logits (Z.to_nat a + k).
Proof.
  intros Ha Hb [row Hrow]. unfold greedy_at.
  by rewrite Hrow, (slice_lookup_Some _ _ _ _ _ Ha Hb Hrow).
Qed.

Lemma logit_at_slice (cur_logits : list (list Q)) (a b : Z) (k : nat) (token : Z) :
  0 <= a -> 0 <= b ->
  is_Some (PySlice.slice cur_logits a b !! k) ->
  logit_at (PySlice.slice cur_logits a b) k token
  = logit_at cur_logits (Z.to_nat a + k) token.
Proof.
  intros Ha Hb [row Hrow]. unfold logit_at.
  by rewrite Hrow, (slice_lookup_Some _ _ _ _ _ Ha Hb Hrow).
Qed.

(** What [score_row] returns, where it returns. With [n] the smaller of
    the continuation length and the input length and [start] the input
    length minus the continuation length (zero when that is negative),
    the sum adds the log-probability of continuation token [k] at
    position [start + k] for every [k < n]. The flag says that greedy
    decoding picks continuation token [k] at position [start + k] for
    every [k < n] when the continuation is no longer than the input, and
    also when it is longer and the input fills the width of the logits. *)
Lemma score_row_scored (tokenized_continuation : list Z)
    (cur_logits : list (list Q)) (inplen : Z) (logits_sum : Q) (max_equal : bool) :
  0 <= inplen ->
  score_row tokenized_continuation cur_logits inplen = Ok (logits_sum, max_equal) ->
  let n := Z.to_nat (Z.min (len tokenized_continuation) inplen) in
  let start := Z.to_nat (inplen - len tokenized_continuation) in
  (exists lps,
     length lps = n /\ logits_sum = Qsum lps
     /\ forall k token, (k < n)%nat ->
          tokenized_continuation !! k = Some token ->
          lps !! k = logit_at cur_logits (start + k) token /\ is_Some (lps !! k))
  /\ (len tokenized_continuation <= inplen \/ len cur_logits = inplen ->
      max_equal = true <->
      forall k token, (k < n)%nat ->
        tokenized_continuation !! k = Some token ->
        greedy_at cur_logits (start + k) = Some token).
Proof.
  intros Hin H n start. unfold score_row in H.
  destruct (Z.gtb_spec (len tokenized_continuation) inplen) as [Hroll|Hfit].
  - (* the continuation is longer than the input *)
    invert_bind. rename a into greedy_tokens, a1 into lps.
    rewrite upto_nonneg in * by done.
    assert (start = 0%nat) as -> by lia.
    assert (n = Z.to_nat inplen) as Hn by lia.
    assert (length (take (Z.to_nat inplen) tokenized_continuation) = n) as Hlen.
    { rewrite length_take. unfold len in *. lia. }
    destruct (gather_Ok _ _ _ Ha1) as (Hle & Hlps & Hk).
    destruct (mapM_argmax_Ok _ _ Ha) as [Hg Hgk].
    split.
    + exists lps. split; [congruence|]. split; [done|].
      intros k token Hkn Htok. apply Hk. rewrite lookup_take_lt by lia. done.
    + intros [Hc|Hfull]; [lia|].
      assert (length greedy_tokens
              = length (take (Z.to_nat inplen) tokenized_continuation)) as Hsame.
      { unfold len in *. lia. }
      rewrite (eq_all_same_length _ _ _ Hsame Ha0).
      split.
      * intros Hall k token Hkn Htok. rewrite <- Hgk. apply Hall.
        rewrite lookup_take_lt by lia. done.
      * intros Hall k token Htok. apply lookup_take_Some in Htok as [Htok Hkn].
        rewrite Hgk. apply Hall; [lia|done].
  - (* the continuation fits in the input *)
    invert_bind. rename a into greedy_tokens, a1 into lps.
    assert (0 <= inplen - len tokenized_continuation) as Hstart by lia.
    assert (n = length tokenized_continuation) as Hn by (unfold len in *; lia).
    subst start.
    destruct (gather_Ok _ _ _ Ha1) as (Hle & Hlps & Hk).
    destruct (mapM_argmax_Ok _ _ Ha) as [Hg Hgk].
    pose proof (slice_length_le cur_logits _ _ Hstart Hin) as Hsl.
    assert (length (PySlice.slice cur_logits (inplen - len tokenized_continuation) inplen)
            = length tokenized_continuation) as Hlen.
    { unfold len in *. lia. }
    assert (forall k, (k < n)%nat ->
              is_Some (PySlice.slice cur_logits
                         (inplen - len tokenized_continuation) inplen !! k)) as Hsome.
    { intros k Hkn. apply lookup_lt_is_Some_2. lia. }
    split.
    + exists lps. split; [congruence|]. split; [done|].
      intros k token Hkn Htok.
      rewrite <- (logit_at_slice _ _ inplen) by auto. by apply Hk.
    + intros _.
      assert (length greedy_tokens = length tokenized_continuation) as Hsame
        by congruence.
      rewrite (eq_all_same_length _ _ _ Hsame Ha0).
      split.
      * intros Hall k token Hkn Htok.
        rewrite <- (greedy_at_slice _ _ inplen), <- Hgk by auto. by apply Hall.
      * intros Hall k token Htok. pose proof (lookup_lt_Some _ _ _ Htok) as Hkn.
        rewrite Hgk, greedy_at_slice by (auto; apply Hsome; lia).
        apply Hall; [lia|done].
Qed.

(** C4 at its failing input: the engine scores a batch of two requests,
    three columns wide. The second request has no context tokens and a
    continuation of two, so its input is the single token 1 and only its
    first continuation token is scored, at position 0, where greedy
    decoding picks that very token. The flag of the row is false all the
    same: the one continuation token is compared with the greedy token
    of every column of the padded row. *)
Theorem greedy_match_compares_padding_columns :
  score_batch (example_model 16 three_positions)
    [wide_request; contextless_request] 3
  = Ok [ ((-200)%Q, false); (0%Q, false) ]
  /\ greedy_at (three_positions [[1; 0; 0]] !!! 0%nat) 0
     = head (LoglikelihoodRequest.tokenized_continuation contextless_request).
Proof. split; vm_compute; reflexivity. Qed.

(** ** The stop criterion *)

Section StopCriterion.
Import MultiTokenEOSCriteria.








End StopCriterion.


(** ** The preference-pair tokenizer *)

Section PreferenceTokenizer.
Import Preference.
Context (self : TransformersModel).

Lemma build_tokenized_answer_Ok (prompt answer : string) (answer_tokens : Answer) :
  build_tokenized_answer self prompt answer = Ok answer_tokens ->
  let full := encode (tokenizer self) (prompt +:+ answer) false in
  let start := answer_start self prompt answer in
  prompt_input_ids answer_tokens = take start full
  /\ input_ids answer_tokens = drop start full.
Proof.
  unfold build_tokenized_answer, answer_start, encode.
  set (full := Encoding.input_ids (tokenize (tokenizer self) (prompt +:+ answer) false)).
  set (prompt_ids := Encoding.input_ids (tokenize (tokenizer self) prompt false)).
  assert (0 <= len prompt_ids) as Hn by (unfold len; lia).
  rewrite !(upto_nonneg full (len prompt_ids)) by done.
  replace (Z.to_nat (len prompt_ids)) with (length prompt_ids) by (unfold len; lia).
  destruct (len full =? len (prompt_ids ++ PySlice.from full (len prompt_ids)));
    [|discriminate].
  simpl.
  destruct (decide (prompt_ids = take (length prompt_ids) full)) as [Heq|Hne].
  - rewrite bool_decide_eq_false_2 by (intros ?; done).
    rewrite bool_decide_eq_true_2 by done.
    destruct (_ =? _); [|discriminate]. intros [= <-]. simpl.
    rewrite upto_nonneg, from_nonneg by done.
    by replace (Z.to_nat (len prompt_ids)) with (length prompt_ids) by (unfold len; lia).
  - rewrite bool_decide_eq_true_2 by done.
    rewrite bool_decide_eq_false_2 by done.
    assert (0 < len prompt_ids).
    { destruct prompt_ids; [by destruct Hne|]. unfold len. simpl. lia. }
    destruct (_ =? _); [|discriminate]. intros [= <-]. simpl.
    rewrite upto_nonneg, from_nonneg by lia.
    by replace (Z.to_nat (len prompt_ids - 1)) with (length prompt_ids - 1)%nat
      by (unfold len; lia).
Qed.

Lemma mask_labels_app (prompt_part answer_part : list Z) :
  mask_labels (prompt_part ++ answer_part) (len prompt_part)
  = replicate (length prompt_part) label_pad_token_id ++ answer_part.
Proof.
  unfold mask_labels. rewrite bound_nonneg by (unfold len; lia).
  unfold len. rewrite Nat2Z.id, length_app.
  replace (Nat.min (length prompt_part) (length prompt_part + length answer_part))
    with (length prompt_part) by lia.
  by rewrite drop_app_length.
Qed.

Lemma truncate_prompt_fits (longer_response_length : Z) (prompt_ids prompt_mask : list Z)
    (r : list Z * list Z) :
  len prompt_ids + longer_response_length <= _max_length self ->
  truncate_prompt self longer_response_length prompt_ids prompt_mask = Ok r ->
  r = (prompt_ids, prompt_mask).
Proof.
  unfold truncate_prompt. intros Hfit.
  destruct (Z.gtb_spec (len prompt_ids + longer_response_length) (_max_length self));
    [lia|]. by intros [= <-].
Qed.

Lemma truncate_response_fits (longer_response_length : Z) (answer_tokens : Answer) :
  len (prompt_input_ids answer_tokens) + longer_response_length <= _max_length self ->
  truncate_response self longer_response_length answer_tokens = answer_tokens.
Proof.
  unfold truncate_response. intros Hfit.
  destruct (Z.gtb_spec (len (prompt_input_ids answer_tokens) + longer_response_length)
              (_max_length self)); [lia|done].
Qed.

End PreferenceTokenizer.

(** C5, as stated, fails on the sequences: for the prompt "2+2=" and
    the chosen answer "4" the chosen sequence is not the prompt tokens
    followed by the tokens of the answer, an EOS token closes it. *)
Lemma chosen_sequence_ends_with_eos :
  Preference.tokenize_row (example_model 64 no_forward) sum_request = Ok sum_row
  /\ Preference.chosen_input_ids sum_row
     <> (bos_token_id char_tokenizer
         :: take (answer_start (example_model 64 no_forward) "2+2=" "4")
              (encode char_tokenizer ("2+2=" +:+ "4") false))
        ++ drop (answer_start (example_model 64 no_forward) "2+2=" "4")
             (encode char_tokenizer ("2+2=" +:+ "4") false).
Proof. split; [vm_compute; reflexivity|]. vm_compute. discriminate. Qed.

Section PreferenceTruncation.
Context (self : TransformersModel).
Import Preference.

Lemma truncate_prompt_ids (longer_response_length : Z) (prompt_ids prompt_mask : list Z)
    (cut : list Z * list Z) :
  truncate_prompt self longer_response_length prompt_ids prompt_mask = Ok cut ->
  fst cut = cut_prompt_part self longer_response_length prompt_ids.
Proof.
  unfold truncate_prompt, cut_prompt_part.
  destruct (len prompt_ids + longer_response_length >? _max_length self);
    [|by intros [= <-]].
  destruct (String.eqb (truncation_mode self) "keep_start"); [by intros [= <-]|].
  destruct (String.eqb (truncation_mode self) "keep_end"); [by intros [= <-]|done].
Qed.

Lemma truncate_response_ids (longer_response_length : Z) (answer_tokens : Answer) :
  prompt_input_ids (truncate_response self longer_response_length answer_tokens)
  = prompt_input_ids answer_tokens
  /\ input_ids (truncate_response self longer_response_length answer_tokens)
     = cut_answer_part self longer_response_length (prompt_input_ids answer_tokens)
         (input_ids answer_tokens).
Proof.
  unfold truncate_response, cut_answer_part.
  by destruct (len (prompt_input_ids answer_tokens) + longer_response_length
               >? _max_length self).
Qed.

End PreferenceTruncation.

(** C5, amended. For every request that [tokenize_row] accepts, each of
    the two sequences is its prompt part followed by its answer part,
    and its labels are the sequence with exactly the positions of the
    prompt part set to -100. Before truncation the prompt part is BOS
    and the tokens before the start of the answer in the encoding of
    prompt and answer, and the answer part is the rest of that encoding
    followed by EOS; the answer is the continuation with the occurrences
    of the prompt removed. A prompt part that exceeds the maximum length
    together with the longer of the two answer parts is cut to the slice
    [[:max_prompt_length]] in the mode "keep_start" and to the slice
    [[-max_prompt_length:]] in the mode "keep_end", the default, where
    the BOS is lost when the prompt part was longer than that; an answer
    part whose cut prompt part still exceeds the maximum length with the
    longer answer part is cut to the slice
    [[:max_length - max_prompt_length]], where its EOS is lost when it
    was longer than that. A sequence whose prompt part fits with the
    longer answer part is left whole. *)
Theorem tokenize_row_sequences_and_labels (self : TransformersModel)
    (request : Preference.Request) (row : Preference.Row) :
  Preference.tokenize_row self request = Ok row ->
  let prompt := Preference.context request in
  let chosen := str_replace (Preference.chosen_continuation request) prompt "" in
  let rejected := str_replace (Preference.rejected_continuation request) prompt "" in
  let longer := Z.max (len (answer_part self prompt chosen))
                      (len (answer_part self prompt rejected)) in
  let chosen_prompt := cut_prompt_part self longer (prompt_part self prompt chosen) in
  let chosen_answer :=
    cut_answer_part self longer chosen_prompt (answer_part self prompt chosen) in
  let rejected_prompt := cut_prompt_part self longer (prompt_part self prompt rejected) in
  let rejected_answer :=
    cut_answer_part self longer rejected_prompt (answer_part self prompt rejected) in
  Preference.chosen_input_ids row = chosen_prompt ++ chosen_answer
  /\ Preference.chosen_labels row
     = replicate (length chosen_prompt) (-100) ++ chosen_answer
  /\ Preference.rejected_input_ids row = rejected_prompt ++ rejected_answer
  /\ Preference.rejected_labels row
     = replicate (length rejected_prompt) (-100) ++ rejected_answer
  /\ (len (prompt_part self prompt chosen) + longer <= _max_length self ->
      chosen_prompt = prompt_part self prompt chosen
      /\ chosen_answer = answer_part self prompt chosen)
  /\ (len (prompt_part self prompt rejected) + longer <= _max_length self ->
      rejected_prompt = prompt_part self prompt rejected
      /\ rejected_answer = answer_part self prompt rejected).
Proof.
  intros H prompt chosen rejected longer chosen_prompt chosen_answer
    rejected_prompt rejected_answer.
  unfold Preference.tokenize_row in H.
  apply bind_Ok in H as (full & H & Hrow). injection Hrow as <-.
  unfold Preference.tokenize_row_full in H.
  fold prompt chosen rejected in H.
  apply bind_Ok in H as (built_chosen & Hchosen & H).
  apply bind_Ok in H as (built_rejected & Hrejected & H).
  apply bind_Ok in H as (c & Hc & H).
  apply bind_Ok in H as (r & Hr & H).
  apply bind_Ok in H as (p & Hp & H).
  injection H as <-.
  destruct (build_tokenized_answer_Ok _ _ _ _ Hchosen) as [Hcp Hci].
  destruct (build_tokenized_answer_Ok _ _ _ _ Hrejected) as [Hrp Hri].
  fold prompt chosen rejected in Hcp, Hci, Hrp, Hri.
  cbn [Preference.prompt_input_ids Preference.input_ids] in Hc, Hr.
  rewrite Hcp, Hci, Hri in Hc. rewrite Hrp, Hci, Hri in Hr.
  apply truncate_prompt_ids in Hc. apply truncate_prompt_ids in Hr.
  fold (prompt_part self prompt chosen) in Hc.
  fold (prompt_part self prompt rejected) in Hr.
  fold (answer_part self prompt chosen) in Hc, Hr.
  fold (answer_part self prompt rejected) in Hc, Hr.
  fold longer in Hc, Hr. fold chosen_prompt in Hc. fold rejected_prompt in Hr.
  cbn [snd Preference.chosen_input_ids Preference.chosen_labels
       Preference.rejected_input_ids Preference.rejected_labels].
  rewrite !mask_labels_app.
  set (L := Z.max _ _).
  assert (L = longer) as HL.
  { unfold L, longer, answer_part.
    cbn [Preference.input_ids]. by rewrite Hci, Hri. }
  destruct (truncate_response_ids self L
              (Preference.mkAnswer (fst c) (snd c)
                 (Preference.input_ids built_chosen ++ [eos_token_id (tokenizer self)])
                 (Preference.attention_mask built_chosen ++ [1]))) as [Hpc Hac].
  destruct (truncate_response_ids self L
              (Preference.mkAnswer (fst r) (snd r)
                 (Preference.input_ids built_rejected ++ [eos_token_id (tokenizer self)])
                 (Preference.attention_mask built_rejected ++ [1]))) as [Hpr Har].
  cbn [Preference.prompt_input_ids Preference.input_ids] in Hpc, Hac, Hpr, Har.
  rewrite Hpc, Hac, Hpr, Har, HL, Hc, Hr, Hci, Hri.
  fold (answer_part self prompt chosen). fold (answer_part self prompt rejected).
  fold chosen_answer rejected_answer.
  do 4 (split; [reflexivity|]).
  split.
  - intros Hfit. unfold chosen_answer, chosen_prompt, cut_answer_part, cut_prompt_part.
    destruct (Z.gtb_spec (len (prompt_part self prompt chosen) + longer)
                (_max_length self)) as [|_]; [lia|].
    destruct (Z.gtb_spec (len (prompt_part self prompt chosen) + longer)
                (_max_length self)) as [|_]; [lia|done].
  - intros Hfit. unfold rejected_answer, rejected_prompt, cut_answer_part, cut_prompt_part.
    destruct (Z.gtb_spec (len (prompt_part self prompt rejected) + longer)
                (_max_length self)) as [|_]; [lia|].
    destruct (Z.gtb_spec (len (prompt_part self prompt rejected) + longer)
                (_max_length self)) as [|_]; [lia|done].
Qed.

Lemma tokenize_row_sequences_and_labels_witness :
  let self := small_window_model in
  let row := long_prompt_row in
  let prompt := Preference.context long_prompt_request in
  let chosen :=
    str_replace (Preference.chosen_continuation long_prompt_request) prompt "" in
  let rejected :=
    str_replace (Preference.rejected_continuation long_prompt_request) prompt "" in
  let longer := Z.max (len (answer_part self prompt chosen))
                      (len (answer_part self prompt rejected)) in
  let chosen_prompt := cut_prompt_part self longer (prompt_part self prompt chosen) in
  let chosen_answer :=
    cut_answer_part self longer chosen_prompt (answer_part self prompt chosen) in
  let rejected_prompt := cut_prompt_part self longer (prompt_part self prompt rejected) in
  let rejected_answer :=
    cut_answer_part self longer rejected_prompt (answer_part self prompt rejected) in
  Preference.chosen_input_ids row = chosen_prompt ++ chosen_answer
  /\ Preference.chosen_labels row
     = replicate (length chosen_prompt) (-100) ++ chosen_answer
  /\ Preference.rejected_input_ids row = rejected_prompt ++ rejected_answer
  /\ Preference.rejected_labels row
     = replicate (length rejected_prompt) (-100) ++ rejected_answer
  /\ (len (prompt_part self prompt chosen) + longer <= _max_length self ->
      chosen_prompt = prompt_part self prompt chosen
      /\ chosen_answer = answer_part self prompt chosen)
  /\ (len (prompt_part self prompt rejected) + longer <= _max_length self ->
      rejected_prompt = prompt_part self prompt rejected
      /\ rejected_answer = answer_part self prompt rejected).
Proof.
  apply (tokenize_row_sequences_and_labels small_window_model long_prompt_request
           long_prompt_row).
  vm_compute. reflexivity.
Defined.

(** When the last prompt token merges with the answer, the answer
    starts one token earlier: over a tokenizer that merges "=4", the
    chosen sequence of the prompt "2+2=" and the answer "4" is BOS, the
    three tokens of "2+2", the merged token and EOS, and the labels mask
    BOS and the three tokens. *)
Lemma tokenize_row_merged_boundary :
  answer_start merging_model "2+2=" "4" = 3%nat
  /\ (exists row,
        Preference.tokenize_row merging_model sum_request = Ok row
        /\ Preference.chosen_input_ids row = [1; 50; 43; 50; 1000; 2]
        /\ Preference.chosen_labels row = [-100; -100; -100; -100; 1000; 2]).
Proof. split; [vm_compute; reflexivity|]. eexists. vm_compute. by repeat split. Qed.

(** ** Order of the responses *)

Section Chunks.
Context {A : Type}.
Implicit Types l : list A.

Lemma chunks_concat (fuel n : nat) l :
  (0 < n)%nat -> (length l <= fuel)%nat -> concat (chunks fuel n l) = l.
Proof.
  intros Hn. revert l. induction fuel as [|fuel IH]; intros l Hl.
  - destruct l; [done|simpl in Hl; lia].
  - destruct l as [|x l]; [done|].
    change (chunks (S fuel) n (x :: l))
      with (take n (x :: l) :: chunks fuel n (drop n (x :: l))).
    simpl concat. rewrite IH.
    + apply take_drop.
    + rewrite length_drop. simpl in *. lia.
Qed.

Lemma chunks_nonempty (fuel n : nat) l :
  (0 < n)%nat -> Forall (fun chunk => chunk <> []) (chunks fuel n l).
Proof.
  intros Hn. revert l. induction fuel as [|fuel IH]; intros l; [constructor|].
  destruct l as [|x l]; [constructor|].
  change (chunks (S fuel) n (x :: l))
    with (take n (x :: l) :: chunks fuel n (drop n (x :: l))).
  constructor; [|apply IH]. destruct n; [lia|done].
Qed.

Lemma DataLoader_concat l (batch_size : Z) :
  0 < batch_size ->
  exists batches, DataLoader l batch_size = Ok batches /\ concat batches = l.
Proof.
  intros Hb. unfold DataLoader.
  destruct (Z.leb_spec batch_size 0); [lia|].
  eexists. split; [done|]. apply chunks_concat; lia.
Qed.

End Chunks.

Lemma mapM_respond_concat {A R : Type} (respond : A -> R) (batches : list (list A)) :
  mapM (M := result) (fun batch => Ok (map respond batch)) batches
  = Ok (map (map respond) batches).
Proof. apply mapM_Ok_map. Qed.

Lemma concat_map_map {A R : Type} (respond : A -> R) (batches : list (list A)) :
  concat (map (map respond) batches) = map respond (concat batches).
Proof.
  induction batches as [|b bs IH]; [done|]. simpl. by rewrite IH, map_app.
Qed.

Section OriginalOrder.
Context {A R : Type}.

Lemma insert_sorted_Permutation (sorting_criteria : A -> Z) (x : nat * A)
    (l : list (nat * A)) :
  insert_sorted sorting_criteria x l ≡ₚ x :: l.
Proof.
  induction l as [|y l IH]; [done|]. simpl.
  destruct (_ <=? _); [done|]. rewrite IH. apply Permutation_swap.
Qed.

Lemma sorted_enumerated_requests_Permutation (sorting_criteria : A -> Z)
    (requests : list A) :
  sorted_enumerated_requests sorting_criteria requests
  ≡ₚ zip (seq 0 (length requests)) requests.
Proof.
  unfold sorted_enumerated_requests.
  induction (zip (seq 0 (length requests)) requests) as [|x l IH]; [done|].
  simpl. by rewrite insert_sorted_Permutation, IH.
Qed.

(** Filling slots from pairs with distinct indices. *)
Lemma fill_slots_lookup (pairs : list (nat * R)) (slots : list (option R)) (i : nat) :
  NoDup (map fst pairs) ->
  foldl (fun slots p => <[fst p := Some (snd p)]> slots) slots pairs !! i
  = match list_find (fun p => fst p = i) pairs with
    | Some (_, p) => if decide (i < length slots)%nat then Some (Some (snd p)) else None
    | None => slots !! i
    end.
Proof.
  revert slots. induction pairs as [|[j v] pairs IH]; intros slots Hnd; [done|].
  simpl in Hnd. apply NoDup_cons in Hnd as [Hj Hnd].
  simpl. rewrite (IH _ Hnd), length_insert. clear IH.
  destruct (decide (j = i)) as [->|Hne].
  - simpl. destruct (list_find _ pairs) as [[k p]|] eqn:Hfind.
    + apply list_find_Some in Hfind as (Hk & Hp & _).
      exfalso. apply Hj. rewrite <- Hp.
      apply list_elem_of_fmap. exists p. split; [done|].
      by eapply list_elem_of_lookup_2.
    + simpl. destruct (decide (i < length slots)%nat) as [Hlt|Hge].
      * by apply list_lookup_insert_eq.
      * rewrite list_insert_ge by lia. apply lookup_ge_None. lia.
  - simpl. destruct (list_find _ pairs) as [[k p]|] eqn:Hfind; [done|].
    simpl. by apply list_lookup_insert_ne.
Qed.

Lemma fill_slots_Permutation (pairs : list (nat * R)) (values : list R) :
  pairs ≡ₚ zip (seq 0 (length values)) values ->
  foldl (fun slots p => <[fst p := Some (snd p)]> slots)
        (replicate (length values) None) pairs
  = map Some values.
Proof.
  intros Hperm.
  assert (map fst (zip (seq 0 (length values)) values) = seq 0 (length values)) as Hfst.
  { apply fst_zip. by rewrite length_seq. }
  assert (NoDup (map fst pairs)) as Hnd.
  { rewrite Hperm, Hfst. apply NoDup_seq. }
  apply list_eq. intros i. rewrite (fill_slots_lookup _ _ _ Hnd), length_replicate.
  rewrite list_lookup_fmap.
  destruct (list_find _ pairs) as [[k [j v]]|] eqn:Hfind.
  - apply list_find_Some in Hfind as (Hk & Hj & _). simpl in Hj. subst j.
    apply list_elem_of_lookup_2 in Hk. rewrite Hperm in Hk.
    apply list_elem_of_lookup_1 in Hk as [m Hm].
    apply lookup_zip_with_Some in Hm as (a & b & [= <- <-] & Ha & Hb).
    apply lookup_seq in Ha as [-> Hlt]. simpl in *.
    rewrite decide_True by done. by rewrite Hb.
  - apply list_find_None in Hfind.
    destruct (values !! i) as [v|] eqn:Hv.
    + exfalso. assert ((i, v) ∈ pairs) as Hin.
      { rewrite Hperm. apply list_elem_of_lookup. exists i.
        apply lookup_zip_with_Some. exists i, v. split; [done|]. split; [|done].
        apply lookup_seq. split; [done|]. by apply lookup_lt_Some in Hv. }
      rewrite Forall_forall in Hfind. by apply (Hfind _ Hin).
    + apply lookup_replicate_None. by apply lookup_ge_None in Hv.
Qed.

Lemma mapM_id_Some (values : list R) :
  mapM (M := option) id (map Some values) = Some values.
Proof. induction values as [|v vs IH]; [done|]. simpl. by rewrite IH. Qed.

(** The inverse of the sort: results listed along [sorted_data] come
    back in the order of the caller's requests. *)
Lemma get_original_order_sorted (sorting_criteria : A -> Z) (respond : A -> R)
    (requests : list A) (num_dataset_splits : nat) :
  let dataset := make_dataset sorting_criteria requests num_dataset_splits in
  get_original_order dataset (map respond (sorted_data dataset))
  = Ok (map respond requests).
Proof.
  intros dataset. unfold get_original_order. subst dataset. simpl.
  pose proof (sorted_enumerated_requests_Permutation sorting_criteria requests) as Hperm.
  generalize dependent (sorted_enumerated_requests sorting_criteria requests).
  intros sorted Hperm.
  assert (length (map snd sorted) = length (map respond requests)) as Hlen.
  { rewrite !length_map, Hperm, length_zip_with, length_seq. lia. }
  assert (zip (map fst sorted) (map respond (map snd sorted))
          = map (fun p => (fst p, respond (snd p))) sorted) as Hzip.
  { clear. induction sorted as [|[i x] l IH]; [done|]. simpl. by rewrite IH. }
  rewrite Hzip, Hlen, fill_slots_Permutation, mapM_id_Some; [done|].
  rewrite Hperm, length_map. clear.
  generalize 0%nat. induction requests as [|x l IH]; intros n; [done|].
  simpl. by rewrite IH.
Qed.

End OriginalOrder.

Lemma dataset_splits_concat {A : Type} (dataset : Dataset A) :
  concat (dataset_splits dataset) = sorted_data dataset
  /\ Forall (fun split => split <> []) (dataset_splits dataset).
Proof.
  unfold dataset_splits. split.
  - apply chunks_concat; lia.
  - apply chunks_nonempty. lia.
Qed.

Section ResponsesInOrder.
Context (self : TransformersModel) (override_bs : Z).
Hypothesis probe_ok : probe_succeeds self.

Lemma get_batch_size_positive (max_input_length starting_batch_size : Z) :
  exists batch_size,
    _get_batch_size self max_input_length (Some override_bs) starting_batch_size
    = Ok batch_size
    /\ 0 < batch_size.
Proof.
  unfold _get_batch_size.
  destruct (Z.gtb_spec override_bs 0); [by eexists|]. apply probe_ok.
Qed.

Lemma greedy_until_splits_responses {R : Type} (respond : GreedyUntilRequest.t -> R)
    (splits : list (list GreedyUntilRequest.t)) (start : Z) :
  Forall (fun split => split <> []) splits ->
  exists probes,
    greedy_until_splits self (Some override_bs)
      (fun _ batch => Ok (map respond batch)) start splits
    = Ok (probes, map respond (concat splits)).
Proof.
  intros Hne. revert start.
  induction Hne as [|split rest Hsplit _ IH]; intros start; [by exists []|].
  destruct split as [|first split]; [done|].
  cbn [greedy_until_splits first_of_split mbind result_bind].
  match goal with
  | |- context [_get_batch_size self ?m _ ?s] =>
      destruct (get_batch_size_positive m s) as (b & -> & Hb)
  end.
  cbn [mbind result_bind].
  destruct (DataLoader_concat (first :: split) b Hb) as (batches & -> & Hcat).
  cbn [mbind result_bind].
  rewrite mapM_respond_concat. cbn [mbind result_bind].
  destruct (IH (b * 2)) as (probes & ->). cbn [mbind result_bind].
  eexists. by rewrite concat_map_map, Hcat, <- map_app.
Qed.

Lemma loglikelihood_tokens_splits_responses {R : Type}
    (respond : LoglikelihoodRequest.t -> R) (rolling : bool)
    (splits : list (list LoglikelihoodRequest.t)) (start : Z) :
  Forall (fun split => split <> []) splits ->
  exists probes,
    loglikelihood_tokens_splits self (Some override_bs) rolling
      (fun _ batch => Ok (map respond batch)) start splits
    = Ok (probes, map respond (concat splits)).
Proof.
  intros Hne. revert start.
  induction Hne as [|split rest Hsplit _ IH]; intros start; [by exists []|].
  destruct split as [|first split]; [done|].
  cbn [loglikelihood_tokens_splits first_of_split mbind result_bind].
  match goal with
  | |- context [_get_batch_size self ?m _ ?s] =>
      destruct (get_batch_size_positive m s) as (b & -> & Hb)
  end.
  cbn [mbind result_bind].
  destruct (DataLoader_concat (first :: split) b Hb) as (batches & -> & Hcat).
  cbn [mbind result_bind].
  rewrite mapM_respond_concat. cbn [mbind result_bind].
  destruct (IH (b * 2)) as (probes & ->). cbn [mbind result_bind].
  eexists. by rewrite concat_map_map, Hcat, <- map_app.
Qed.

End ResponsesInOrder.

(** C1: with a probe that finds a batch size and a batch body that
    answers every row of a batch, [greedy_until] and
    [_loglikelihood_tokens] return, at every position of the caller's
    list, the response of the request submitted at that position,
    however the requests were sorted, split and batched. *)
Theorem responses_in_original_order {R : Type} (self : TransformersModel)
    (override_bs : Z) (rolling : bool)
    (generate : GreedyUntilRequest.t -> R) (score : LoglikelihoodRequest.t -> R)
    (generation_requests : list GreedyUntilRequest.t)
    (loglikelihood_requests : list LoglikelihoodRequest.t) :
  probe_succeeds self ->
  greedy_until self (fun _ batch => Ok (map generate batch))
    generation_requests (Some override_bs)
  = Ok (map generate (map (prepare_generation_request self) generation_requests))
  /\ _loglikelihood_tokens self (fun _ batch => Ok (map score batch))
       loglikelihood_requests (Some override_bs) rolling
     = Ok (map score loglikelihood_requests).
Proof.
  intros Hprobe. split.
  - unfold greedy_until, greedy_until_run.
    set (dataset := make_dataset _ _ _).
    destruct (dataset_splits_concat dataset) as [Hcat Hne].
    destruct (greedy_until_splits_responses self override_bs Hprobe generate
                _ STARTING_BATCH_SIZE Hne) as (probes & ->).
    cbn [mbind result_bind]. rewrite Hcat.
    subst dataset. rewrite get_original_order_sorted. reflexivity.
  - unfold _loglikelihood_tokens, loglikelihood_tokens_run.
    set (dataset := make_dataset _ _ _).
    destruct (dataset_splits_concat dataset) as [Hcat Hne].
    destruct (loglikelihood_tokens_splits_responses self override_bs Hprobe score
                rolling _ STARTING_BATCH_SIZE Hne) as (probes & ->).
    cbn [mbind result_bind]. rewrite Hcat.
    subst dataset. rewrite get_original_order_sorted. reflexivity.
Qed.

(** The three generation requests are processed longest first, in two
    groups, and answered in the order they were submitted in. *)
Lemma greedy_until_example :
  greedy_until_run (example_model 16 no_forward)
    (fun _ batch =>
       Ok (map (fun r => len (GreedyUntilRequest.tokenized_context r)) batch))
    generation_requests (Some (-1))
  = Ok ([mkProbe 512 64; mkProbe 128 16], [2; 4; 3])
  /\ map GreedyUntilRequest.context
       (sorted_data (make_dataset generation_length
                       (map (prepare_generation_request (example_model 16 no_forward))
                          generation_requests) 2))
     = ["abcd"; "abc"; "ab"]%string.
Proof. split; vm_compute; reflexivity. Qed.

Lemma responses_in_original_order_witness :
  probe_succeeds (example_model 16 no_forward)
  /\ greedy_until (example_model 16 no_forward)
       (fun _ batch =>
          Ok (map (fun r => len (GreedyUntilRequest.tokenized_context r)) batch))
       generation_requests (Some (-1))
     = Ok (map (fun r => len (GreedyUntilRequest.tokenized_context r))
             (map (prepare_generation_request (example_model 16 no_forward))
                generation_requests))
  /\ _loglikelihood_tokens (example_model 16 no_forward)
       (fun _ batch => Ok (map loglikelihood_length batch))
       loglikelihood_requests (Some (-1)) false
     = Ok (map loglikelihood_length loglikelihood_requests).
Proof.
  assert (probe_succeeds (example_model 16 no_forward)) as Hprobe.
  { intros start max_input_length. eexists. split; [reflexivity|]. lia. }
  split; [exact Hprobe|].
  exact (responses_in_original_order (example_model 16 no_forward) (-1) false
           (fun r => len (GreedyUntilRequest.tokenized_context r))
           loglikelihood_length generation_requests loglikelihood_requests Hprobe).
Defined.


(** A choice of two characters has two tokens and stops the call. *)
Lemma single_token_check_example :
  loglikelihood_single_token_requests (example_model 16 no_forward)
    [ LoglikelihoodSingleTokenRequest.mk "abc" ["x"; "yz"] [] [] ]
  = Raise single_token_error.
Proof. vm_compute. reflexivity. Qed.

(** ** Strings *)

Lemma prefix_empty (s : string) : String.prefix "" s = true.
Proof. by destruct s. Qed.

Lemma prefix_cons (a b : ascii) (s t : string) :
  String.prefix (String a s) (String b t) = true <-> a = b /\ String.prefix s t = true.
Proof.
  simpl. destruct (Ascii.ascii_dec a b) as [->|Hne].
  - split; [by intros ?|by intros [_ ?]].
  - split; [done|]. by intros [? _].
Qed.

Lemma prefix_trans (a b c : string) :
  String.prefix a b = true -> String.prefix b c = true -> String.prefix a c = true.
Proof.
  revert b c. induction a as [|x a IH]; intros b c Hab Hbc; [apply prefix_empty|].
  destruct b as [|y b]; [done|]. destruct c as [|z c]; [done|].
  apply prefix_cons in Hab as [-> Hab]. apply prefix_cons in Hbc as [-> Hbc].
  apply prefix_cons. eauto.
Qed.

Lemma prefix_of_empty (s : string) : String.prefix s "" = true -> s = ""%string.
Proof. by destruct s. Qed.

Lemma str_in_nil (term : string) : str_in term "" = String.prefix term "".
Proof. by destruct term. Qed.

Lemma str_in_cons (term : string) (c : ascii) (s : string) :
  str_in term (String c s)
  = if String.prefix term (String c s) then true else str_in term s.
Proof. reflexivity. Qed.

Lemma before_first_nil (term : string) : before_first term "" = ""%string.
Proof. by destruct term. Qed.

Lemma before_first_cons (term : string) (c : ascii) (s : string) :
  before_first term (String c s)
  = if String.prefix term (String c s) then ""%string
    else String c (before_first term s).
Proof. reflexivity. Qed.

Lemma str_in_prefix (term p s : string) :
  String.prefix p s = true -> str_in term p = true -> str_in term s = true.
Proof.
  revert s. induction p as [|c p IH]; intros s Hps Hin.
  - rewrite str_in_nil in Hin. apply prefix_of_empty in Hin as ->.
    destruct s; [done|]. by rewrite str_in_cons, prefix_empty.
  - destruct s as [|d s]; [done|]. apply prefix_cons in Hps as [<- Hps].
    rewrite str_in_cons in *.
    destruct (String.prefix term (String c p)) eqn:Ht.
    + rewrite (prefix_trans term (String c p) (String c s)); [done|done|].
      by apply prefix_cons.
    + destruct (String.prefix term (String c s)); [done|]. by apply IH.
Qed.

Lemma before_first_prefix (term s : string) :
  String.prefix (before_first term s) s = true.
Proof.
  induction s as [|c s IH].
  - by rewrite before_first_nil.
  - rewrite before_first_cons.
    destruct (String.prefix term (String c s)); [done|].
    by apply prefix_cons.
Qed.

Lemma before_first_clean (term s : string) :
  term <> ""%string -> str_in term (before_first term s) = false.
Proof.
  intros Hne.
  assert (str_in term "" = false) as Hnil.
  { rewrite str_in_nil. destruct (String.prefix term "") eqn:Ht; [|done].
    by apply prefix_of_empty in Ht. }
  induction s as [|c s IH].
  - by rewrite before_first_nil.
  - rewrite before_first_cons. destruct (String.prefix term (String c s)) eqn:Ht; [done|].
    rewrite str_in_cons, IH.
    destruct (String.prefix term (String c (before_first term s))) eqn:Hp; [|done].
    rewrite (prefix_trans term _ (String c s) Hp) in Ht; [done|].
    apply prefix_cons. split; [done|]. apply before_first_prefix.
Qed.

Lemma before_first_absent (term s : string) :
  str_in term s = false -> before_first term s = s.
Proof.
  induction s as [|c s IH].
  - by rewrite before_first_nil.
  - rewrite before_first_cons, str_in_cons.
    destruct (String.prefix term (String c s)); [done|]. intros H. by rewrite IH.
Qed.

(** ** The stop sequences of a generation *)

(** X1: the decoded text is cut at the first stop sequence it holds.
    What is left is a prefix of the decoded text in which no stop
    sequence occurs, and a text without any stop sequence is left as it
    is. An empty stop sequence makes the loop fail, since [str.split]
    refuses an empty separator. *)
Theorem cut_stop_terms_result (stop_tokens : list string) (decoded_generation : string) :
  if bool_decide (""%string ∈ stop_tokens)
  then exists e, cut_stop_terms stop_tokens decoded_generation = Raise e
  else exists out,
         cut_stop_terms stop_tokens decoded_generation = Ok out
         /\ String.prefix out decoded_generation = true
         /\ Forall (fun term => str_in term out = false) stop_tokens
         /\ (Forall (fun term => str_in term decoded_generation = false) stop_tokens ->
             out = decoded_generation).
Proof.
  revert decoded_generation.
  induction stop_tokens as [|term rest IH]; intros text.
  - rewrite bool_decide_eq_false_2 by apply not_elem_of_nil.
    exists text. split; [done|]. split; [|done].
    clear. induction text as [|c s IH]; [done|]. by apply prefix_cons.
  - destruct term as [|c term].
    + rewrite bool_decide_eq_true_2 by left. by eexists.
    + specialize (IH (before_first (String c term) text)).
      cbn [cut_stop_terms split_first mbind result_bind].
      destruct (bool_decide (""%string ∈ rest)) eqn:Hrest.
      * rewrite bool_decide_eq_true_2; [done|].
        right. by apply bool_decide_eq_true in Hrest.
      * rewrite bool_decide_eq_false_2.
        2:{ apply bool_decide_eq_false in Hrest. rewrite elem_of_cons.
            by intros [?|?]. }
        destruct IH as (out & Hout & Hpre & Hclean & Hsame).
        exists out. split; [done|]. split; [|split].
        -- eapply prefix_trans; [done|]. apply before_first_prefix.
        -- constructor; [|done].
           destruct (str_in (String c term) out) eqn:Hin; [|done].
           rewrite <- (before_first_clean (String c term) text) by done.
           symmetry. by eapply str_in_prefix.
        -- intros Hall. inversion Hall as [|?? Hterm Hothers]; subst.
           rewrite (before_first_absent _ _ Hterm) in Hsame. by apply Hsame.
Qed.

(** ** The leading space of a choice *)

Lemma lstrip_head (s : string) (c : ascii) (rest : string) :
  lstrip s = String c rest -> is_space c = false.
Proof.
  assert (forall n s, (String.length s <= n)%nat ->
            lstrip s = String c rest -> is_space c = false) as Hall.
  { clear s. induction n as [|n IH]; intros s Hn.
    - destruct s; [done|simpl in Hn; lia].
    - destruct s as [|c1 rest1]; [done|]. simpl in Hn.
      cbn [lstrip]. destruct (is_space c1) eqn:H1; [apply IH; lia|].
      destruct rest1 as [|c2 rest2]; [by intros [= <- <-]|]. simpl in Hn.
      destruct (is_space2 c1 c2); [apply IH; lia|].
      destruct rest2 as [|c3 rest3]; [by intros [= <- <-]|]. simpl in Hn.
      destruct (is_space3 c1 c2 c3); [apply IH; lia|].
      by intros [= <- <-]. }
  by apply (Hall (String.length s)).
Qed.

(** X2: when the start-space flag is set, a choice that is accepted comes
    back normalised: under [True] it begins with a space, under [False]
    it does not, and normalising a non-empty result again changes
    nothing. An empty choice is refused with [IndexError]. *)
Theorem check_continuations_start_space_normalises (self : TransformersModel)
    (start_space : bool) (continuation : string) :
  multichoice_continuations_start_space self = Some start_space ->
  match continuation with
  | EmptyString => _check_continuations_start_space self continuation = Raise IndexError
  | _ =>
      exists normalised,
        _check_continuations_start_space self continuation = Ok normalised
        /\ (if start_space
            then first_char normalised = Ok space
            else forall c, first_char normalised = Ok c -> Ascii.eqb c space = false)
        /\ (normalised <> ""%string ->
            _check_continuations_start_space self normalised = Ok normalised)
  end.
Proof.
  intros Hflag. unfold _check_continuations_start_space. rewrite Hflag.
  destruct continuation as [|c rest]; [by destruct start_space|].
  destruct start_space; cbn [first_char mbind result_bind negb].
  - destruct (Ascii.eqb c space) eqn:Hc; cbn [negb].
    + apply Ascii.eqb_eq in Hc as ->. eexists. split; [done|]. split; [done|].
      intros _. cbn [first_char mbind result_bind]. by rewrite Ascii.eqb_refl.
    + eexists. split; [done|]. split; [done|].
      intros _. cbn [first_char mbind result_bind]. by rewrite Ascii.eqb_refl.
  - destruct (Ascii.eqb c space) eqn:Hc.
    + eexists. split; [done|]. split.
      * intros d Hd. destruct (lstrip (String c rest)) as [|e s] eqn:Hl; [done|].
        injection Hd as <-. apply lstrip_head in Hl.
        destruct (Ascii.eqb e space) eqn:He; [|done].
        apply Ascii.eqb_eq in He as ->. done.
      * intros Hne. destruct (lstrip (String c rest)) as [|e s] eqn:Hl; [done|].
        cbn [first_char mbind result_bind]. apply lstrip_head in Hl.
        destruct (Ascii.eqb e space) eqn:He; [|done].
        apply Ascii.eqb_eq in He as ->. done.
    + eexists. split; [done|]. split.
      * by intros d [= <-].
      * intros _. cbn [first_char mbind result_bind]. by rewrite Hc.
Qed.

Lemma check_continuations_start_space_normalises_witness :
  exists normalised,
    _check_continuations_start_space (start_space_model (Some false)) "  Paris"
    = Ok normalised
    /\ (forall c, first_char normalised = Ok c -> Ascii.eqb c space = false)
    /\ (normalised <> ""%string ->
        _check_continuations_start_space (start_space_model (Some false)) normalised
        = Ok normalised).
Proof.
  exact (check_continuations_start_space_normalises
           (start_space_model (Some false)) false "  Paris" eq_refl).
Defined.

(** ** Errors and widths of [prepare_batch_logprob] *)

Lemma prepare_rows_cases (pad_id max_context padding_length : Z)
    (inputs : list (list Z)) :
  0 < max_context ->
  if forallb (row_fits max_context padding_length) inputs
  then exists rows,
         prepare_rows pad_id max_context (Some padding_length) inputs = Ok rows
         /\ length rows = length inputs
         /\ Forall (fun row => len (row_tokens row) = padding_length) rows
  else prepare_rows pad_id max_context (Some padding_length) inputs
       = Raise (ValueError "Negative padding").
Proof.
  intros Hmc. induction inputs as [|orig_tokens rest IH]; [by exists []|].
  cbn [forallb prepare_rows default from_option id]. unfold row_fits at 1.
  rewrite <- (keep_last_from max_context orig_tokens) by (by left).
  set (tokens := PySlice.from orig_tokens (- max_context)).
  destruct (Z.leb_spec (len tokens) padding_length) as [Hfit|Hlong].
  - destruct (Z.ltb_spec (padding_length - len tokens) 0); [lia|].
    cbn [andb]. destruct (forallb _ rest).
    + destruct IH as (rows & -> & Hlen & Hw). eexists. split; [done|].
      split; [simpl; by f_equal|]. constructor; [|done]. simpl.
      unfold len in *. rewrite length_app, length_replicate. lia.
    + by rewrite IH.
  - destruct (Z.ltb_spec (padding_length - len tokens) 0); [done|lia].
Qed.

(** X3: for a positive window, a batch without requests is refused by
    [torch.cat]; a batch is prepared exactly when every row, cut to the
    window, fits the padding length, and then all its rows have that
    width; otherwise the call fails with "Negative padding". *)
Theorem prepare_batch_logprob_fits_or_raises (self : TransformersModel)
    (batch : list LoglikelihoodRequest.t) (padding_length : Z)
    (max_context : option Z) (single_token : bool) :
  0 < default (_max_length self) max_context ->
  match batch with
  | [] =>
      exists e,
        prepare_batch_logprob self batch (Some padding_length) max_context single_token
        = Raise (RuntimeError e)
  | _ =>
      if forallb (row_fits (default (_max_length self) max_context) padding_length)
           (batch_inputs single_token batch)
      then exists prepared,
             prepare_batch_logprob self batch (Some padding_length) max_context
               single_token = Ok prepared
             /\ length (input_ids prepared) = length batch
             /\ Forall (fun row => len row = padding_length) (input_ids prepared)
      else prepare_batch_logprob self batch (Some padding_length) max_context
             single_token = Raise (ValueError "Negative padding")
  end.
Proof.
  intros Hmc. unfold prepare_batch_logprob.
  destruct batch as [|request batch].
  - destruct single_token; by eexists.
  - pose proof (prepare_rows_cases (pad_token_id (tokenizer self))
                  (default (_max_length self) max_context) padding_length
                  (batch_inputs single_token (request :: batch)) Hmc) as Hrows.
    destruct (forallb _ _).
    + destruct Hrows as (rows & -> & Hlen & Hw).
      assert (length (batch_inputs single_token (request :: batch))
              = length (request :: batch)) as Hin.
      { unfold batch_inputs. destruct single_token; by rewrite length_map. }
      destruct rows as [|row rows]; [rewrite Hin in Hlen; done|].
      eexists. split; [done|]. cbn [input_ids].
      split; [rewrite length_map; congruence|].
      by apply Forall_fmap.
    + by rewrite Hrows.
Qed.

Lemma prepare_batch_logprob_fits_or_raises_witness :
  exists prepared,
    prepare_batch_logprob (example_model 16 no_forward)
      [short_request; wide_request] (Some 4) None false = Ok prepared
    /\ length (input_ids prepared) = length [short_request; wide_request]
    /\ Forall (fun row => len row = 4) (input_ids prepared).
Proof.
  exact (prepare_batch_logprob_fits_or_raises (example_model 16 no_forward)
           [short_request; wide_request] 4 None false eq_refl).
Defined.

(** X4: when the caller passes no padding length, the first row of the
    batch fixes the width: every row of the prepared batch is as long as
    the first request's row cut to the window, and the first row gets no
    padding. *)
Theorem prepare_batch_logprob_width_of_first_row (self : TransformersModel)
    (first : LoglikelihoodRequest.t) (rest : list LoglikelihoodRequest.t)
    (max_context : option Z) (prepared : Batch) :
  0 < default (_max_length self) max_context ->
  prepare_batch_logprob self (first :: rest) None max_context false = Ok prepared ->
  Forall (fun row =>
            len row = Z.min (len (logprob_input first))
                        (default (_max_length self) max_context))
         (input_ids prepared)
  /\ head (padded prepared) = Some 0
  /\ length (input_ids prepared) = S (length rest).
Proof.
  intros Hmc H. unfold prepare_batch_logprob in H.
  set (mc := default (_max_length self) max_context) in *.
  apply bind_Ok in H as (rows & Hrows & H).
  assert (batch_inputs false (first :: rest)
          = (LoglikelihoodRequest.tokenized_context first
             ++ PySlice.upto (LoglikelihoodRequest.tokenized_continuation first) (-1))
            :: batch_inputs false rest) as Hin by done.
  rewrite Hin, prepare_rows_None in Hrows.
  set (orig := LoglikelihoodRequest.tokenized_context first
               ++ PySlice.upto (LoglikelihoodRequest.tokenized_continuation first) (-1))
    in *.
  assert (orig = logprob_input first) as Horig.
  { unfold orig, logprob_input. f_equal. rewrite upto_minus_one.
    destruct (LoglikelihoodRequest.tokenized_continuation first) as [|t l]
      using rev_ind; [done|].
    rewrite removelast_last, length_app. simpl.
    replace (length l + 1 - 1)%nat with (length l) by lia.
    by rewrite take_app_length. }
  pose proof (len_from_neg orig mc Hmc) as Hw.
  pose proof (prepare_rows_Ok _ _ _ _ _ Hrows) as Hall.
  assert (length rows = S (length (batch_inputs false rest))) as Hlen.
  { pose proof (Forall2_length _ _ _ Hall) as Hl. cbn [length] in Hl. lia. }
  assert (input_ids prepared = map row_tokens rows
          /\ padded prepared = map row_padded rows) as [-> ->].
  { destruct rows; [done|]. by injection H as <-. }
  split; [|split].
  - rewrite Forall_fmap. eapply Forall2_Forall_r; [exact Hall|].
    apply Forall_forall. intros x _ row' (Hfit & Htok & _). simpl.
    rewrite Htok. unfold len in *. rewrite length_app, length_replicate.
    rewrite <- Horig. lia.
  - inversion Hall as [|???? (_ & _ & _ & _ & _ & Hp) _]; subst. simpl.
    rewrite Hp. f_equal. lia.
  - rewrite length_map, Hlen. unfold batch_inputs. by rewrite length_map.
Qed.

Lemma prepare_batch_logprob_width_of_first_row_witness :
  Forall (fun row => len row = Z.min (len (logprob_input short_request)) 16)
         [[5; 6; 7]; [1; 2; 0]]
  /\ head [0; 1] = Some 0
  /\ length [[5; 6; 7]; [1; 2; 0]] = 2%nat.
Proof.
  exact (prepare_batch_logprob_width_of_first_row (example_model 16 no_forward)
           short_request [contextless_request_padded_peer] None
           {| input_ids := [[5; 6; 7]; [1; 2; 0]];
              input_mask := [false; false; false; false; false; true];
              input_lengths := [3; 2]; truncated := [0; 0]; padded := [0; 1] |}
           eq_refl eq_refl).
Defined.

(** ** Rows of the score extractor *)

Lemma slice_app_l {A : Type} (l extra : list A) (a b : Z) :
  0 <= a -> 0 <= b <= len l ->
  PySlice.slice (l ++ extra) a b = PySlice.slice l a b.
Proof.
  intros Ha Hb. rewrite !slice_nonneg by lia. f_equal.
  apply take_app_le. unfold len in Hb. lia.
Qed.

(** X5: padding neutrality. When the continuation is no longer than the
    input, the score of a row does not depend on the columns behind the
    input: any positions appended to the logits leave sum and flag as
    they are. *)
Theorem score_row_ignores_padding (tokenized_continuation : list Z)
    (cur_logits padding : list (list Q)) (inplen : Z) :
  len tokenized_continuation <= inplen ->
  inplen <= len cur_logits ->
  score_row tokenized_continuation (cur_logits ++ padding) inplen
  = score_row tokenized_continuation cur_logits inplen.
Proof.
  intros Hc Hi. unfold score_row.
  destruct (Z.gtb_spec (len tokenized_continuation) inplen); [lia|].
  assert (0 <= len tokenized_continuation) by (unfold len; lia).
  by rewrite slice_app_l by lia.
Qed.

Lemma score_row_ignores_padding_witness :
  score_row [1; 0] (two_positions ++ padding_positions) 2
  = score_row [1; 0] two_positions 2.
Proof.
  apply (score_row_ignores_padding [1; 0] two_positions padding_positions 2).
  - vm_compute. discriminate.
  - vm_compute. discriminate.
Defined.

Lemma mapM_Ok_exists {A B : Type} (f : A -> result B) (l : list A) :
  Forall (fun x => exists y, f x = Ok y) l -> exists r, mapM f l = Ok r.
Proof.
  induction 1 as [|x l [y Hy] _ [r Hr]]; [by exists []|].
  exists (y :: r). simpl. by rewrite Hy, Hr.
Qed.

(** X6: a row is scored without error whenever the continuation is no
    longer than the input, the input is no longer than the logits, and
    every continuation token is an index into the vocabulary of the
    position it is scored at. *)
Theorem score_row_succeeds (tokenized_continuation : list Z)
    (cur_logits : list (list Q)) (inplen : Z) :
  len tokenized_continuation <= inplen ->
  inplen <= len cur_logits ->
  (forall k token, tokenized_continuation !! k = Some token ->
     is_Some (logit_at cur_logits
                (Z.to_nat (inplen - len tokenized_continuation) + k) token)) ->
  exists logits_sum max_equal,
    score_row tokenized_continuation cur_logits inplen = Ok (logits_sum, max_equal).
Proof.
  intros Hc Hi Hvalid. unfold score_row.
  destruct (Z.gtb_spec (len tokenized_continuation) inplen); [lia|].
  assert (0 <= inplen - len tokenized_continuation) as Ha by lia.
  assert (0 <= inplen) as Hb by (unfold len in *; lia).
  set (window := PySlice.slice cur_logits (inplen - len tokenized_continuation) inplen).
  assert (length window = length tokenized_continuation) as Hlen.
  { unfold window. rewrite slice_nonneg by done.
    rewrite length_drop, length_take. unfold len in *. lia. }
  assert (forall k token, tokenized_continuation !! k = Some token ->
            exists row x, window !! k = Some row /\ gather1 row token = Ok x) as Hrow.
  { intros k token Hk. specialize (Hvalid k token Hk).
    destruct (lookup_lt_is_Some_2 window k) as [row Hw].
    { apply lookup_lt_Some in Hk. lia. }
    exists row. unfold logit_at in Hvalid.
    rewrite (slice_lookup_Some _ _ _ _ _ Ha Hb Hw) in Hvalid.
    destruct (gather1 row token) as [x|]; [eauto|by destruct Hvalid]. }
  destruct (mapM_Ok_exists argmax window) as [greedy_tokens Hg].
  { apply Forall_forall. intros row Hin.
    apply list_elem_of_lookup_1 in Hin as [k Hk].
    destruct (lookup_lt_is_Some_2 tokenized_continuation k) as [token Ht].
    { apply lookup_lt_Some in Hk. lia. }
    destruct (Hrow k token Ht) as (row' & x & Hw & Hx).
    assert (row' = row) as -> by congruence.
    destruct row; [|by eexists]. unfold gather1 in Hx.
    destruct (token <? 0); [done|]. by rewrite lookup_nil in Hx. }
  rewrite Hg. cbn [mbind result_bind].
  destruct (mapM_argmax_Ok _ _ Hg) as [Hgl _].
  unfold eq_all. unfold len at 1 2.
  rewrite Hgl, Hlen, Z.eqb_refl. cbn [mbind result_bind].
  destruct (mapM_Ok_exists (fun p => gather1 (fst p) (snd p))
              (zip window tokenized_continuation)) as [lps Hlps].
  { apply Forall_forall. intros [row token] Hin.
    apply list_elem_of_lookup_1 in Hin as [k Hk].
    apply lookup_zip_with_Some in Hk as (row' & token' & Heq & Hw & Ht).
    injection Heq as -> ->.
    destruct (Hrow k token' Ht) as (row'' & x & Hw' & Hx).
    assert (row'' = row') as -> by congruence. by exists x. }
  unfold gather. unfold len at 1 2. rewrite Hlen.
  destruct (Z.ltb_spec (Z.of_nat (length tokenized_continuation))
              (Z.of_nat (length tokenized_continuation))); [lia|].
  rewrite Hlps. cbn [mbind result_bind]. by eexists _, _.
Qed.

Lemma score_row_succeeds_witness :
  exists logits_sum max_equal,
    score_row [1; 0] two_positions 2 = Ok (logits_sum, max_equal).
Proof.
  apply (score_row_succeeds [1; 0] two_positions 2).
  - vm_compute. discriminate.
  - vm_compute. discriminate.
  - intros [|[|k]] token Hk; try done; injection Hk as <-; vm_compute; by eexists.
Defined.

Lemma upto_minus_one_removelast {A : Type} (l : list A) :
  PySlice.upto l (-1) = removelast l.
Proof.
  rewrite upto_minus_one, removelast_firstn_len. f_equal. lia.
Qed.

Lemma length_removelast {A : Type} (l : list A) :
  length (removelast l) = (length l - 1)%nat.
Proof. rewrite removelast_firstn_len, length_take. lia. Qed.

(** X7: a document submitted through [loglikelihood_rolling] is scored as
    a whole. In a batch at least as wide as the document, its row is EOS
    followed by the document without its last token, nothing is
    truncated, the input is as long as the document, and the row's score
    adds, for every token of the document, the log-probability of that
    token at the position of the same index; the flag says that greedy
    decoding gives the document. *)
Theorem rolling_document_scored_whole (self : TransformersModel)
    (document : string) (batch : list LoglikelihoodRequest.t) (i : nat)
    (width : Z) (prepared : Batch) :
  let tokens := LoglikelihoodRequest.tokenized_continuation
                  (rolling_request self document) in
  tokens <> [] ->
  len tokens <= width ->
  batch !! i = Some (rolling_request self document) ->
  prepare_batch_logprob self batch (Some width) (Some width) false = Ok prepared ->
  input_ids prepared !! i
  = Some ((eos_token_id (tokenizer self) :: removelast tokens)
          ++ replicate (Z.to_nat width - length tokens) (pad_token_id (tokenizer self)))
  /\ input_lengths prepared !! i = Some (len tokens)
  /\ truncated prepared !! i = Some 0
  /\ forall cur_logits logits_sum max_equal,
       score_row tokens cur_logits (len tokens) = Ok (logits_sum, max_equal) ->
       (exists lps,
          length lps = length tokens /\ logits_sum = Qsum lps
          /\ forall k token, tokens !! k = Some token ->
               lps !! k = logit_at cur_logits k token /\ is_Some (lps !! k))
       /\ (max_equal = true <->
           forall k token, tokens !! k = Some token ->
             greedy_at cur_logits k = Some token).
Proof.
  intros tokens Hne Hw Hi H.
  assert (0 < len tokens) as Hpos.
  { unfold len. destruct tokens; [done|]. simpl. lia. }
  unfold prepare_batch_logprob in H. cbn [default from_option id] in H.
  apply bind_Ok in H as (rows & Hrows & H).
  apply prepare_rows_Ok in Hrows.
  assert (input_ids prepared = map row_tokens rows
          /\ input_lengths prepared = map row_length rows
          /\ truncated prepared = map row_truncated rows) as (-> & -> & ->).
  { destruct rows; [discriminate|]. by injection H as <-. }
  clear H.
  set (orig := eos_token_id (tokenizer self) :: removelast tokens).
  assert (length orig = length tokens) as Hlen.
  { unfold orig. simpl. rewrite length_removelast. unfold len in Hpos. lia. }
  assert (batch_inputs false batch !! i = Some orig) as Hin.
  { unfold batch_inputs. rewrite list_lookup_fmap, Hi. simpl.
    by rewrite upto_minus_one_removelast. }
  destruct (Forall2_lookup_l _ _ _ _ _ Hrows Hin)
    as (row & Hrow & Hfit & Htok & _ & Hl & Htr & _).
  assert (PySlice.from orig (- width) = orig) as Hkept.
  { rewrite from_neg by lia. unfold len in *.
    replace (length orig - Z.to_nat width)%nat with 0%nat by lia. done. }
  rewrite Hkept in *.
  rewrite !list_lookup_fmap, Hrow. simpl. rewrite Htok, Hl, Htr.
  split; [|split; [|split]].
  - replace (Z.to_nat (width - len orig)) with (Z.to_nat width - length tokens)%nat
      by (unfold len; lia).
    done.
  - unfold len. by rewrite Hlen.
  - f_equal. unfold len in *. lia.
  - intros cur_logits logits_sum max_equal Hscore.
    assert (0 <= len tokens) as Hnn by lia.
    destruct (score_row_scored _ _ _ _ _ Hnn Hscore) as [(lps & Hn & Hs & Hk) Hflag].
    rewrite Z.min_id, Z.sub_diag in *.
    replace (Z.to_nat (len tokens)) with (length tokens) in *
      by (unfold len; lia).
    split.
    + exists lps. split; [done|]. split; [done|].
      intros k token Ht. apply (Hk k token); [|done].
      by apply lookup_lt_Some in Ht.
    + rewrite Hflag by (left; lia). split.
      * intros Hall k token Ht. apply (Hall k token); [|done].
        by apply lookup_lt_Some in Ht.
      * intros Hall k token _ Ht. by apply Hall.
Qed.

Lemma rolling_document_scored_whole_witness :
  let self := example_model 16 no_forward in
  let tokens := LoglikelihoodRequest.tokenized_continuation (rolling_request self "ab") in
  let prepared :=
    {| input_ids := [[2; 97; 0]]; input_mask := [false; false; true];
       input_lengths := [2]; truncated := [0]; padded := [1] |} in
  input_ids prepared !! 0%nat
  = Some ((eos_token_id (tokenizer self) :: removelast tokens)
          ++ replicate (Z.to_nat 3 - length tokens) (pad_token_id (tokenizer self)))
  /\ input_lengths prepared !! 0%nat = Some (len tokens)
  /\ truncated prepared !! 0%nat = Some 0
  /\ forall cur_logits logits_sum max_equal,
       score_row tokens cur_logits (len tokens) = Ok (logits_sum, max_equal) ->
       (exists lps,
          length lps = length tokens /\ logits_sum = Qsum lps
          /\ forall k token, tokens !! k = Some token ->
               lps !! k = logit_at cur_logits k token /\ is_Some (lps !! k))
       /\ (max_equal = true <->
           forall k token, tokens !! k = Some token ->
             greedy_at cur_logits k = Some token).
Proof.
  apply (rolling_document_scored_whole (example_model 16 no_forward) "ab"
           [rolling_request (example_model 16 no_forward) "ab"] 0 3).
  - vm_compute. discriminate.
  - vm_compute. discriminate.
  - reflexivity.
  - vm_compute. reflexivity.
Defined.

(** ** The position read by single-token scoring *)

Lemma index_position {A : Type} (l : list A) (inplen : Z) (x : A) :
  0 <= inplen ->
  PySlice.index l (inplen - 1) = Ok x ->
  l !! single_token_position (length l) inplen = Some x.
Proof.
  intros Hin. unfold PySlice.index, single_token_position.
  set (i := inplen - 1). destruct (Z.ltb_spec i 0) as [Hneg|Hpos].
  - assert (inplen = 0) as Hz by lia. rewrite Hz, Z.eqb_refl.
    destruct (Z.ltb_spec (len l + i) 0); [done|].
    replace (Z.to_nat (len l + i)) with (length l - 1)%nat by (unfold len, i; lia).
    destruct (l !! (length l - 1)%nat); [by intros [= <-]|done].
  - destruct (Z.eqb_spec inplen 0); [lia|].
    destruct (Z.ltb_spec i 0); [lia|].
    destruct (l !! Z.to_nat i); [by intros [= <-]|done].
Qed.

Lemma one_token_choices (tokenized_continuation : list (list Z)) :
  forallb (fun c => len c =? 1) tokenized_continuation = true ->
  tokenized_continuation = map (fun token => [token]) (concat tokenized_continuation).
Proof.
  induction tokenized_continuation as [|c rest IH]; [done|].
  cbn [forallb]. intros [Hc Hrest]%andb_prop.
  apply Z.eqb_eq in Hc. unfold len in Hc.
  destruct c as [|token [|? ?]]; [simpl in Hc; lia| |simpl in Hc; lia].
  simpl. f_equal. by apply IH.
Qed.

Lemma same_length_choices (n : Z) (first : list Z) (rest : list (list Z)) :
  len first = n ->
  forallb (fun c => len c =? len first) rest = true ->
  forallb (fun c => len c =? n) (first :: rest) = true.
Proof.
  intros Hn Hrest. cbn [forallb]. rewrite Hn, Z.eqb_refl. cbn [andb].
  by rewrite Hn in Hrest.
Qed.

(** X8: the candidate log-probabilities of a row are read at its last
    input position, [inplen - 1]; a row without input tokens is not
    refused: the index wraps around and the last column of the padded
    row is read. When the scoring of a row returns a vector, there is
    one value per choice, every choice has exactly one token, and the
    value is the log-probability of that token at that position. The
    only other result is a tensor without entries, for a row that has
    choices and none of them has a token. *)
Theorem single_token_probs_position (tokenized_continuation : list (list Z))
    (logits : list (list Q)) (inplen : Z) (probs : Probs) :
  0 <= inplen ->
  single_token_probs tokenized_continuation logits inplen = Ok probs ->
  match probs with
  | Vector values =>
      length values = length tokenized_continuation
      /\ forall k choice, tokenized_continuation !! k = Some choice ->
           exists token,
             choice = [token]
             /\ values !! k
                = logit_at logits (single_token_position (length logits) inplen) token
             /\ is_Some (values !! k)
  | NoColumns rows =>
      rows = length tokenized_continuation
      /\ tokenized_continuation <> []
      /\ Forall (fun choice => choice = []) tokenized_continuation
  end.
Proof.
  intros Hin H. unfold single_token_probs in H.
  apply bind_Ok in H as (row & Hrow & H).
  apply (index_position _ _ _ Hin) in Hrow.
  destruct tokenized_continuation as [|first rest] eqn:Htc.
  { injection H as <-. split; [done|]. by intros k choice. }
  rewrite <- Htc in *.
  destruct (forallb (fun c => len c =? len first) rest) eqn:Hsame; [|discriminate].
  cbn [negb] in H.
  destruct (Z.eqb_spec (len first) 1) as [Hone|_].
  - apply bind_Ok in H as (values & Hval & H). injection H as <-.
    pose proof (same_length_choices 1 first rest Hone Hsame) as Hall.
    rewrite <- Htc in Hall. apply one_token_choices in Hall.
    pose proof (mapM_Ok_length _ _ _ Hval) as Hl.
    split.
    { rewrite Hl. rewrite Hall at 2. by rewrite length_map. }
    intros k choice Hk. rewrite Hall, list_lookup_fmap in Hk.
    destruct (concat tokenized_continuation !! k) as [token|] eqn:Ht; [|done].
    injection Hk as <-.
    destruct (mapM_Ok_lookup _ _ _ _ _ Hval Ht) as (x & Hx & Hg).
    exists token. split; [done|]. unfold logit_at. rewrite Hrow, Hg, Hx. eauto.
  - destruct (Z.eqb_spec (len first) 0) as [Hzero|_]; [|discriminate].
    injection H as <-. split; [done|]. split; [by rewrite Htc|].
    pose proof (same_length_choices 0 first rest Hzero Hsame) as Hall.
    rewrite <- Htc in Hall. clear -Hall.
    induction tokenized_continuation as [|c cs IH]; [constructor|].
    cbn [forallb] in Hall. apply andb_prop in Hall as [Hc Hcs].
    constructor; [|by apply IH].
    apply Z.eqb_eq in Hc. unfold len in Hc. destruct c; [done|simpl in Hc; lia].
Qed.

Lemma single_token_probs_position_witness :
  length [0%Q; (-100)%Q] = length [[1]; [2]]
  /\ forall k choice, [[1]; [2]] !! k = Some choice ->
       exists token,
         choice = [token]
         /\ [0%Q; (-100)%Q] !! k
            = logit_at (two_positions ++ padding_positions)
                (single_token_position (length (two_positions ++ padding_positions)) 1)
                token
         /\ is_Some ([0%Q; (-100)%Q] !! k).
Proof.
  apply (single_token_probs_position [[1]; [2]] (two_positions ++ padding_positions) 1
           (Vector [0%Q; (-100)%Q])).
  - vm_compute. discriminate.
  - vm_compute. reflexivity.
Defined.

(** ** More on the preference-pair tokenizer *)

(** X9: [build_tokenized_answer] splits the encoding of prompt and answer
    and loses nothing: prompt part and answer part, put together again,
    are the encoding, and so are the two parts of the attention mask. It
    fails only when that encoding is shorter than the prompt's own, or
    when the tokenizer returns a mask shorter than its ids. *)
Theorem build_tokenized_answer_splits_encoding (self : TransformersModel)
    (prompt answer : string) :
  let full := tokenize (tokenizer self) (prompt +:+ answer) false in
  match Preference.build_tokenized_answer self prompt answer with
  | Ok answer_tokens =>
      Preference.prompt_input_ids answer_tokens ++ Preference.input_ids answer_tokens
      = Encoding.input_ids full
      /\ Preference.prompt_attention_mask answer_tokens
         ++ Preference.attention_mask answer_tokens
         = Encoding.attention_mask full
      /\ length (Preference.prompt_input_ids answer_tokens)
         = length (Preference.prompt_attention_mask answer_tokens)
  | Raise _ =>
      (length (Encoding.input_ids full) < length (encode (tokenizer self) prompt false))%nat
      \/ (length (Encoding.attention_mask full) < length (Encoding.input_ids full))%nat
  end.
Proof.
  intros full. unfold Preference.build_tokenized_answer, encode. fold full.
  set (prompt_ids := Encoding.input_ids (tokenize (tokenizer self) prompt false)).
  assert (0 <= len prompt_ids) as Hn by (unfold len; lia).
  destruct (Z.eqb_spec (len (Encoding.input_ids full))
              (len (prompt_ids ++ PySlice.from (Encoding.input_ids full) (len prompt_ids))))
    as [Hsame|Hdiff]; cbn [negb].
  - unfold len in Hsame. rewrite length_app, from_nonneg, length_drop in Hsame by done.
    match goal with
    | |- context [if ?b then ?x - 1 else ?x] => set (start := if b then x - 1 else x)
    end.
    assert (0 <= start <= len (Encoding.input_ids full)) as Hstart.
    { unfold start. case_bool_decide as Hne; [|unfold len in *; lia].
      destruct prompt_ids; [by destruct Hne|]. unfold len in *. simpl in *. lia. }
    destruct (Z.eqb_spec (len (PySlice.upto (Encoding.input_ids full) start))
                (len (PySlice.upto (Encoding.attention_mask full) start)))
      as [Hmask|Hmask]; cbn [negb].
    + cbn [Preference.prompt_input_ids Preference.input_ids
           Preference.prompt_attention_mask Preference.attention_mask].
      rewrite !upto_nonneg, !from_nonneg by lia. rewrite !take_drop.
      split; [done|]. split; [done|].
      rewrite !upto_nonneg in Hmask by lia. unfold len in Hmask. lia.
    + right. rewrite !upto_nonneg in Hmask by lia.
      unfold len in *. rewrite !length_take in Hmask. lia.
  - left. unfold len in Hdiff.
    rewrite length_app, from_nonneg, length_drop in Hdiff by done. lia.
Qed.

Lemma truncate_prompt_bound (self : TransformersModel) (longer_response_length : Z)
    (prompt_ids prompt_mask : list Z) (r : list Z * list Z) :
  0 < max_prompt_length self ->
  Preference.truncate_prompt self longer_response_length prompt_ids prompt_mask = Ok r ->
  len (fst r) + longer_response_length <= _max_length self
  \/ len (fst r) <= max_prompt_length self.
Proof.
  intros Hmpl. unfold Preference.truncate_prompt.
  destruct (Z.gtb_spec (len prompt_ids + longer_response_length) (_max_length self)).
  - destruct (String.eqb _ _).
    + intros [= <-]. right. simpl. rewrite upto_nonneg by lia.
      unfold len. rewrite length_take. lia.
    + destruct (String.eqb _ _); [|done].
      intros [= <-]. right. simpl. rewrite len_from_neg by done. lia.
  - intros [= <-]. by left.
Qed.

Lemma truncate_response_bound (self : TransformersModel) (longer_response_length : Z)
    (answer_tokens : Preference.Answer) :
  0 < max_prompt_length self <= _max_length self ->
  len (Preference.input_ids answer_tokens) <= longer_response_length ->
  len (Preference.prompt_input_ids answer_tokens) + longer_response_length
    <= _max_length self
  \/ len (Preference.prompt_input_ids answer_tokens) <= max_prompt_length self ->
  let truncated_tokens :=
    Preference.truncate_response self longer_response_length answer_tokens in
  len (Preference.prompt_input_ids truncated_tokens
       ++ Preference.input_ids truncated_tokens) <= _max_length self.
Proof.
  intros Hmpl Hlong Hprompt. unfold Preference.truncate_response.
  destruct (Z.gtb_spec
              (len (Preference.prompt_input_ids answer_tokens) + longer_response_length)
              (_max_length self)) as [Hover|Hfit]; simpl.
  - destruct Hprompt as [?|Hp]; [lia|].
    rewrite upto_nonneg by lia. unfold len in *.
    rewrite length_app, length_take. lia.
  - unfold len in *. rewrite length_app. lia.
Qed.

(** X10: with a prompt budget between one token and the maximum length,
    the sequences that [tokenize_row] returns fit the window: chosen and
    rejected input ids are at most the maximum length long, and each
    list of labels is as long as its list of input ids. *)
Theorem tokenize_row_fits_max_length (self : TransformersModel)
    (request : Preference.Request) (row : Preference.Row) :
  0 < max_prompt_length self <= _max_length self ->
  Preference.tokenize_row self request = Ok row ->
  len (Preference.chosen_input_ids row) <= _max_length self
  /\ len (Preference.rejected_input_ids row) <= _max_length self
  /\ length (Preference.chosen_labels row) = length (Preference.chosen_input_ids row)
  /\ length (Preference.rejected_labels row)
     = length (Preference.rejected_input_ids row).
Proof.
  intros Hmpl H. unfold Preference.tokenize_row in H.
  apply bind_Ok in H as (full & H & Heq). injection Heq as <-.
  destruct full as [[chosen_tokens rejected_tokens] row']. cbn [snd].
  unfold Preference.tokenize_row_full in H.
  apply bind_Ok in H as (built_chosen & _ & H).
  apply bind_Ok in H as (built_rejected & _ & H).
  apply bind_Ok in H as (c & Hc & H).
  apply bind_Ok in H as (r & Hr & H).
  apply bind_Ok in H as (p & _ & H).
  injection H as <- <- <-.
  cbn [Preference.chosen_input_ids Preference.rejected_input_ids
       Preference.chosen_labels Preference.rejected_labels].
  rewrite !mask_labels_app, !length_app, !length_replicate.
  apply truncate_prompt_bound in Hc; [|lia].
  apply truncate_prompt_bound in Hr; [|lia].
  cbn [Preference.input_ids Preference.prompt_input_ids] in Hc, Hr.
  split; [|split; [|done]].
  - apply truncate_response_bound; [done| |done].
    cbn [Preference.input_ids]. lia.
  - apply truncate_response_bound; [done| |done].
    cbn [Preference.input_ids]. lia.
Qed.

Lemma tokenize_row_fits_max_length_witness :
  exists row,
    Preference.tokenize_row small_window_model long_prompt_request = Ok row
    /\ len (Preference.chosen_input_ids row) <= _max_length small_window_model
    /\ len (Preference.rejected_input_ids row) <= _max_length small_window_model
    /\ length (Preference.chosen_labels row) = length (Preference.chosen_input_ids row)
    /\ length (Preference.rejected_labels row)
       = length (Preference.rejected_input_ids row).
Proof.
  destruct (Preference.tokenize_row small_window_model long_prompt_request)
    as [row|e] eqn:Hrow; [|vm_compute in Hrow; discriminate].
  exists row. split; [done|].
  apply (tokenize_row_fits_max_length small_window_model long_prompt_request row);
    [simpl; lia|exact Hrow].
Defined.

(** ** Paired scoring *)

Lemma all_width_Forall {A : Type} (width : Z) (tensor : list (list A)) :
  all_width width tensor = true <-> Forall (fun row => len row = width) tensor.
Proof.
  unfold all_width. induction tensor as [|row tensor IH]; simpl.
  - split; [constructor|done].
  - rewrite andb_true_iff, Forall_cons, IH, Z.eqb_eq. done.
Qed.

Lemma len_pad_row (length pad_value : Z) (row : list Z) :
  len (pad_row length pad_value row) = Z.max (len row) length.
Proof.
  unfold pad_row, len. rewrite length_app, length_replicate. unfold len. lia.
Qed.

Lemma pad_to_length_rows (width length pad_value : Z) (tensor : list (list Z)) :
  all_width width tensor = true ->
  DPO.pad_to_length tensor length pad_value = map (pad_row length pad_value) tensor.
Proof.
  intros Hw. apply all_width_Forall in Hw.
  destruct tensor as [|row0 tensor]; [by unfold DPO.pad_to_length; destruct (_ >=? _)|].
  assert (DPO.size1 (row0 :: tensor) = width) as Hs.
  { by apply Forall_cons in Hw as [? _]. }
  unfold DPO.pad_to_length. rewrite Hs.
  destruct (Z.geb_spec width length) as [Hge|Hlt].
  - symmetry. rewrite <- (map_id (row0 :: tensor)) at 2.
    apply map_ext_Forall. eapply Forall_impl; [exact Hw|].
    intros row Hrow. unfold pad_row. rewrite Hrow.
    replace (Z.to_nat (length - width)) with 0%nat by lia.
    apply app_nil_r.
  - apply map_ext_Forall. eapply Forall_impl; [exact Hw|].
    intros row Hrow. unfold pad_row. by rewrite Hrow.
Qed.

Lemma all_width_pad_rows (width length pad_value : Z) (tensor : list (list Z)) :
  all_width width tensor = true ->
  all_width (Z.max width length) (map (pad_row length pad_value) tensor) = true.
Proof.
  rewrite !all_width_Forall, Forall_map. intros Hw.
  eapply Forall_impl; [exact Hw|].
  intros row Hrow. simpl. by rewrite len_pad_row, Hrow.
Qed.

Lemma all_width_app {A : Type} (width : Z) (a b : list (list A)) :
  all_width width a = true -> all_width width b = true ->
  all_width width (a ++ b) = true.
Proof. unfold all_width. rewrite forallb_app. by intros -> ->. Qed.

Lemma cat0_same_width (width : Z) (a b : list (list Z)) :
  all_width width a = true -> all_width width b = true ->
  DPO.cat0 a b = Ok (a ++ b).
Proof.
  intros Ha Hb. destruct a as [|ra a]; [done|]. destruct b as [|rb b]; [done|].
  apply all_width_Forall, Forall_cons in Ha as [Ha _].
  apply all_width_Forall, Forall_cons in Hb as [Hb _].
  unfold DPO.cat0. simpl. rewrite Ha, Hb, Z.eqb_refl. done.
Qed.

Lemma concatenated_inputs_Ok (batch : DPO.Batch) (label_pad_token_id padding_value : Z) :
  rectangular batch = true ->
  DPO.concatenated_inputs batch label_pad_token_id padding_value =
  Ok (DPO.mkConcatenated
        (map (pad_row (concatenated_width batch) padding_value)
           (DPO.chosen_input_ids batch)
         ++ map (pad_row (concatenated_width batch) padding_value)
              (DPO.rejected_input_ids batch))
        (map (pad_row (concatenated_width batch) 0) (DPO.chosen_attention_mask batch)
         ++ map (pad_row (concatenated_width batch) 0)
              (DPO.rejected_attention_mask batch))
        (map (pad_row (concatenated_width batch) label_pad_token_id)
           (DPO.chosen_labels batch)
         ++ map (pad_row (concatenated_width batch) label_pad_token_id)
              (DPO.rejected_labels batch)))
  /\ (forall v t, all_width (DPO.size1 (DPO.chosen_input_ids batch)) t = true ->
        all_width (concatenated_width batch)
          (map (pad_row (concatenated_width batch) v) t) = true)
  /\ (forall v t, all_width (DPO.size1 (DPO.rejected_input_ids batch)) t = true ->
        all_width (concatenated_width batch)
          (map (pad_row (concatenated_width batch) v) t) = true).
Proof.
  unfold rectangular. intros H. repeat (apply andb_prop in H as [H ?]).
  rename H into Hci.
  set (wc := DPO.size1 (DPO.chosen_input_ids batch)) in *.
  set (wr := DPO.size1 (DPO.rejected_input_ids batch)) in *.
  assert (concatenated_width batch = Z.max wc wr) as Hw by reflexivity.
  assert (forall v t, all_width wc t = true ->
            all_width (concatenated_width batch)
              (map (pad_row (concatenated_width batch) v) t) = true) as Hc.
  { intros v t Ht. rewrite Hw.
    replace (Z.max wc wr) with (Z.max wc (Z.max wc wr)) at 1 by lia.
    by apply all_width_pad_rows. }
  assert (forall v t, all_width wr t = true ->
            all_width (concatenated_width batch)
              (map (pad_row (concatenated_width batch) v) t) = true) as Hr.
  { intros v t Ht. rewrite Hw.
    replace (Z.max wc wr) with (Z.max wr (Z.max wc wr)) at 1 by lia.
    by apply all_width_pad_rows. }
  split; [|done].
  unfold DPO.concatenated_inputs. fold wc wr. rewrite <- Hw.
  rewrite (pad_to_length_rows wc _ _ (DPO.chosen_input_ids batch)) by done.
  rewrite (pad_to_length_rows wc _ _ (DPO.chosen_attention_mask batch)) by done.
  rewrite (pad_to_length_rows wc _ _ (DPO.chosen_labels batch)) by done.
  rewrite (pad_to_length_rows wr _ _ (DPO.rejected_input_ids batch)) by done.
  rewrite (pad_to_length_rows wr _ _ (DPO.rejected_attention_mask batch)) by done.
  rewrite (pad_to_length_rows wr _ _ (DPO.rejected_labels batch)) by done.
  rewrite !(cat0_same_width (concatenated_width batch)) by auto.
  reflexivity.
Qed.

(** X11: [concatenated_inputs] pads and stacks. For a batch whose chosen
    tensors share one width and whose rejected tensors share one width,
    the call succeeds; each of the three concatenated tensors holds the
    chosen rows followed by the rejected rows, every row extended on the
    right to the larger of the two widths: input ids with the padding
    value, attention masks with 0, labels with the label pad value. All
    rows of the result have that larger width. *)
Theorem concatenated_inputs_pads_and_stacks (batch : DPO.Batch)
    (label_pad_token_id padding_value : Z) :
  rectangular batch = true ->
  exists c,
    DPO.concatenated_inputs batch label_pad_token_id padding_value = Ok c
    /\ DPO.concatenated_input_ids c =
         map (pad_row (concatenated_width batch) padding_value) (DPO.chosen_input_ids batch)
         ++ map (pad_row (concatenated_width batch) padding_value)
              (DPO.rejected_input_ids batch)
    /\ DPO.concatenated_attention_mask c =
         map (pad_row (concatenated_width batch) 0) (DPO.chosen_attention_mask batch)
         ++ map (pad_row (concatenated_width batch) 0) (DPO.rejected_attention_mask batch)
    /\ DPO.concatenated_labels c =
         map (pad_row (concatenated_width batch) label_pad_token_id) (DPO.chosen_labels batch)
         ++ map (pad_row (concatenated_width batch) label_pad_token_id)
              (DPO.rejected_labels batch)
    /\ all_width (concatenated_width batch) (DPO.concatenated_input_ids c) = true
    /\ all_width (concatenated_width batch) (DPO.concatenated_attention_mask c) = true
    /\ all_width (concatenated_width batch) (DPO.concatenated_labels c) = true.
Proof.
  intros H.
  destruct (concatenated_inputs_Ok batch label_pad_token_id padding_value H)
    as (Hok & Hc & Hr).
  unfold rectangular in H. repeat (apply andb_prop in H as [H ?]).
  eexists. split; [exact Hok|]. cbn.
  do 3 (split; [reflexivity|]).
  repeat split; apply all_width_app; auto.
Qed.

Lemma concatenated_inputs_pads_and_stacks_witness :
  exists c,
    DPO.concatenated_inputs uneven_pair (-100) 0 = Ok c
    /\ DPO.concatenated_input_ids c =
         map (pad_row (concatenated_width uneven_pair) 0) (DPO.chosen_input_ids uneven_pair)
         ++ map (pad_row (concatenated_width uneven_pair) 0)
              (DPO.rejected_input_ids uneven_pair)
    /\ DPO.concatenated_attention_mask c =
         map (pad_row (concatenated_width uneven_pair) 0)
           (DPO.chosen_attention_mask uneven_pair)
         ++ map (pad_row (concatenated_width uneven_pair) 0)
              (DPO.rejected_attention_mask uneven_pair)
    /\ DPO.concatenated_labels c =
         map (pad_row (concatenated_width uneven_pair) (-100)) (DPO.chosen_labels uneven_pair)
         ++ map (pad_row (concatenated_width uneven_pair) (-100))
              (DPO.rejected_labels uneven_pair)
    /\ all_width (concatenated_width uneven_pair) (DPO.concatenated_input_ids c) = true
    /\ all_width (concatenated_width uneven_pair) (DPO.concatenated_attention_mask c) = true
    /\ all_width (concatenated_width uneven_pair) (DPO.concatenated_labels c) = true.
Proof.
  apply (concatenated_inputs_pads_and_stacks uneven_pair (-100) 0). reflexivity.
Defined.

Lemma mapM_app_Ok {A B : Type} (f : A -> result B) (l1 l2 : list A) (r : list B) :
  mapM f (l1 ++ l2) = Ok r ->
  exists r1 r2, mapM f l1 = Ok r1 /\ mapM f l2 = Ok r2 /\ r = r1 ++ r2.
Proof.
  revert r. induction l1 as [|x l1 IH]; intros r H; simpl in H.
  - exists [], r. done.
  - apply bind_Ok in H as (y & Hy & H). apply bind_Ok in H as (ys & Hys & H).
    change (mret ?x) with (Ok x) in H. injection H as <-.
    destruct (IH _ Hys) as (r1 & r2 & H1 & H2 & ->).
    exists (y :: r1), r2. split; [|done].
    simpl. rewrite Hy, H1. reflexivity.
Qed.

Lemma masked_sum_app (xs ys : list Q) (ms ns : list bool) :
  length xs = length ms ->
  (DPO.masked_sum (xs ++ ys) (ms ++ ns) == DPO.masked_sum xs ms + DPO.masked_sum ys ns)%Q.
Proof.
  revert ms. induction xs as [|x xs IH]; intros [|m ms] Hl; try discriminate.
  - unfold DPO.masked_sum. simpl. ring.
  - injection Hl as Hl. specialize (IH ms Hl).
    unfold DPO.masked_sum in *. simpl. rewrite IH. ring.
Qed.

Lemma masked_sum_ignored (xs : list Q) (n : nat) :
  (DPO.masked_sum xs (replicate n false) == 0)%Q.
Proof.
  revert n. induction xs as [|x xs IH]; intros [|n]; try reflexivity.
  specialize (IH n). unfold DPO.masked_sum in *. simpl. rewrite IH. ring.
Qed.

Lemma masked_sum_kept (xs : list Q) :
  (DPO.masked_sum xs (replicate (length xs) true) == Qsum xs)%Q.
Proof.
  induction xs as [|x xs IH]; [reflexivity|].
  unfold DPO.masked_sum, Qsum in *. simpl. rewrite IH. ring.
Qed.

Lemma mask_count_app (ms ns : list bool) :
  DPO.mask_count (ms ++ ns) = DPO.mask_count ms + DPO.mask_count ns.
Proof.
  induction ms as [|m ms IH]; [done|].
  unfold DPO.mask_count in *. simpl. rewrite IH. lia.
Qed.

Lemma mask_count_ignored (n : nat) : DPO.mask_count (replicate n false) = 0.
Proof. induction n as [|n IH]; [done|]. unfold DPO.mask_count in *. simpl. by rewrite IH. Qed.

Lemma mask_count_kept (n : nat) : DPO.mask_count (replicate n true) = Z.of_nat n.
Proof.
  induction n as [|n IH]; [done|]. unfold DPO.mask_count in *.
  cbn [replicate foldr]. rewrite IH. lia.
Qed.

Lemma from_one_cons {A : Type} (x : A) (l : list A) : PySlice.from (x :: l) 1 = l.
Proof. by rewrite from_nonneg. Qed.

Lemma map_replicate {A B : Type} (f : A -> B) (n : nat) (x : A) :
  map f (replicate n x) = replicate n (f x).
Proof. induction n as [|n IH]; [done|]. simpl. by rewrite IH. Qed.

Lemma real_labels_kept (label_pad_token_id : Z) (answer : list Z) :
  forallb (fun t => negb (t =? label_pad_token_id)) answer = true ->
  map (fun l => if l =? label_pad_token_id then 0 else l) answer = answer
  /\ map (fun l => negb (l =? label_pad_token_id)) answer
     = replicate (length answer) true.
Proof.
  induction answer as [|t answer IH]; [done|]. simpl.
  intros [Ht Hrest]%andb_prop. destruct (IH Hrest) as [-> ->].
  destruct (t =? label_pad_token_id); [done|]. done.
Qed.

(** X12: a label is scored by the logits of the position before it, and
    only the labels that are not the label pad value count. For labels
    that begin with [k + 1] ignored positions (the masked prompt)
    followed by real answer tokens, the per-token log-probabilities that
    [get_batch_logps] keeps are those of the answer tokens, read from the
    logits at positions [k], [k + 1], ... (the last logits row is never
    used); their masked sum is the sum of these and the mask counts
    exactly the answer tokens. *)
Theorem per_token_logps_scores_answer_only (log_softmax : list Q -> list Q)
    (label_pad_token_id : Z) (logits : list (list Q)) (k : nat) (answer : list Z)
    (row : list Q * list bool) :
  forallb (fun t => negb (t =? label_pad_token_id)) answer = true ->
  DPO.per_token_logps log_softmax label_pad_token_id logits
    (replicate (S k) label_pad_token_id ++ answer) = Ok row ->
  exists scores,
    gather (map log_softmax (drop k (PySlice.upto logits (-1)))) answer = Ok scores
    /\ (DPO.masked_sum (fst row) (snd row) == Qsum scores)%Q
    /\ DPO.mask_count (snd row) = len answer.
Proof.
  intros Hans H. unfold DPO.per_token_logps in H.
  change (replicate (S k) label_pad_token_id ++ answer)
    with (label_pad_token_id :: (replicate k label_pad_token_id ++ answer)) in H.
  rewrite from_one_cons in H.
  rewrite !map_app, !map_replicate, Z.eqb_refl in H. cbn [negb] in H.
  destruct (real_labels_kept _ _ Hans) as [Hl Hm]. rewrite Hl, Hm in H.
  apply bind_Ok in H as (logps & Hg & H). injection H as <-. cbn [fst snd].
  set (L := map log_softmax (PySlice.upto logits (-1))) in *.
  unfold gather in Hg.
  destruct (Z.ltb_spec (len L) (len (replicate k 0 ++ answer))) as [|Hle]; [discriminate|].
  unfold len in Hle. rewrite length_app, length_replicate in Hle.
  rewrite <- (take_drop k L) in Hg.
  rewrite zip_with_app in Hg by (rewrite length_take, length_replicate; lia).
  apply mapM_app_Ok in Hg as (r1 & r2 & H1 & H2 & ->).
  apply mapM_Ok_length in H1 as Hl1. apply mapM_Ok_length in H2 as Hl2.
  rewrite length_zip_with, length_take, length_replicate in Hl1.
  rewrite length_zip_with, length_drop in Hl2.
  exists r2. split; [|split].
  - unfold gather. rewrite <- skipn_map. fold L.
    destruct (Z.ltb_spec (len (drop k L)) (len answer)) as [Hlt|_]; [|exact H2].
    unfold len in Hlt. rewrite length_drop in Hlt. lia.
  - rewrite masked_sum_app by (rewrite length_replicate; lia).
    rewrite masked_sum_ignored.
    replace (length answer) with (length r2) by lia.
    rewrite masked_sum_kept. ring.
  - rewrite mask_count_app, mask_count_ignored, mask_count_kept. unfold len. lia.
Qed.

Lemma per_token_logps_scores_answer_only_witness :
  exists scores,
    gather (map (fun row => row)
              (drop 1 (PySlice.upto (two_positions ++ padding_positions) (-1))))
      [0; 2] = Ok scores
    /\ (DPO.masked_sum (fst ([(-100)%Q; 0%Q; 0%Q], [false; true; true]))
          (snd ([(-100)%Q; 0%Q; 0%Q], [false; true; true])) == Qsum scores)%Q
    /\ DPO.mask_count (snd ([(-100)%Q; 0%Q; 0%Q], [false; true; true])) = len [0; 2].
Proof.
  apply (per_token_logps_scores_answer_only (fun row => row) (-100)
           (two_positions ++ padding_positions) 1 [0; 2]
           ([(-100)%Q; 0%Q; 0%Q], [false; true; true])); reflexivity.
Defined.

(** X13: labels padded on the right with the label pad value score as the
    unpadded ones. When a row of labels and its logits are extended by
    the same number of positions, the new labels being the label pad
    value, and [get_batch_logps] can score the extended row, it can score
    the original row, with the same masked sum and the same number of
    counted tokens: the sum and the average are those of the row before
    padding. *)
Theorem per_token_logps_ignores_label_padding (log_softmax : list Q -> list Q)
    (label_pad_token_id : Z) (logits extra : list (list Q)) (labels : list Z)
    (padded_row : list Q * list bool) :
  1 <= len labels ->
  len logits = len labels ->
  DPO.per_token_logps log_softmax label_pad_token_id (logits ++ extra)
    (labels ++ replicate (length extra) label_pad_token_id) = Ok padded_row ->
  exists row,
    DPO.per_token_logps log_softmax label_pad_token_id logits labels = Ok row
    /\ (DPO.masked_sum (fst row) (snd row)
        == DPO.masked_sum (fst padded_row) (snd padded_row))%Q
    /\ DPO.mask_count (snd row) = DPO.mask_count (snd padded_row).
Proof.
  intros Hne Hlen H.
  destruct extra as [|e extra].
  { simpl in H. rewrite !app_nil_r in H. exists padded_row. done. }
  destruct labels as [|l0 labels]; [simpl in Hne; unfold len in Hne; simpl in Hne; lia|].
  unfold len in Hlen. simpl in Hlen.
  unfold DPO.per_token_logps in *.
  change ((l0 :: labels) ++ ?x) with (l0 :: (labels ++ x)) in H.
  rewrite !from_one_cons in *.
  rewrite upto_minus_one_removelast in *.
  rewrite removelast_app in H by done.
  rewrite (app_removelast_last [] (l:=logits)) in H at 1
    by (intros ->; simpl in Hlen; lia).
  rewrite <- app_assoc in H.
  rewrite !map_app, !map_replicate, Z.eqb_refl in H. cbn [negb] in H.
  apply bind_Ok in H as (logps & Hg & H). injection H as <-. cbn [fst snd].
  unfold gather in Hg.
  destruct (Z.ltb_spec
              (len (map log_softmax (removelast logits) ++
                    map log_softmax [List.last logits []] ++
                    map log_softmax (removelast (e :: extra))))
              (len (map (fun l => if l =? label_pad_token_id then 0 else l) labels ++
                    replicate (length (e :: extra)) 0))) as [|_]; [discriminate|].
  assert (length (removelast logits) = length labels) as Hrl.
  { rewrite length_removelast. lia. }
  rewrite zip_with_app in Hg by (rewrite !length_map; lia).
  apply mapM_app_Ok in Hg as (r1 & r2 & H1 & H2 & ->).
  apply mapM_Ok_length in H1 as Hl1.
  rewrite length_zip_with, !length_map in Hl1.
  exists (r1, map (fun l => negb (l =? label_pad_token_id)) labels).
  split; [|split].
  - unfold gather.
    destruct (Z.ltb_spec (len (map log_softmax (removelast logits)))
                (len (map (fun l => if l =? label_pad_token_id then 0 else l) labels)))
      as [Hlt|_].
    { unfold len in Hlt. rewrite !length_map in Hlt. lia. }
    rewrite H1. reflexivity.
  - cbn [fst snd]. rewrite masked_sum_app by (rewrite length_map; lia).
    change (false :: replicate (length extra) false)
      with (replicate (S (length extra)) false).
    rewrite masked_sum_ignored. ring.
  - cbn [fst snd]. rewrite mask_count_app.
    change (false :: replicate (length extra) false)
      with (replicate (S (length extra)) false).
    rewrite mask_count_ignored. lia.
Qed.

Lemma per_token_logps_ignores_label_padding_witness :
  exists row,
    DPO.per_token_logps (fun row => row) (-100) two_positions [-100; 1] = Ok row
    /\ (DPO.masked_sum (fst row) (snd row)
        == DPO.masked_sum (fst ([0%Q; 0%Q; (-100)%Q], [true; false; false]))
             (snd ([0%Q; 0%Q; (-100)%Q], [true; false; false])))%Q
    /\ DPO.mask_count (snd row)
       = DPO.mask_count (snd ([0%Q; 0%Q; (-100)%Q], [true; false; false])).
Proof.
  apply (per_token_logps_ignores_label_padding (fun row => row) (-100)
           two_positions padding_positions [-100; 1]
           ([0%Q; 0%Q; (-100)%Q], [true; false; false]));
    [vm_compute; discriminate|reflexivity|reflexivity].
Defined.

Lemma get_batch_logps_Ok (log_softmax : list Q -> list Q) (norm : list Q -> Q)
    (logits : list (list (list Q))) (labels : list (list Z))
    (average_log_prob norm_log_prob : bool) (label_pad_token_id : Z)
    (all_logps : list (option Q)) :
  DPO.get_batch_logps log_softmax norm logits labels average_log_prob norm_log_prob
    label_pad_token_id = Ok all_logps ->
  length logits = length labels
  /\ length all_logps = length labels
  /\ forall i row_labels, labels !! i = Some row_labels ->
       exists row_logits row,
         logits !! i = Some row_logits
         /\ DPO.per_token_logps log_softmax label_pad_token_id row_logits row_labels = Ok row
         /\ all_logps !! i = Some (DPO.reduce_logps norm average_log_prob norm_log_prob row).
Proof.
  unfold DPO.get_batch_logps. intros H.
  destruct (negb _) eqn:Hshape; [discriminate|].
  apply negb_false_iff, andb_prop in Hshape as [Hs0 _].
  apply Z.eqb_eq in Hs0. unfold DPO.size0, len in Hs0.
  apply bind_Ok in H as (rows & Hrows & H). injection H as <-.
  pose proof (mapM_Ok_length _ _ _ Hrows) as Hl. rewrite length_zip_with in Hl.
  split; [lia|]. split; [rewrite length_map; lia|].
  intros i row_labels Hi.
  destruct (lookup_lt_is_Some_2 logits i) as [row_logits Hlg].
  { apply lookup_lt_Some in Hi. lia. }
  assert (zip logits labels !! i = Some (row_logits, row_labels)) as Hz.
  { rewrite lookup_zip_with, Hlg. simpl. by rewrite Hi. }
  destruct (mapM_Ok_lookup _ _ _ _ _ Hrows Hz) as (row & Hrow & Hp). simpl in Hp.
  exists row_logits, row. split; [done|]. split; [done|].
  by rewrite list_lookup_fmap, Hrow.
Qed.

(** X14: [concatenated_forward] scores every pair from its own rows. For
    a batch whose chosen tensors share one width and whose rejected
    tensors share one width, a successful call returns one value per
    chosen row and one per rejected row; the [i]-th chosen value is the
    reduction, under the flags of the mode, of the per-token
    log-probabilities of the [i]-th row of logits against the [i]-th
    chosen labels padded with the label pad value, and the [i]-th
    rejected value is computed the same way from the logits row that
    lies [i] rows after the chosen ones. *)
Theorem concatenated_forward_scores_rows (log_softmax : list Q -> list Q)
    (norm : list Q -> Q) (ref_free_norm : string) (batch : DPO.Batch)
    (label_pad_token_id padding_value : Z) (all_logits : list (list (list Q)))
    (chosen_logps rejected_logps : list (option Q)) :
  rectangular batch = true ->
  DPO.concatenated_forward log_softmax norm ref_free_norm batch label_pad_token_id
    padding_value all_logits = Ok (chosen_logps, rejected_logps) ->
  exists flags,
    DPO.norm_flags ref_free_norm = Ok flags
    /\ length chosen_logps = length (DPO.chosen_labels batch)
    /\ length rejected_logps = length (DPO.rejected_labels batch)
    /\ (forall i labels, DPO.chosen_labels batch !! i = Some labels ->
          exists logits row,
            all_logits !! i = Some logits
            /\ DPO.per_token_logps log_softmax label_pad_token_id logits
                 (pad_row (concatenated_width batch) label_pad_token_id labels) = Ok row
            /\ chosen_logps !! i = Some (DPO.reduce_logps norm (fst flags) (snd flags) row))
    /\ (forall i labels, DPO.rejected_labels batch !! i = Some labels ->
          exists logits row,
            all_logits !! (length (DPO.chosen_labels batch) + i)%nat = Some logits
            /\ DPO.per_token_logps log_softmax label_pad_token_id logits
                 (pad_row (concatenated_width batch) label_pad_token_id labels) = Ok row
            /\ rejected_logps !! i = Some (DPO.reduce_logps norm (fst flags) (snd flags) row)).
Proof.
  intros Hrect H. unfold DPO.concatenated_forward in H.
  destruct (concatenated_inputs_Ok batch label_pad_token_id padding_value Hrect)
    as (Hok & _ & _).
  rewrite Hok in H. clear Hok.
  apply bind_Ok in H as (c & Hc & H). injection Hc as <-.
  apply bind_Ok in H as (flags & Hf & H).
  apply bind_Ok in H as (all_logps & Hall & H). injection H as <- <-.
  cbn [DPO.concatenated_labels] in Hall.
  apply get_batch_logps_Ok in Hall as (_ & Hlen & Hrows).
  rewrite length_app, !length_map in Hlen.
  set (nc := length (DPO.chosen_labels batch)) in *.
  exists flags. split; [done|].
  unfold DPO.size0, len. fold nc.
  rewrite upto_nonneg, from_nonneg by lia. rewrite Nat2Z.id.
  split; [rewrite length_take; lia|]. split; [rewrite length_drop; lia|].
  split.
  - intros i labels Hi.
    destruct (Hrows i (pad_row (concatenated_width batch) label_pad_token_id labels))
      as (logits & row & Hlg & Hp & Hv).
    { rewrite lookup_app_l by (rewrite length_map; by eapply lookup_lt_Some).
      by rewrite list_lookup_fmap, Hi. }
    exists logits, row. split; [done|]. split; [done|].
    rewrite lookup_take_lt by (by eapply lookup_lt_Some). done.
  - intros i labels Hi.
    destruct (Hrows (nc + i)%nat
                (pad_row (concatenated_width batch) label_pad_token_id labels))
      as (logits & row & Hlg & Hp & Hv).
    { rewrite lookup_app_r by (rewrite length_map; fold nc; lia).
      rewrite length_map. fold nc.
      replace (nc + i - nc)%nat with i by lia.
      by rewrite list_lookup_fmap, Hi. }
    exists logits, row. split; [done|]. split; [done|].
    by rewrite lookup_drop.
Qed.

Lemma concatenated_forward_scores_rows_witness :
  exists flags,
    DPO.norm_flags "sum" = Ok flags
    /\ length [Some (-100)%Q] = length (DPO.chosen_labels uneven_pair)
    /\ length [Some 0%Q] = length (DPO.rejected_labels uneven_pair)
    /\ (forall i labels, DPO.chosen_labels uneven_pair !! i = Some labels ->
          exists logits row,
            uneven_pair_logits !! i = Some logits
            /\ DPO.per_token_logps (fun row => row) (-100) logits
                 (pad_row (concatenated_width uneven_pair) (-100) labels) = Ok row
            /\ [Some (-100)%Q] !! i
               = Some (DPO.reduce_logps (fun _ => 0%Q) (fst flags) (snd flags) row))
    /\ (forall i labels, DPO.rejected_labels uneven_pair !! i = Some labels ->
          exists logits row,
            uneven_pair_logits !! (length (DPO.chosen_labels uneven_pair) + i)%nat
              = Some logits
            /\ DPO.per_token_logps (fun row => row) (-100) logits
                 (pad_row (concatenated_width uneven_pair) (-100) labels) = Ok row
            /\ [Some 0%Q] !! i
               = Some (DPO.reduce_logps (fun _ => 0%Q) (fst flags) (snd flags) row)).
Proof.
  apply (concatenated_forward_scores_rows (fun row => row) (fun _ => 0%Q) "sum"
           uneven_pair (-100) 0 uneven_pair_logits [Some (-100)%Q] [Some 0%Q]);
    reflexivity.
Defined.

Lemma Qminus_zero (x : Q) : (x - 0)%Q = x.
Proof.
  destruct x as [n d]. unfold Qminus, Qplus, Qopp. simpl.
  by rewrite Z.mul_1_r, Z.add_0_r, Pos.mul_1_r.
Qed.

(** X15: without reference log-probabilities the mode "none" scores as
    the mode "sum". Both modes make [concatenated_forward] sum the
    per-token log-probabilities, and the rewards that [dpo_inference]
    derives in mode "none" from a missing reference, the policy values
    minus zeros, are the policy values themselves, which is what the
    mode "sum" returns whatever the reference. *)
Theorem rewards_none_without_reference_is_sum (log_softmax : list Q -> list Q)
    (norm : list Q -> Q) (batch : DPO.Batch) (label_pad_token_id padding_value : Z)
    (all_logits : list (list (list Q))) (policy_logps : list Q)
    (ref_logps : option (list Q)) :
  DPO.concatenated_forward log_softmax norm "none" batch label_pad_token_id
    padding_value all_logits
  = DPO.concatenated_forward log_softmax norm "sum" batch label_pad_token_id
      padding_value all_logits
  /\ DPO.rewards "none" policy_logps None = DPO.rewards "sum" policy_logps ref_logps.
Proof.
  split; [reflexivity|].
  unfold DPO.rewards. cbn [String.eqb Ascii.eqb Bool.eqb default from_option id].
  induction policy_logps as [|x xs IH]; [done|].
  cbn [map zip_with]. rewrite Qminus_zero. f_equal. exact IH.
Qed.

(** ** The batch size without an override *)

(** X16: the evaluation loops need an explicit batch-size override. With
    [override_bs] left at [None], the comparison [override_bs > 0] in
    [_get_batch_size] raises [TypeError] at the first split that holds
    a request, in the generation loop, in the log-likelihood loop and in
    the single-token loop alike, before any batch is handed to the
    model. *)
Theorem no_override_raises_type_error {R : Type} (self : TransformersModel)
    (starting_batch_size : Z) (rolling : bool)
    (generate_batch : Z -> list GreedyUntilRequest.t -> result (list R))
    (score : Z -> list LoglikelihoodRequest.t -> result (list R))
    (score_single : Z -> list LoglikelihoodSingleTokenRequest.t -> result (list R))
    (g : GreedyUntilRequest.t) (gs : list GreedyUntilRequest.t)
    (g_rest : list (list GreedyUntilRequest.t))
    (l : LoglikelihoodRequest.t) (ls : list LoglikelihoodRequest.t)
    (l_rest : list (list LoglikelihoodRequest.t))
    (s : LoglikelihoodSingleTokenRequest.t) (ss : list LoglikelihoodSingleTokenRequest.t)
    (s_rest : list (list LoglikelihoodSingleTokenRequest.t)) :
  greedy_until_splits self None generate_batch starting_batch_size ((g :: gs) :: g_rest)
  = Raise TypeError
  /\ loglikelihood_tokens_splits self None rolling score starting_batch_size
       ((l :: ls) :: l_rest)
     = Raise TypeError
  /\ loglikelihood_single_token_splits self None score_single starting_batch_size
       ((s :: ss) :: s_rest)
     = Raise TypeError.
Proof. repeat split; reflexivity. Qed.

(** ** The empty stop sequence *)

Lemma update_done_empty_sequence (lookback_tokens_batch : list string)
    (tracker : list bool) (i : nat) :
  (i + length tracker <= length lookback_tokens_batch)%nat ->
  MultiTokenEOSCriteria.update_done "" lookback_tokens_batch i tracker
  = Ok (replicate (length tracker) true).
Proof.
  revert i. induction tracker as [|d tracker IH]; intros i Hi; [done|].
  simpl in Hi. cbn [MultiTokenEOSCriteria.update_done].
  rewrite (IH (S i)) by lia.
  destruct d; cbn [negb]; [done|].
  destruct (lookup_lt_is_Some_2 lookback_tokens_batch i) as [window ->]; [lia|].
  by destruct window.
Qed.

(** X17: an empty stop sequence stops the generation at the first step.
    The empty string is in every decoded window, so the first call of
    the criterion on a token matrix with a row for every tracked row
    marks all rows done and returns true. *)
Theorem empty_stop_sequence_halts_at_once (self : MultiTokenEOSCriteria.t)
    (input_ids : list (list Z)) :
  MultiTokenEOSCriteria.sequence self = ""%string ->
  (length (MultiTokenEOSCriteria.done_tracker self) <= length input_ids)%nat ->
  exists self',
    MultiTokenEOSCriteria.call self input_ids = Ok (true, self')
    /\ MultiTokenEOSCriteria.done_tracker self'
       = replicate (length (MultiTokenEOSCriteria.done_tracker self)) true.
Proof.
  intros Hseq Hlen. unfold MultiTokenEOSCriteria.call. rewrite Hseq.
  rewrite update_done_empty_sequence by (rewrite !length_map; lia).
  cbn [mbind result_bind].
  assert (forall n, forallb id (replicate n true) = true) as ->
    by (intros n; induction n as [|n IH]; [done|exact IH]).
  eexists. split; reflexivity.
Qed.

Lemma empty_stop_sequence_halts_at_once_witness :
  exists self',
    MultiTokenEOSCriteria.call stop_empty step_one = Ok (true, self')
    /\ MultiTokenEOSCriteria.done_tracker self'
       = replicate (length (MultiTokenEOSCriteria.done_tracker stop_empty)) true.
Proof.
  apply (empty_stop_sequence_halts_at_once stop_empty step_one).
  - reflexivity.
  - simpl. lia.
Defined.

(** ** The generation batch *)

Lemma count_eq_mask_row (row : list Z) :
  forallb (fun x => (x =? 0) || (x =? 1)) row = true ->
  Generation.count_eq 0 row + Generation.count_eq 1 row = len row.
Proof.
  unfold Generation.count_eq, len.
  induction row as [|x row IH]; [done|].
  cbn [forallb map foldr length]. intros [Hx Hrow]%andb_prop.
  specialize (IH Hrow).
  destruct (Z.eqb_spec x 0) as [->|H0]; [simpl; lia|].
  destruct (Z.eqb_spec x 1) as [->|H1]; [simpl; lia|done].
Qed.

Lemma forallb_lookup {A : Type} (f : A -> bool) (l : list A) (i : nat) (x : A) :
  forallb f l = true -> l !! i = Some x -> f x = true.
Proof.
  revert i. induction l as [|y l IH]; intros i H Hi; [done|].
  simpl in H. apply andb_prop in H as [Hy Hl].
  destruct i as [|i]; simpl in Hi.
  - by injection Hi as <-.
  - eauto.
Qed.

(** X18: in the batch that [greedy_until] hands to [_generate], the input
    length of every row is the width of the padded batch, whatever the
    row's padding: it is the number of attended tokens plus the row's
    [padded] count, which is the number of masked positions. *)
Theorem prepared_batch_input_lengths_count_padding (context : list string)
    (tokenized_input_ids tokenized_attention_mask : list (list Z)) (width : Z)
    (i : nat) (mask : list Z) :
  all_width width tokenized_attention_mask = true ->
  is_mask tokenized_attention_mask = true ->
  tokenized_attention_mask !! i = Some mask ->
  Generation.input_lengths
    (Generation.prepared_batch context tokenized_input_ids tokenized_attention_mask) !! i
  = Some width
  /\ Generation.padded
       (Generation.prepared_batch context tokenized_input_ids tokenized_attention_mask) !! i
     = Some (Generation.count_eq 0 mask)
  /\ width = Generation.count_eq 1 mask + Generation.count_eq 0 mask.
Proof.
  intros Hw Hm Hi. cbn [Generation.prepared_batch Generation.input_lengths Generation.padded].
  rewrite !list_lookup_fmap, Hi. cbn [fmap option_fmap option_map].
  apply all_width_Forall in Hw. rewrite Forall_lookup in Hw. specialize (Hw _ _ Hi).
  pose proof (count_eq_mask_row _ (forallb_lookup _ _ _ _ Hm Hi)) as Hc.
  split; [|split; [done|lia]].
  f_equal. unfold len in *. by rewrite length_map.
Qed.

Lemma prepared_batch_input_lengths_count_padding_witness :
  Generation.input_lengths
    (Generation.prepared_batch ["ab"; "abcd"]%string
       [[0; 0; 97; 98]; [97; 98; 99; 100]] [[0; 0; 1; 1]; [1; 1; 1; 1]]) !! 0%nat
  = Some 4
  /\ Generation.padded
       (Generation.prepared_batch ["ab"; "abcd"]%string
          [[0; 0; 97; 98]; [97; 98; 99; 100]] [[0; 0; 1; 1]; [1; 1; 1; 1]]) !! 0%nat
     = Some (Generation.count_eq 0 [0; 0; 1; 1])
  /\ 4 = Generation.count_eq 1 [0; 0; 1; 1] + Generation.count_eq 0 [0; 0; 1; 1].
Proof.
  apply (prepared_batch_input_lengths_count_padding ["ab"; "abcd"]%string
           [[0; 0; 97; 98]; [97; 98; 99; 100]] [[0; 0; 1; 1]; [1; 1; 1; 1]] 4 0);
    reflexivity.
Defined.

(** ** The size of a model *)

Lemma count_storages_app (size : ModelSize.Tensor -> Z)
    (tensors extra : list ModelSize.Tensor) (seen_ptrs : gset Z) (total : Z) :
  exists seen total',
    ModelSize.count_storages size tensors seen_ptrs total = total'
    /\ ModelSize.count_storages size (tensors ++ extra) seen_ptrs total
       = ModelSize.count_storages size extra seen total'
    /\ (forall ptr, ptr ∈ seen_ptrs \/ ptr ∈ storages tensors -> ptr ∈ seen).
Proof.
  revert seen_ptrs total.
  induction tensors as [|t tensors IH]; intros seen_ptrs total.
  - exists seen_ptrs, total. split; [done|]. split; [done|].
    intros ptr [H|H]; [done|]. by apply elem_of_nil in H.
  - cbn [app ModelSize.count_storages].
    destruct (ModelSize.is_meta t) eqn:Hmeta; cbn [orb].
    + destruct (IH seen_ptrs total) as (seen & total' & H1 & H2 & H3).
      exists seen, total'. split; [done|]. split; [done|].
      intros ptr Hptr. apply H3. unfold storages in *. simpl in Hptr.
      by rewrite Hmeta in Hptr.
    + destruct (bool_decide (ModelSize.data_ptr t ∈ seen_ptrs)) eqn:Hseen.
      * destruct (IH seen_ptrs total) as (seen & total' & H1 & H2 & H3).
        exists seen, total'. split; [done|]. split; [done|].
        intros ptr Hptr. apply H3. unfold storages in *. simpl in Hptr.
        rewrite Hmeta in Hptr. simpl in Hptr.
        destruct Hptr as [H|H]; [by left|].
        apply elem_of_cons in H as [->|H]; [|by right].
        left. by apply bool_decide_eq_true in Hseen.
      * destruct (IH ({[ModelSize.data_ptr t]} ∪ seen_ptrs)
                    (total + size t)) as (seen & total' & H1 & H2 & H3).
        exists seen, total'. split; [done|]. split; [done|].
        intros ptr Hptr. apply H3. unfold storages in *. simpl in Hptr.
        rewrite Hmeta in Hptr. simpl in Hptr.
        destruct Hptr as [H|H]; [left; set_solver|].
        apply elem_of_cons in H as [->|H]; [left; set_solver|by right].
Qed.

Lemma count_storages_seen (size : ModelSize.Tensor -> Z)
    (extra : list ModelSize.Tensor) (seen_ptrs : gset Z) (total : Z) :
  forallb (fun t => ModelSize.is_meta t
                    || bool_decide (ModelSize.data_ptr t ∈ seen_ptrs)) extra = true ->
  ModelSize.count_storages size extra seen_ptrs total = total.
Proof.
  induction extra as [|t extra IH]; [done|].
  cbn [forallb ModelSize.count_storages]. intros [Ht Hextra]%andb_prop.
  rewrite Ht. auto.
Qed.

Lemma count_storages_shared (size : ModelSize.Tensor -> Z)
    (tensors extra : list ModelSize.Tensor) :
  all_shared tensors extra = true ->
  ModelSize.count_storages size (tensors ++ extra) ∅ 0
  = ModelSize.count_storages size tensors ∅ 0.
Proof.
  intros Hshared.
  destruct (count_storages_app size tensors extra ∅ 0) as (seen & total' & <- & -> & Hseen).
  apply count_storages_seen.
  unfold all_shared in Hshared.
  rewrite forallb_forall in *. intros t Ht. specialize (Hshared t Ht).
  apply orb_prop in Hshared as [->|Hptr]; [done|].
  apply bool_decide_eq_true in Hptr.
  apply orb_true_iff. right. apply bool_decide_eq_true. auto.
Qed.

(** X19: a storage is counted once. Where
    [_get_model_actual_size_in_bytes] counts the storages itself, on the
    quanto path and on the fallback path, tensors appended to the
    buffers of a model that are on the meta device or share their
    storage with a tensor the model already has (tied weights) leave the
    size unchanged. [footprint] is what [get_memory_footprint] gives on
    the model with the tensors appended; nothing is said of a model
    whose positive footprint is returned as it is. *)
Theorem model_size_counts_shared_storage_once (HAS_QUANTO : bool)
    (model : ModelSize.Model) (is_optimum_quantized : bool)
    (extra : list ModelSize.Tensor) (footprint : option (result Z)) :
  all_shared (ModelSize.parameters model ++ ModelSize.buffers model) extra = true ->
  counts_storages HAS_QUANTO is_optimum_quantized
    (ModelSize.get_memory_footprint model) = true ->
  counts_storages HAS_QUANTO is_optimum_quantized footprint = true ->
  ModelSize._get_model_actual_size_in_bytes HAS_QUANTO
    (ModelSize.mkModel (ModelSize.parameters model) (ModelSize.buffers model ++ extra)
       footprint)
    is_optimum_quantized
  = ModelSize._get_model_actual_size_in_bytes HAS_QUANTO model is_optimum_quantized.
Proof.
  intros Hshared Hold Hnew. unfold ModelSize._get_model_actual_size_in_bytes.
  cbn [ModelSize.parameters ModelSize.buffers ModelSize.get_memory_footprint].
  rewrite app_assoc.
  rewrite (count_storages_shared ModelSize.quantized_bytes) by done.
  rewrite (count_storages_shared ModelSize._bytes_of_tensor) by done.
  unfold counts_storages in Hold, Hnew.
  destruct (is_optimum_quantized && HAS_QUANTO); [reflexivity|].
  cbn [orb] in Hold, Hnew.
  assert (forall fp : option (result Z),
            match fp with Some (Ok v) => v <=? 0 | _ => true end = true ->
            match fp with
            | Some (Ok v) =>
                if v >? 0 then v
                else ModelSize.count_storages ModelSize._bytes_of_tensor
                       (ModelSize.parameters model ++ ModelSize.buffers model) ∅ 0
            | _ => ModelSize.count_storages ModelSize._bytes_of_tensor
                     (ModelSize.parameters model ++ ModelSize.buffers model) ∅ 0
            end
            = ModelSize.count_storages ModelSize._bytes_of_tensor
                (ModelSize.parameters model ++ ModelSize.buffers model) ∅ 0) as Hfall.
  { intros [[v|e]|] Hv; [|done|done].
    apply Z.leb_le in Hv. destruct (Z.gtb_spec v 0); [lia|done]. }
  rewrite (Hfall footprint Hnew).
  rewrite (Hfall (ModelSize.get_memory_footprint model) Hold).
  reflexivity.
Qed.

Lemma model_size_counts_shared_storage_once_witness :
  ModelSize._get_model_actual_size_in_bytes false
    (ModelSize.mkModel (ModelSize.parameters two_weights)
       (ModelSize.buffers two_weights ++ tied_tensors)
       (Some (Ok 0)))
    false
  = ModelSize._get_model_actual_size_in_bytes false two_weights false.
Proof.
  apply (model_size_counts_shared_storage_once false two_weights false tied_tensors
           (Some (Ok 0))); reflexivity.
Defined.

Lemma count_storages_distinct (size : ModelSize.Tensor -> Z)
    (tensors : list ModelSize.Tensor) (seen_ptrs : gset Z) (total : Z) :
  NoDup (map ModelSize.data_ptr tensors) ->
  forallb (fun t => negb (ModelSize.is_meta t)) tensors = true ->
  (forall t, t ∈ tensors -> ModelSize.data_ptr t ∉ seen_ptrs) ->
  ModelSize.count_storages size tensors seen_ptrs total
  = total + foldr Z.add 0 (map size tensors).
Proof.
  revert seen_ptrs total.
  induction tensors as [|t tensors IH]; intros seen_ptrs total Hnd Hmeta Hfresh.
  - simpl. lia.
  - cbn [map] in Hnd. apply NoDup_cons in Hnd as [Ht Hnd].
    cbn [forallb] in Hmeta. apply andb_prop in Hmeta as [Hm Hmeta].
    apply negb_true_iff in Hm.
    cbn [ModelSize.count_storages]. rewrite Hm. cbn [orb].
    rewrite bool_decide_eq_false_2 by (apply Hfresh; left).
    rewrite IH; [simpl; lia|done|done|].
    intros t' Ht'. rewrite elem_of_union, elem_of_singleton.
    intros [Heq|Hin].
    + apply Ht. rewrite <- Heq. apply list_elem_of_fmap. eauto.
    + eapply Hfresh; [right; exact Ht'|done].
Qed.

(** X20: without shared storages the size is the sum of the tensors'
    bytes. For a model that is not quantized with quanto, whose
    [get_memory_footprint] is missing, raises or returns nothing
    positive, whose tensors are not on the meta device and have
    pairwise different storages, [_get_model_actual_size_in_bytes]
    returns the sum of [_bytes_of_tensor] over parameters and buffers. *)
Theorem model_size_sums_distinct_storages (HAS_QUANTO : bool) (model : ModelSize.Model) :
  NoDup (map ModelSize.data_ptr (ModelSize.parameters model ++ ModelSize.buffers model)) ->
  forallb (fun t => negb (ModelSize.is_meta t))
    (ModelSize.parameters model ++ ModelSize.buffers model) = true ->
  match ModelSize.get_memory_footprint model with
  | Some (Ok fp) => fp <=? 0
  | _ => true
  end = true ->
  ModelSize._get_model_actual_size_in_bytes HAS_QUANTO model false
  = foldr Z.add 0 (map ModelSize._bytes_of_tensor
                     (ModelSize.parameters model ++ ModelSize.buffers model)).
Proof.
  intros Hnd Hmeta Hfp. unfold ModelSize._get_model_actual_size_in_bytes.
  cbn [andb].
  assert (ModelSize.count_storages ModelSize._bytes_of_tensor
            (ModelSize.parameters model ++ ModelSize.buffers model) ∅ 0
          = foldr Z.add 0 (map ModelSize._bytes_of_tensor
                             (ModelSize.parameters model ++ ModelSize.buffers model)))
    as Hcount.
  { rewrite count_storages_distinct; [lia|done|done|]. intros t _. set_solver. }
  destruct (ModelSize.get_memory_footprint model) as [[fp|e]|]; [|done|done].
  destruct (Z.gtb_spec fp 0) as [Hpos|_]; [|done].
  apply Z.leb_le in Hfp. lia.
Qed.

Lemma model_size_sums_distinct_storages_witness :
  ModelSize._get_model_actual_size_in_bytes false two_weights false
  = foldr Z.add 0 (map ModelSize._bytes_of_tensor
                     (ModelSize.parameters two_weights ++ ModelSize.buffers two_weights)).
Proof.
  apply (model_size_sums_distinct_storages false two_weights).
  - apply (bool_decide_unpack _). vm_compute. reflexivity.
  - reflexivity.
  - reflexivity.
Defined.

(** ** The documents of the knowledge base *)

Section SplitDocuments.
Import Embed.

Lemma remove_duplicate_invariant (docs : list LangchainDocument) :
  let state := foldl remove_duplicate (∅, []) docs in
  (forall c, is_Some (fst state !! c) <-> c ∈ map page_content docs)
  /\ (forall c, c ∈ map page_content docs -> c ∈ map page_content (snd state))
  /\ NoDup (map page_content (snd state))
  /\ snd state `sublist_of` docs
  /\ (forall doc, doc ∈ snd state ->
        exists i, docs !! i = Some doc
          /\ forall j d, (j < i)%nat -> docs !! j = Some d ->
               page_content d <> page_content doc).
Proof.
  induction docs as [|doc pre IH] using rev_ind.
  - simpl. split; [|split; [done|split; [constructor|split; [done|]]]].
    + intros c. rewrite lookup_empty. split; [by intros [? ?]|by intros ?%elem_of_nil].
    + by intros doc ?%elem_of_nil.
  - rewrite foldl_snoc. simpl in IH.
    destruct (foldl remove_duplicate (∅, []) pre) as [m out].
    cbn [fst snd] in IH. destruct IH as (I1 & I2 & I3 & I4 & I5).
    cbn zeta. unfold remove_duplicate.
    destruct (m !! page_content doc) as [b|] eqn:Hm; cbn [fst snd].
    + (* the text was seen *)
      assert (page_content doc ∈ map page_content pre) as Hseen
        by (apply I1; by rewrite Hm).
      split; [|split; [|split; [done|split]]].
      * intros c. rewrite I1, map_app, elem_of_app. cbn [map].
        rewrite list_elem_of_singleton. split; [by left|].
        intros [H| ->]; done.
      * intros c. rewrite map_app, elem_of_app. cbn [map].
        rewrite list_elem_of_singleton. intros [H| ->]; auto.
      * by apply sublist_inserts_r.
      * intros d Hd. destruct (I5 d Hd) as (i & Hi & Hfirst).
        exists i. split; [by apply lookup_app_l_Some|].
        intros j d' Hj Hd'. apply (Hfirst j d' Hj).
        rewrite lookup_app_l in Hd'; [done|].
        apply lookup_lt_Some in Hi. lia.
    + (* a new text *)
      assert (page_content doc ∉ map page_content pre) as Hnew.
      { intros H. apply I1 in H. rewrite Hm in H. by destruct H. }
      split; [|split; [|split; [|split]]].
      * intros c. rewrite map_app, elem_of_app. cbn [map].
        rewrite list_elem_of_singleton, <- I1.
        destruct (decide (c = page_content doc)) as [->|Hne].
        -- rewrite lookup_insert_eq. split; [by right|by eexists].
        -- rewrite lookup_insert_ne by done. split; [by left|].
           by intros [H|H].
      * intros c. rewrite !map_app, !elem_of_app. cbn [map].
        intros [H|H]; [left; auto|by right].
      * rewrite map_app. apply NoDup_app. split; [done|]. split.
        -- intros c Hc Hc'. cbn [map] in Hc'.
           apply list_elem_of_singleton in Hc' as ->.
           apply list_elem_of_fmap in Hc as (d & Heq & Hd).
           destruct (I5 d Hd) as (i & Hi & _).
           apply Hnew. rewrite Heq. apply list_elem_of_fmap.
           exists d. split; [done|]. by eapply list_elem_of_lookup_2.
        -- cbn [map]. apply NoDup_singleton.
      * by apply sublist_app.
      * intros d Hd. apply elem_of_app in Hd as [Hd|Hd].
        -- destruct (I5 d Hd) as (i & Hi & Hfirst).
           exists i. split; [by apply lookup_app_l_Some|].
           intros j d' Hj Hd'. apply (Hfirst j d' Hj).
           rewrite lookup_app_l in Hd'; [done|].
           apply lookup_lt_Some in Hi. lia.
        -- apply list_elem_of_singleton in Hd as ->.
           exists (length pre). split.
           ++ rewrite lookup_app_r by lia. by rewrite Nat.sub_diag.
           ++ intros j d' Hj Hd' Heq. rewrite lookup_app_l in Hd' by done.
              apply Hnew. rewrite <- Heq. apply list_elem_of_fmap.
              exists d'. split; [done|]. by eapply list_elem_of_lookup_2.
Qed.

End SplitDocuments.

(** X21: [_split_documents] keeps the first chunk of every text. In its
    result no two documents have the same text, the documents kept
    stand in the order the splitter produced them, every text that the
    splitter produced is the text of a document kept, and the document
    kept for a text is the first chunk with that text, so that its
    metadata are those of the first occurrence. *)
Theorem split_documents_keeps_first_of_each_text
    (split_documents : list Embed.LangchainDocument -> list Embed.LangchainDocument)
    (knowledge_base : list Embed.LangchainDocument) :
  let docs := Embed.docs_processed split_documents knowledge_base in
  let unique := Embed._split_documents split_documents knowledge_base in
  NoDup (map Embed.page_content unique)
  /\ unique `sublist_of` docs
  /\ (forall doc, doc ∈ docs ->
        Embed.page_content doc ∈ map Embed.page_content unique)
  /\ (forall doc, doc ∈ unique ->
        exists i, docs !! i = Some doc
          /\ forall j d, (j < i)%nat -> docs !! j = Some d ->
               Embed.page_content d <> Embed.page_content doc).
Proof.
  intros docs unique.
  destruct (remove_duplicate_invariant docs) as (_ & I2 & I3 & I4 & I5).
  split; [done|]. split; [done|]. split; [|done].
  intros doc Hdoc. apply I2. apply list_elem_of_fmap. eauto.
Qed.

(** ** Dialogues *)

Lemma alternate_lookup (lines : list Dialogue.Line) (i : Z) (k : nat) :
  Dialogue.alternate i lines !! k
  = (fun line =>
       Dialogue.mkMessage
         (if (i + Z.of_nat k + 1) mod 2 =? 1 then "user" else "assistant")
         (Dialogue.Text (Dialogue.line_content line))) <$> lines !! k.
Proof.
  revert i k. induction lines as [|line rest IH]; intros i k; [done|].
  destruct k as [|k]; cbn [Dialogue.alternate lookup list_lookup].
  - rewrite Z.add_0_r. simpl. by destruct (_ =? _).
  - rewrite IH. replace (i + 1 + Z.of_nat k + 1) with (i + Z.of_nat (S k) + 1) by lia.
    done.
Qed.

Lemma alternate_length (lines : list Dialogue.Line) (i : Z) :
  length (Dialogue.alternate i lines) = length lines.
Proof.
  revert i. induction lines as [|line rest IH]; intros i; [done|].
  simpl. by rewrite IH.
Qed.

(** X22: a multi-turn prompt needs an odd number of turns. With a chat
    template, the turns of a prompt are given the roles user and
    assistant by their position, whatever roles they came with. A prompt
    with an even number of turns fails the assertion that the last turn
    is the user's; for an odd number the prompt becomes the rendering of
    the turns, and the chosen and the rejected text the rendering of the
    turns followed by the one answer as the assistant's turn. *)
Theorem prepare_dialogue_needs_odd_turns (template : string)
    (apply_chat_template : list Dialogue.Message -> string)
    (line : Dialogue.Line) (rest : list Dialogue.Line) (chosen rejected : string)
    (text_chosen text_rejected : option string) :
  let lines := line :: rest in
  let messages := Dialogue.alternate 0 lines in
  (forall k m, messages !! k = Some m ->
     Dialogue.role m = if Nat.even k then "user"%string else "assistant"%string)
  /\ Dialogue._prepare_dialogue_from_tokenizer (Some template) apply_chat_template
       (Dialogue.mkExample (Dialogue.Turns lines) chosen rejected text_chosen text_rejected)
     = if Nat.even (length lines) then Dialogue.AssertionError
       else Dialogue.Returns
              (Dialogue.mkExample
                 (Dialogue.Text (apply_chat_template messages))
                 chosen rejected
                 (Some (apply_chat_template
                          (messages ++ [Dialogue.mkMessage "assistant"
                                          (Dialogue.Text chosen)])))
                 (Some (apply_chat_template
                          (messages ++ [Dialogue.mkMessage "assistant"
                                          (Dialogue.Text rejected)])))).
Proof.
  intros lines messages.
  assert (forall k : nat, ((0 + Z.of_nat k + 1) mod 2 =? 1) = Nat.even k) as Hpar.
  { intros k. rewrite Z.add_0_l.
    destruct (Nat.even k) eqn:He.
    - apply Nat.even_spec in He as [h ->]. apply Z.eqb_eq.
      rewrite Nat2Z.inj_mul. change (Z.of_nat 2) with 2.
      rewrite Z.add_comm, Z.mul_comm, Z_mod_plus_full. done.
    - apply Z.eqb_neq. rewrite <- Nat.negb_odd in He.
      apply negb_false_iff, Nat.odd_spec in He as [h ->].
      rewrite Nat2Z.inj_add, Nat2Z.inj_mul. change (Z.of_nat 2) with 2.
      change (Z.of_nat 1) with 1.
      replace (2 * Z.of_nat h + 1 + 1) with (0 + (Z.of_nat h + 1) * 2) by lia.
      rewrite Z_mod_plus_full. done. }
  split.
  - intros k m Hk. unfold messages in Hk. rewrite alternate_lookup in Hk.
    destruct (lines !! k) as [l|]; [|done]. injection Hk as <-.
    cbn [Dialogue.role]. by rewrite Hpar.
  - unfold Dialogue._prepare_dialogue_from_tokenizer. subst messages lines.
    cbn [Dialogue.prompt Dialogue.chosen Dialogue.rejected].
    set (lines := line :: rest) in *.
    set (messages := Dialogue.alternate 0 lines) in *.
    assert (length messages = length lines) as Hlen by apply alternate_length.
    assert (length lines = S (length rest)) as Hl by done.
    destruct (lookup_lt_is_Some_2 lines (length rest)) as [l Hlast]; [lia|].
    unfold PySlice.index. cbn [Z.ltb Z.compare].
    destruct (Z.ltb_spec (len messages + -1) 0) as [Hneg|_];
      [unfold len in Hneg; lia|].
    replace (Z.to_nat (len messages + -1)) with (length rest) by (unfold len; lia).
    unfold messages at 1. rewrite alternate_lookup, Hlast. cbn [fmap option_fmap option_map].
    cbn [Dialogue.role]. rewrite Hpar, Hl. rewrite Nat.even_succ, <- Nat.negb_even.
    destruct (Nat.even (length rest)); cbn [negb String.eqb Ascii.eqb Bool.eqb]; [|done].
    do 4 f_equal.
    rewrite length_app, Hlen, Hl. cbn [length].
    replace (S (length rest) + 1 - 1)%nat with (length messages + 0)%nat by lia.
    rewrite insert_app_r. done.
Qed.
